(** * FMC-VQA: style-feature extraction and cross-validated regression

    A shallow embedding of the numeric core of the repository:
    - [SFVQA.gram_matrix]            (src/SFVQA.py)
    - [VideoUtility.get_frames]      (src/VideoUtility.py)
    - [Regression.*]                 (src/regression.py)
    together with the parts of torch, numpy and scikit-learn those
    functions call.  Python exceptions are values of [PyError]; a function
    that may raise returns a [Result]. *)

From Stdlib Require Import String Ascii.
From Stdlib Require Import List Arith ZArith Lia Bool Permutation.
Import ListNotations.

Set Implicit Arguments.

(** ** Exceptions *)

Inductive PyError : Type :=
| ValueError
| TypeError
| RuntimeError
| UnboundLocalError
| IndexError
| DataShapeError
| ConfigurationError.

Inductive Result (A : Type) : Type :=
| Ok (a : A)
| Raise (e : PyError).

Arguments Ok {A} a.
Arguments Raise {A} e.

Definition bind {A B : Type} (c : Result A) (k : A -> Result B) : Result B :=
  match c with
  | Ok a => k a
  | Raise e => Raise e
  end.

Declare Scope py_scope.
Delimit Scope py_scope with py.
Notation "x <- c ;; k" := (bind c (fun x => k))
  (at level 61, c at next level, right associativity) : py_scope.
Open Scope py_scope.

(** ** Row-major tables *)

(** A row-major table laid out by [flat_map]: [rows] blocks of [cols] cells. *)
Definition table (A : Type) (rows cols : nat) (cell : nat -> nat -> A) : list A :=
  flat_map (fun i => map (cell i) (seq 0 cols)) (seq 0 rows).

(** ** torch tensors (the operations [gram_matrix] calls) *)

Module Torch.
Section Tensor.

(** The element type and its arithmetic, kept abstract: the claims about
    [gram_matrix] only ever need the product to be commutative. *)
Variable R : Type.
Variable zero : R.
Variables add mul : R -> R -> R.

(** A contiguous tensor: its shape and its row-major buffer. *)
Record Tensor : Type := mkTensor { size : list nat; data : list R }.

Definition numel (shape : list nat) : nat := fold_right Nat.mul 1 shape.

(** [Tensor.view(shape)]: same buffer, new shape, element counts must agree. *)
Definition view (x : Tensor) (shape : list nat) : Result Tensor :=
  if numel (size x) =? numel shape
  then Ok (mkTensor shape (data x))
  else Raise RuntimeError.

(** [Tensor.t()]: transposes a 2-D tensor, returns 0-D and 1-D ones as is. *)
Definition t (x : Tensor) : Result Tensor :=
  match size x with
  | [] | [_] => Ok x
  | [n; m] =>
      Ok (mkTensor [m; n]
            (table m n (fun j i => nth (i * m + j) (data x) zero)))
  | _ => Raise RuntimeError
  end.

(** Inner product of a row with a column, accumulated left to right. *)
Definition dot (k : nat) (row col : nat -> R) : R :=
  fold_left (fun acc l => add acc (mul (row l) (col l))) (seq 0 k) zero.

(** [torch.mm(a, b)]: both 2-D, inner dimensions equal. *)
Definition mm (a b : Tensor) : Result Tensor :=
  match size a, size b with
  | [n; k], [k'; m] =>
      if k =? k'
      then Ok (mkTensor [n; m]
                 (table n m (fun i j =>
                    dot k (fun l => nth (i * k + l) (data a) zero)
                          (fun l => nth (l * m + j) (data b) zero))))
      else Raise RuntimeError
  | _, _ => Raise RuntimeError
  end.

(** [torch.flatten(x)] *)
Definition flatten (x : Tensor) : Tensor :=
  mkTensor [numel (size x)] (data x).

End Tensor.
End Torch.

(** ** src/SFVQA.py *)

Module SFVQA.
Import Torch.
Section Gram.

Variable R : Type.
Variable zero : R.
Variables add mul : R -> R -> R.

(** [def gram_matrix(tensor)].  The tuple unpacking of [tensor.size()]
    raises [ValueError] unless there are exactly four dimensions. *)
Definition gram_matrix (tensor : Tensor R) : Result (Tensor R) :=
  match size tensor with
  | [b; d; h; w] =>
      tensor' <- view tensor [b * d; h * w] ;;
      tensor_t <- t zero tensor' ;;
      gram <- mm zero add mul tensor' tensor_t ;;
      Ok (flatten gram)
  | _ => Raise ValueError
  end.

(** Entry (i, j) of the product of a [_ x k] buffer with its transpose. *)
Definition gram_entry (k : nat) (buf : list R) (i j : nat) : R :=
  fold_left (fun acc l => add acc (mul (nth (i * k + l) buf zero)
                                        (nth (j * k + l) buf zero)))
            (seq 0 k) zero.

End Gram.
End SFVQA.

(** ** Python strings *)

Module Str.

(** [s.split(sep)] for a one-character separator. *)
Fixpoint split (sep : ascii) (s : string) : list string :=
  match s with
  | EmptyString => [EmptyString]
  | String c rest =>
      if Ascii.eqb c sep then EmptyString :: split sep rest
      else match split sep rest with
           | [] => [String c EmptyString]
           | w :: ws => String c w :: ws
           end
  end.

Definition lower_char (c : ascii) : ascii :=
  let n := nat_of_ascii c in
  if (65 <=? n) && (n <=? 90) then ascii_of_nat (n + 32) else c.

Definition upper_char (c : ascii) : ascii :=
  let n := nat_of_ascii c in
  if (97 <=? n) && (n <=? 122) then ascii_of_nat (n - 32) else c.

(** [s.lower()] and [s.upper()] on ASCII text. *)
Fixpoint lower (s : string) : string :=
  match s with
  | EmptyString => EmptyString
  | String c rest => String (lower_char c) (lower rest)
  end.

Fixpoint upper (s : string) : string :=
  match s with
  | EmptyString => EmptyString
  | String c rest => String (upper_char c) (upper rest)
  end.

End Str.

(** ** src/VideoUtility.py *)

Module VideoUtility.

(** A decoded frame: its [uint8] samples in buffer order. *)
Definition Frame : Type := list Z.

(** [np.subtract] on two [uint8] arrays of one shape: the differences
    wrap around modulo 256.  Arrays of different shapes do not occur among
    the frames of one video and raise here. *)
Definition wrap_sub (a b : Frame) : Frame :=
  map (fun xy => ((fst xy - snd xy) mod 256)%Z) (combine a b).

Definition np_subtract (a b : Frame) : Result Frame :=
  if length a =? length b then Ok (wrap_sub a b) else Raise ValueError.

(** The differences of each frame of [l] with the one before it, [prev]
    being the frame before the first. *)
Fixpoint diffs_from (prev : Frame) (l : list Frame) : list Frame :=
  match l with
  | [] => []
  | frame :: rest => wrap_sub frame prev :: diffs_from frame rest
  end.

(** What [get_frames] hands back: the decoder's generator, [None], or the
    array built from the list of differences. *)
Inductive Returned : Type :=
| Generator (frames : list Frame)
| NoneValue
| Array (items : list Frame).

(** State of the difference loop: [last_frame] (unbound before the first
    iteration) and [frames_diff]. *)
Definition DiffState : Type := (option Frame * list Frame)%type.

(** One iteration of [for i, frame in enumerate(frames_gen)]. *)
Definition diff_step (st : Result DiffState) (x : nat * Frame) : Result DiffState :=
  s <- st ;;
  let (last_frame, frames_diff) := s in
  let (i, frame) := x in
  if 0 <? i
  then match last_frame with
       | Some lf =>
           diff <- np_subtract frame lf ;;
           Ok (Some frame, frames_diff ++ [diff])
       | None => Raise UnboundLocalError
       end
  else Ok (Some frame, frames_diff).

Definition enumerate (A : Type) (l : list A) : list (nat * A) :=
  combine (seq 0 (length l)) l.

Section Reader.

(** [skvideo.io.vreader(path, height, width, as_grey, inputdict pix_fmt)]:
    the decoder, an external collaborator; its frames are a finite sequence. *)
Variable vreader : string -> nat -> nat -> bool -> option string -> list Frame.

(** [def get_frames(vid_path, vid_pix_fmt, frame_color_mode, height, width, *, frame_diff)] *)
Definition get_frames (vid_path vid_pix_fmt frame_color_mode : string)
    (height width : nat) (frame_diff : bool) : Result Returned :=
  let extension := last (Str.split "." vid_path) EmptyString in
  let frames_gen :=
    if String.eqb extension "mp4" then
      Some (vreader vid_path 0 0 false None)
    else if String.eqb frame_color_mode "rgb" then
      Some (vreader vid_path height width false (Some "yuv420p"%string))
    else if String.eqb frame_color_mode "gray" then
      Some (vreader vid_path height width true (Some "yuv420p"%string))
    else None in
  if frame_diff then
    match frames_gen with
    | None => Raise TypeError
    | Some frames =>
        s <- fold_left diff_step (enumerate frames) (Ok (None, [])) ;;
        Ok (Array (snd s))
    end
  else
    match frames_gen with
    | None => Ok NoneValue
    | Some frames => Ok (Generator frames)
    end.

End Reader.
End VideoUtility.

(** ** Pooling of frame descriptors *)

Module Pooling.
Section Pool.

Variable R : Type.
Variables rmax radd : R -> R -> R.
Variable rdiv : R -> nat -> R.

Inductive PoolMethod : Type := Max | Mean.

(** Element-wise combination of the running accumulator with one more
    frame descriptor; descriptors of another length are refused. *)
Definition accumulate (m : PoolMethod) (acc : Result (list R)) (f : list R)
  : Result (list R) :=
  a <- acc ;;
  if length a =? length f
  then Ok (map (fun xy => match m with
                          | Max => rmax (fst xy) (snd xy)
                          | Mean => radd (fst xy) (snd xy)
                          end) (combine a f))
  else Raise DataShapeError.

Definition finish (m : PoolMethod) (count : nat) (acc : list R) : list R :=
  match m with
  | Max => acc
  | Mean => map (fun x => rdiv x count) acc
  end.

(** Modelled from the spec: the module [pooling] ([pooling.simple_pooling],
    called from run.py) is not among the sources.  Section 4.2:
    [pool(sequence_of_FrameDescriptor, method) -> VideoDescriptor] with
    methods max and mean, consuming the sequence in a single pass; an empty
    sequence and descriptors of unequal length are DataShapeErrors. *)
Definition pool (frames : list (list R)) (m : PoolMethod) : Result (list R) :=
  match frames with
  | [] => Raise DataShapeError
  | first :: rest =>
      acc <- fold_left (accumulate m) rest (Ok first) ;;
      Ok (finish m (length frames) acc)
  end.

(** Modelled from the spec: section 7 makes an unsupported pooling method a
    ConfigurationError. *)
Definition method_of_name (pool_type : string) : Result PoolMethod :=
  if String.eqb pool_type "max" then Ok Max
  else if String.eqb pool_type "mean" then Ok Mean
  else Raise ConfigurationError.

End Pool.
End Pooling.

(** ** numpy and scikit-learn: what regression.py calls *)

Module Sklearn.

(** The random number generator behind the splitters.  Neither splitter is
    given a [random_state], so both draw from numpy's global generator, and
    so does every [SVR().fit]; its state is threaded explicitly.  [shuffle]
    is [RandomState.shuffle] and [randint] is [RandomState.randint(high)].
    [nn_draws] is what building and training one Keras model leaves of the
    state: TensorFlow draws from generators of its own, and whatever it may
    take from this one it takes here. *)
Record Generator : Type := mkGenerator {
  RandomState : Type;
  shuffle : RandomState -> list nat -> list nat * RandomState;
  randint : RandomState -> Z -> Z * RandomState;
  nn_draws : RandomState -> RandomState
}.

(** All that is assumed of a generator: shuffling permutes. *)
Definition lawful (G : Generator) : Prop :=
  forall (st : RandomState G) (l : list nat), Permutation l (fst (shuffle G st l)).

(** [rng.permutation(n)] is [shuffle] applied to [np.arange(n)]. *)
Definition permutation (G : Generator) (st : RandomState G) (n : nat)
  : list nat * RandomState G :=
  shuffle G st (seq 0 n).

Definition mem (x : nat) (l : list nat) : bool := existsb (Nat.eqb x) l.

(** [np.flatnonzero(np.isin(a, values))] *)
Definition where_isin (a values : list nat) : list nat :=
  filter (fun i => mem (nth i a 0) values) (seq 0 (length a)).

Fixpoint index_of (v : nat) (l : list nat) : nat :=
  match l with
  | [] => 0
  | x :: rest => if v =? x then 0 else S (index_of v rest)
  end.

(** [np.unique(a, return_inverse=True)]: the sorted distinct values and,
    for every element, the position of its value among them. *)
Definition unique (a : list nat) : list nat * list nat :=
  let classes := filter (fun v => mem v a) (seq 0 (S (list_max a))) in
  (classes, map (fun v => index_of v classes) a).

(** [indexable]/[check_consistent_length]: all lengths equal. *)
Definition indexable (lengths : list nat) : Result unit :=
  match lengths with
  | [] => Ok tt
  | n :: rest => if forallb (Nat.eqb n) rest then Ok tt else Raise ValueError
  end.

(** [_validate_shuffle_split] with [test_size=None] and a float
    [train_size], given as the fraction [num/den]: the training part is
    [floor(train_size * n_samples)], the test part is the rest. *)
Definition validate_shuffle_split (n_samples : nat) (train_size : nat * nat)
  : Result (nat * nat) :=
  let (num, den) := train_size in
  if (num =? 0) || (den <=? num) then Raise ValueError
  else
    let n_train := n_samples * num / den in
    let n_test := n_samples - n_train in
    if n_train =? 0 then Raise ValueError else Ok (n_train, n_test).

(** [ShuffleSplit._iter_indices]: one permutation per split. *)
Fixpoint shuffle_split_iter (G : Generator) (n_splits n_samples n_train n_test : nat)
    (st : RandomState G) : list (list nat * list nat) * RandomState G :=
  match n_splits with
  | 0 => ([], st)
  | S k =>
      let (perm, st1) := permutation G st n_samples in
      let ind_test := firstn n_test perm in
      let ind_train := firstn n_train (skipn n_test perm) in
      let (rest, st2) := shuffle_split_iter G k n_samples n_train n_test st1 in
      ((ind_train, ind_test) :: rest, st2)
  end.

(** One split of [shuffle_split_iter]: the two ends of a permutation of
    [range(n)]. *)
Definition drawn_from (n n_train n_test : nat) (part : list nat * list nat) : Prop :=
  exists perm,
    Permutation (seq 0 n) perm /\
    fst part = firstn n_train (skipn n_test perm) /\
    snd part = firstn n_test perm.

(** [GroupShuffleSplit(n_splits, train_size).split(X, y, groups)]: the
    classes are split, then each side is turned back into sample indices. *)
Definition group_shuffle_split (G : Generator) (n_splits : nat) (train_size : nat * nat)
    (st : RandomState G) (n_X n_y : nat) (groups : list nat)
  : Result (list (list nat * list nat) * RandomState G) :=
  _ <- indexable [n_X; n_y; length groups] ;;
  let (classes, group_indices) := unique groups in
  sizes <- validate_shuffle_split (length classes) train_size ;;
  let (n_train, n_test) := sizes in
  let (parts, st') :=
    shuffle_split_iter G n_splits (length classes) n_train n_test st in
  Ok (map (fun gg => (where_isin group_indices (fst gg),
                      where_isin group_indices (snd gg))) parts, st').

(** Consecutive slices [indices[start:stop]] of the given sizes. *)
Fixpoint slices (indices : list nat) (fold_sizes : list nat) : list (list nat) :=
  match fold_sizes with
  | [] => []
  | fold_size :: rest =>
      firstn fold_size indices :: slices (skipn fold_size indices) rest
  end.

(** [KFold._iter_test_indices] with [shuffle=True]. *)
Definition kfold_test_indices (G : Generator) (n_splits : nat) (st : RandomState G)
    (n_samples : nat) : list (list nat) * RandomState G :=
  let (indices, st') := shuffle G st (seq 0 n_samples) in
  let fold_sizes :=
    map (fun i => n_samples / n_splits + (if i <? n_samples mod n_splits then 1 else 0))
        (seq 0 n_splits) in
  (slices indices fold_sizes, st').

(** [KFold(n_splits, shuffle=True).split(X)]: each test slice becomes a
    boolean mask over [np.arange(n_samples)]; train is the complement. *)
Definition kfold_split (G : Generator) (n_splits : nat) (st : RandomState G)
    (n_samples : nat) : Result (list (list nat * list nat) * RandomState G) :=
  if n_samples <? n_splits then Raise ValueError
  else
    let (tests, st') := kfold_test_indices G n_splits st n_samples in
    Ok (map (fun test_index =>
               (filter (fun i => negb (mem i test_index)) (seq 0 n_samples),
                filter (fun i => mem i test_index) (seq 0 n_samples))) tests,
        st').

(** One repetition of 5-fold cross-validation over [range(n)]: five folds;
    the test sides together hold every index exactly once; within a fold the
    two sides are disjoint and cover all indices. *)
Definition kfold_partition (n : nat) (folds : list (list nat * list nat)) : Prop :=
  length folds = 5 /\
  Permutation (concat (map snd folds)) (seq 0 n) /\
  (forall i, i < n ->
     exists k, k < 5 /\ In i (nth k (map snd folds) []) /\
       forall k', k' < 5 -> In i (nth k' (map snd folds) []) -> k' = k) /\
  Forall (fun fold =>
            (forall i, In i (fst fold) -> ~ In i (snd fold)) /\
            (forall i, i < n -> In i (fst fold) \/ In i (snd fold))) folds.

(** Folds as even as they can be: test fold k has one index more than
    [n // 5] exactly when k is below [n % 5], and the two sides of every fold
    hold n indices together. *)
Definition balanced_folds (n : nat) (folds : list (list nat * list nat)) : Prop :=
  (forall k, k < 5 ->
     length (snd (nth k folds ([], []))) = n / 5 + (if k <? n mod 5 then 1 else 0)) /\
  Forall (fun fold => length (fst fold) + length (snd fold) = n) folds.

(** The numeric back end: the element type with its arithmetic, the column
    statistics of [StandardScaler], the two regressors and the two
    correlation tests.  All of it is library code, kept abstract.  [svr_fit]
    is libsvm's [fit] with the [random_seed] that [SVR.fit] hands it. *)
Record Backend : Type := mkBackend {
  num : Type;
  zero : num;
  add : num -> num -> num;
  sub : num -> num -> num;
  mul : num -> num -> num;
  div : num -> num -> num;
  mean : list num -> num;
  std : list num -> num;
  SVRModel : Type;
  NNModel : Type;
  svr_fit : list (list num) -> list num -> Z -> SVRModel;
  svr_predict : SVRModel -> list (list num) -> list num;
  nn_fit : list (list num) -> list num -> NNModel;
  nn_predict : NNModel -> list (list num) -> list num;
  spearmanr : list num -> list num -> num * num;
  pearsonr : list num -> list num -> num * num
}.

Section Scaling.
Variable B : Backend.

(** A fitted [StandardScaler]: per-column mean and scale. *)
Record StandardScaler : Type := mkScaler {
  mean_ : list (num B);
  scale_ : list (num B)
}.

Definition column (j : nat) (X : list (list (num B))) : list (num B) :=
  map (fun row => nth j row (zero B)) X.

Definition n_features (X : list (list (num B))) : nat :=
  match X with
  | [] => 0
  | row :: _ => length row
  end.

(** [check_array], as the scaler calls it on what it is given: an array
    with no sample or no feature is refused. *)
Definition check_array (X : list (list (num B))) : Result unit :=
  match X with
  | [] => Raise ValueError
  | row :: _ => if length row =? 0 then Raise ValueError else Ok tt
  end.

(** [StandardScaler().fit(X)] *)
Definition fit (X : list (list (num B))) : StandardScaler :=
  mkScaler (map (fun j => mean B (column j X)) (seq 0 (n_features X)))
           (map (fun j => std B (column j X)) (seq 0 (n_features X))).

(** [sc.transform(X)]: [(x - mean_) / scale_], column by column. *)
Definition transform (sc : StandardScaler) (X : list (list (num B)))
  : list (list (num B)) :=
  map (fun row =>
         map (fun xms => div B (sub B (fst xms) (fst (snd xms))) (snd (snd xms)))
             (combine row (combine (mean_ sc) (scale_ sc)))) X.

(** [sc.inverse_transform(X)]: [x * scale_ + mean_]. *)
Definition inverse_transform (sc : StandardScaler) (X : list (list (num B)))
  : list (list (num B)) :=
  map (fun row =>
         map (fun xms => add B (mul B (fst xms) (snd (snd xms))) (fst (snd xms)))
             (combine row (combine (mean_ sc) (scale_ sc)))) X.

(** A fitted regressor of either kind, and its [predict]. *)
Inductive Regressor : Type :=
| SVR (model : SVRModel B)
| NeuralNetwork (model : NNModel B).

Definition predict (r : Regressor) (X : list (list (num B))) : list (num B) :=
  match r with
  | SVR model => svr_predict B model X
  | NeuralNetwork model => nn_predict B model X
  end.

End Scaling.
End Sklearn.

(** ** src/regression.py *)

Module Regression.
Import Sklearn.

(** [range(start, stop, step)] for a positive step. *)
Definition range (start stop step : nat) : list nat :=
  map (fun k => start + k * step) (seq 0 ((stop - start + step - 1) / step)).

(** [np.empty(n, dtype='u1')]: [n] cells of whatever the memory holds. *)
Definition np_empty (n : nat) (garbage : nat -> nat) : list nat :=
  map garbage (seq 0 n).

(** [a[i:j] = v] on a numpy array. *)
Definition slice_assign (a : list nat) (i j v : nat) : list nat :=
  firstn i a ++ repeat v (Nat.min j (length a) - i) ++ skipn j a.

(** Fancy indexing [a[idx]]. *)
Definition take (A : Type) (a : list A) (idx : list nat) : Result (list A) :=
  fold_right
    (fun i acc =>
       rest <- acc ;;
       match nth_error a i with
       | Some x => Ok (x :: rest)
       | None => Raise IndexError
       end)
    (Ok []) idx.

(** [np.array(y).reshape(-1, 1)] and, back, [.squeeze()] of a column. *)
Definition reshape_column (A : Type) (y : list A) : list (list A) :=
  map (fun v => [v]) y.

Definition squeeze (A : Type) (y : list (list A)) : list A := concat y.

(** Did the call return? *)
Definition returns (A : Type) (r : Result A) : bool :=
  match r with
  | Ok _ => true
  | Raise _ => false
  end.

(** Run a loop body over a list, stopping at the first exception. *)
Fixpoint for_each (A B : Type) (body : A -> Result B) (l : list A) : Result (list B) :=
  match l with
  | [] => Ok []
  | x :: rest =>
      b <- body x ;;
      bs <- for_each body rest ;;
      Ok (b :: bs)
  end.

(** Run a loop body that draws from the generator over a list: the state
    left by one iteration is the state the next one starts from. *)
Fixpoint for_each_st (A C S : Type) (body : A -> S -> Result (C * S)) (l : list A)
    (st : S) : Result (list C * S) :=
  match l with
  | [] => Ok ([], st)
  | x :: rest =>
      r <- body x st ;;
      rs <- for_each_st body rest (snd r) ;;
      Ok (fst r :: fst rs, snd rs)
  end.

(** The body of [for i in range(0, 150, 15)] in [live_dataset_regression]:
    the state is [(groups, video_groups)]. *)
Definition group_step (video_list : list string)
    (st : Result (list nat * list string)) (i : nat)
  : Result (list nat * list string) :=
  s <- st ;;
  let (groups, video_groups) := s in
  let groups := slice_assign groups i (i + 15) (i / 15) in
  match nth_error video_list i with
  | Some name => Ok (groups, video_groups ++ [name])
  | None => Raise IndexError
  end.

Definition build_groups (video_list : list string) (garbage : nat -> nat)
  : Result (list nat * list string) :=
  fold_left (group_step video_list) (range 0 150 15) (Ok (np_empty 150 garbage, [])).

(** The group array the loop is meant to build: [index // 15]. *)
Definition live_groups : list nat := map (fun i => i / 15) (seq 0 150).

(** A split that samples whole groups: eight group ids on the train side,
    two on the test side, every index on the side of its group id. *)
Definition whole_groups (split : list nat * list nat) : Prop :=
  exists group_train group_test,
    length group_train = 8 /\
    length group_test = 2 /\
    (forall i, In i (fst split) <-> i < 150 /\ In (i / 15) group_train) /\
    (forall i, In i (snd split) <-> i < 150 /\ In (i / 15) group_test).

(** A split of the 150 videos into 120 for training and 30 for testing
    that leaves no video out. *)
Definition four_to_one (split : list nat * list nat) : Prop :=
  length (fst split) = 120 /\
  length (snd split) = 30 /\
  forall i, i < 150 -> In i (fst split) \/ In i (snd split).

(** No group id on both sides of a split. *)
Definition groups_apart (groups : list nat) (split : list nat * list nat) : Prop :=
  forall i j, In i (fst split) -> In j (snd split) ->
              nth i groups 0 <> nth j groups 0.

Section Evaluation.
Variable B : Backend.
Variable G : Generator.

(** The local variables of one pass through the per-fold loop body. *)
Record FoldLocals : Type := mkFold {
  train_idx : list nat;
  test_idx : list nat;
  sc_X : StandardScaler B;
  sc_y : StandardScaler B;
  X_train : list (list (num B));
  X_test : list (list (num B));
  y_train : list (list (num B));
  y_test : list (list (num B));
  regressor : Regressor B;
  y_pred : list (list (num B));
  coef : num B;
  p : num B;
  corr : num B
}.

(** [if regression_method == 'svr': ... elif regression_method == 'nn': ...];
    with any other name [regressor] stays unbound and [regressor.predict]
    raises.  [SVR.fit] draws the seed it hands to libsvm from the global
    generator, [rnd.randint(np.iinfo('i').max)], once per call. *)
Definition fit_regressor (regression_method : string) (X_train y_train : list (list (num B)))
    (st : RandomState G) : Result (Regressor B * RandomState G) :=
  if String.eqb regression_method "svr" then
    let (seed, st') := randint G st 2147483647%Z in
    Ok (SVR B (svr_fit B X_train (squeeze y_train) seed), st')
  else if String.eqb regression_method "nn" then
    Ok (NeuralNetwork B (nn_fit B X_train (squeeze y_train)), nn_draws G st)
  else Raise UnboundLocalError.

(** [scipy.stats.mstats.spearmanr(x, y)]: the two samples are stacked as
    columns, which needs equal lengths, and fewer than two observations
    leave a negative number of degrees of freedom; both raise ValueError. *)
Definition mstats_spearmanr (x y : list (num B)) : Result (num B * num B) :=
  if negb (length x =? length y) then Raise ValueError
  else if length x <? 2 then Raise ValueError
  else Ok (spearmanr B x y).

(** The loop body shared by both evaluation functions, from the generator
    state it is entered with to the one it leaves. *)
Definition per_fold (regression_method : string) (X y : list (list (num B)))
    (split : list nat * list nat) (st : RandomState G)
  : Result (FoldLocals * RandomState G) :=
  let (train_idx, test_idx) := split in
  X_train <- take X train_idx ;;
  y_train <- take y train_idx ;;
  X_test <- take X test_idx ;;
  y_test <- take y test_idx ;;
  _ <- check_array B X_train ;;
  let sc_X := fit B X_train in
  let X_train := transform sc_X X_train in
  _ <- check_array B X_test ;;
  let X_test := transform sc_X X_test in
  _ <- check_array B y_train ;;
  let sc_y := fit B y_train in
  let y_train := transform sc_y y_train in
  fitted <- fit_regressor regression_method X_train y_train st ;;
  let (regressor, st') := fitted in
  let y_pred := predict regressor X_test in
  let y_pred := reshape_column y_pred in
  let y_pred := inverse_transform sc_y y_pred in
  rho <- mstats_spearmanr (squeeze y_test) (squeeze y_pred) ;;
  let (coef, p) := rho in
  let (corr, _) := pearsonr B (squeeze y_test) (squeeze y_pred) in
  Ok (mkFold train_idx test_idx sc_X sc_y X_train X_test y_train y_test
             regressor y_pred coef p corr, st').

(** The two index sets a fold was evaluated on. *)
Definition sides (f : FoldLocals) : list nat * list nat :=
  (train_idx f, test_idx f).

(** Feature [j] of the videos at the indices [idx] of the [n x d] array
    [X], and the scores of the videos at [idx]. *)
Definition features_at (X : list (list (num B))) (idx : list nat) (j : nat)
  : list (num B) :=
  map (fun i => nth j (nth i X []) (zero B)) idx.

Definition scores_at (y : list (num B)) (idx : list nat) : list (num B) :=
  map (fun i => nth i y (zero B)) idx.

(** Steps 2 to 6 of the per-fold procedure, read off a fold's locals sample
    by sample, for an array [X] of [d] features and the scores [y].  With
    mean and scale of feature j taken over the training indices alone, the
    feature standardizer holds these [d] means and scales; the training and
    the test features are the rows of [X] at the training and at the test
    indices, each sample as [(x - mean) / scale]; the score standardizer
    holds mean and scale of the training scores, the training scores are
    standardized with them, the test scores are left as given; each
    prediction [v] on the standardized test features comes back as
    [v * scale + mean] of the training scores, and it is these that the two
    correlations compare with the test scores. *)
Definition scaled_by_training (d : nat) (X : list (list (num B))) (y : list (num B))
    (f : FoldLocals) : Prop :=
  let mu := fun j => mean B (features_at X (train_idx f) j) in
  let sigma := fun j => std B (features_at X (train_idx f) j) in
  let mu_y := mean B (scores_at y (train_idx f)) in
  let sigma_y := std B (scores_at y (train_idx f)) in
  let scaled := fun i =>
    map (fun j => div B (sub B (nth j (nth i X []) (zero B)) (mu j)) (sigma j))
        (seq 0 d) in
  let restored :=
    map (fun v => add B (mul B v sigma_y) mu_y) (predict (regressor f) (X_test f)) in
  Forall (fun i => i < length X) (train_idx f) /\
  Forall (fun i => i < length X) (test_idx f) /\
  train_idx f <> [] /\
  test_idx f <> [] /\
  mean_ (sc_X f) = map mu (seq 0 d) /\
  scale_ (sc_X f) = map sigma (seq 0 d) /\
  X_train f = map scaled (train_idx f) /\
  X_test f = map scaled (test_idx f) /\
  mean_ (sc_y f) = [mu_y] /\
  scale_ (sc_y f) = [sigma_y] /\
  y_train f = map (fun i => [div B (sub B (nth i y (zero B)) mu_y) sigma_y])
                  (train_idx f) /\
  y_test f = map (fun i => [nth i y (zero B)]) (test_idx f) /\
  y_pred f = map (fun v => [v]) restored /\
  (coef f, p f) = spearmanr B (scores_at y (test_idx f)) restored /\
  corr f = fst (pearsonr B (scores_at y (test_idx f)) restored).

(** Two folds whose standardizers and standardized training data
    coincide. *)
Definition same_fit (f f' : FoldLocals) : Prop :=
  sc_X f = sc_X f' /\ sc_y f = sc_y f' /\
  X_train f = X_train f' /\ y_train f = y_train f'.

(** The fold fitted a support vector regressor. *)
Definition fitted_svr (f : FoldLocals) : Prop :=
  exists model, regressor f = SVR B model.

(** What a run leaves to be seen of its splits: the (train, test) index
    sets of its folds, in order, and the generator state it ends in. *)
Definition trace (r : Result (list FoldLocals * RandomState G))
  : option (list (list nat * list nat) * RandomState G) :=
  match r with
  | Ok (folds, st) => Some (map sides folds, st)
  | Raise _ => None
  end.

(** [return SROCC_coef, SROCC_p, PLCC] *)
Definition returned (folds : list FoldLocals)
  : list (num B) * list (num B) * list (num B) :=
  (map coef folds, map p folds, map corr folds).

(** The splitter of [live_dataset_regression] run on its own: the group
    array, then the 50 splits of
    [GroupShuffleSplit(n_splits=50, train_size=0.8).split(X, y, groups)]
    drawn one after the other, with no draw of a regressor in between. *)
Definition live_splits (st : RandomState G) (video_list : list string)
    (garbage : nat -> nat) (n_X n_y : nat)
  : Result (list (list nat * list nat) * RandomState G) :=
  gv <- build_groups video_list garbage ;;
  group_shuffle_split G 50 (4, 5) st n_X n_y (fst gv).

(** One pass of [for train_idx, test_idx in gss.split(X, y, groups)]: the
    splitter is a generator, so the permutation of a split is drawn when the
    loop asks for that split, after whatever the bodies before it drew; the
    two ends of the permutation are turned into sample indices and the body
    runs on them. *)
Definition live_iteration (regression_method : string) (X y : list (list (num B)))
    (group_indices : list nat) (n_classes n_train n_test : nat)
    (i : nat) (st : RandomState G) : Result (FoldLocals * RandomState G) :=
  let (perm, st1) := permutation G st n_classes in
  let ind_test := firstn n_test perm in
  let ind_train := firstn n_train (skipn n_test perm) in
  per_fold regression_method X y
    (where_isin group_indices ind_train, where_isin group_indices ind_test) st1.

(** The loop of [live_dataset_regression], fold by fold: what
    [GroupShuffleSplit.split] does before its first split ([indexable],
    [np.unique], [_validate_shuffle_split]), then [n_splits] = 50 passes. *)
Definition live_folds (st : RandomState G) (video_list : list string)
    (garbage : nat -> nat) (X : list (list (num B))) (y : list (num B))
    (regression_method : string) : Result (list FoldLocals * RandomState G) :=
  let y := reshape_column y in
  gv <- build_groups video_list garbage ;;
  _ <- indexable [length X; length y; length (fst gv)] ;;
  let (classes, group_indices) := unique (fst gv) in
  sizes <- validate_shuffle_split (length classes) (4, 5) ;;
  let (n_train, n_test) := sizes in
  for_each_st
    (live_iteration regression_method X y group_indices (length classes) n_train n_test)
    (seq 0 50) st.

(** [def live_dataset_regression(X, y, regression_method='svr')] *)
Definition live_dataset_regression (st : RandomState G) (video_list : list string)
    (garbage : nat -> nat) (X : list (list (num B))) (y : list (num B))
    (regression_method : string) :=
  r <- live_folds st video_list garbage X y regression_method ;;
  Ok (returned (fst r), snd r).

(** [for _ in range(10): kfold = KFold(n_splits=5, shuffle=True); kfold.split(X)],
    the splitter run on its own: ten shuffles drawn one after the other. *)
Fixpoint repeated_kfold (repeats : nat) (st : RandomState G) (n_samples : nat)
  : Result (list (list (list nat * list nat)) * RandomState G) :=
  match repeats with
  | 0 => Ok ([], st)
  | S k =>
      s <- kfold_split G 5 st n_samples ;;
      r <- repeated_kfold k (snd s) n_samples ;;
      Ok (fst s :: fst r, snd r)
  end.

Definition konvid1k_splits (st : RandomState G) (n_samples : nat) :=
  repeated_kfold 10 st n_samples.

(** One pass of [for _ in range(10)]: [kfold.split(X)] shuffles once, when
    the inner loop asks for its first fold, and the five bodies follow, each
    from the state the one before it left. *)
Definition konvid1k_repetition (regression_method : string) (X y : list (list (num B)))
    (i : nat) (st : RandomState G) : Result (list FoldLocals * RandomState G) :=
  s <- kfold_split G 5 st (length X) ;;
  for_each_st (per_fold regression_method X y) (fst s) (snd s).

(** The loops of [konvid1k_dataset_regression], fold by fold. *)
Definition konvid1k_folds (st : RandomState G) (X : list (list (num B))) (y : list (num B))
    (regression_method : string) : Result (list FoldLocals * RandomState G) :=
  let y := reshape_column y in
  r <- for_each_st (konvid1k_repetition (Str.lower regression_method) X y)
                   (seq 0 10) st ;;
  Ok (concat (fst r), snd r).

(** [def konvid1k_dataset_regression(X, y, regression_method='svr')] *)
Definition konvid1k_dataset_regression (st : RandomState G) (X : list (list (num B)))
    (y : list (num B)) (regression_method : string) :=
  r <- konvid1k_folds st X y regression_method ;;
  Ok (returned (fst r), snd r).

(** The dispatch of [regression], fold by fold. *)
Definition regression_folds (st : RandomState G) (video_list : list string)
    (garbage : nat -> nat) (X : list (list (num B))) (y : list (num B))
    (regression_method dataset : string) : Result (list FoldLocals * RandomState G) :=
  if String.eqb (Str.upper dataset) "LIVE" then
    live_folds st video_list garbage X y "svr"
  else if String.eqb (Str.upper dataset) "KONVID1K" then
    konvid1k_folds st X y "svr"
  else Raise UnboundLocalError.

(** [def regression(X, y, regression_method='svr', dataset='LIVE')]: what it
    prints, the three sequences it got back. *)
Definition regression (st : RandomState G) (video_list : list string)
    (garbage : nat -> nat) (X : list (list (num B))) (y : list (num B))
    (regression_method dataset : string) :=
  r <- regression_folds st video_list garbage X y regression_method dataset ;;
  Ok (returned (fst r), snd r).

End Evaluation.

Arguments trace {B G} r.

End Regression.

(** ** src/VideoUtility.py, continued: adding a difference back *)

Module FrameArithmetic.
Import VideoUtility.

(** [np.add] on two [uint8] arrays of one shape, wrapping modulo 256. *)
Definition wrap_add (a b : Frame) : Frame :=
  map (fun xy => ((fst xy + snd xy) mod 256)%Z) (combine a b).

(** A frame of [uint8] samples. *)
Definition uint8_frame (f : Frame) : Prop :=
  Forall (fun v => (0 <= v < 256)%Z) f.

End FrameArithmetic.

(** ** src/DatasetHandler.py *)

Module DatasetHandler.
Import Regression.

(** The lines a text file yields when iterated: each keeps its newline,
    the last one may lack it, an empty file has none. *)
Fixpoint file_lines (content : string) : list string :=
  match content with
  | EmptyString => []
  | String c rest =>
      if Ascii.eqb c "010" then String c EmptyString :: file_lines rest
      else match file_lines rest with
           | [] => [String c EmptyString]
           | line :: more => String c line :: more
           end
  end.

(** ASCII whitespace as [str.split()] sees it. *)
Definition is_space (c : ascii) : bool :=
  let n := nat_of_ascii c in
  ((9 <=? n) && (n <=? 13)) || ((28 <=? n) && (n <=? 32)).

(** [s.split()]: the maximal runs of non-whitespace characters. *)
Fixpoint split_whitespace (s : string) : list string :=
  match s with
  | EmptyString => []
  | String c rest =>
      if is_space c then split_whitespace rest
      else match rest with
           | EmptyString => [String c EmptyString]
           | String c' _ =>
               if is_space c' then String c EmptyString :: split_whitespace rest
               else match split_whitespace rest with
                    | [] => [String c EmptyString]
                    | word :: more => String c word :: more
                    end
           end
  end.

(** How often a character occurs in a string. *)
Fixpoint count_char (c : ascii) (s : string) : nat :=
  match s with
  | EmptyString => 0
  | String c' rest => (if Ascii.eqb c' c then 1 else 0) + count_char c rest
  end.

Section Parsing.

(** Python floats and [float(s)], which raises ValueError on text that is
    not a number. *)
Variable F : Type.
Variable py_float : string -> option F.

Definition float (s : string) : Result F :=
  match py_float s with
  | Some v => Ok v
  | None => Raise ValueError
  end.

(** The body of the loop of [get_csiq_info] for one enumerated line; the
    state is [(videos, dmos)]. *)
Definition csiq_step (st : Result (list string * list F)) (x : nat * string)
  : Result (list string * list F) :=
  s <- st ;;
  let (videos, dmos) := s in
  let (i, line) := x in
  if i =? 0 then Ok (videos, dmos)
  else
    match nth_error (split_whitespace line) 0 with
    | None => Raise IndexError
    | Some name =>
        let videos := videos ++ [name] in
        match nth_error (split_whitespace line) 1 with
        | None => Raise IndexError
        | Some field =>
            score <- float field ;;
            Ok (videos, dmos ++ [score])
        end
    end.

(** [def get_csiq_info(file_path)], on the text of the file. *)
Definition get_csiq_info (content : string) : Result (list string * list F) :=
  fold_left csiq_step (VideoUtility.enumerate (file_lines content)) (Ok ([], [])).

(** One data line of the CSIQ file: its first field and the number in its
    second. *)
Definition csiq_row (line : string) : Result (string * F) :=
  match nth_error (split_whitespace line) 0 with
  | None => Raise IndexError
  | Some name =>
      match nth_error (split_whitespace line) 1 with
      | None => Raise IndexError
      | Some field =>
          score <- float field ;;
          Ok (name, score)
      end
  end.

(** [def get_live_info(video_file, dmos_file)], on the texts of the two
    files. *)
Definition get_live_info (vid_file dmos_file : string)
  : Result (list string * list F) :=
  let videos := Str.split "010" vid_file in
  let scores := Str.split "010" dmos_file in
  dmos <- for_each (fun score => float (hd EmptyString (Str.split "009" score)))
                   scores ;;
  Ok (videos, dmos).

End Parsing.
End DatasetHandler.

(** ** src/SFVQA.py, continued: per-frame style features *)

Module Style.
Import Torch.

(** The exceptions of this part: the built-in ones, and [KeyError] with the
    missing key. *)
Inductive Exception : Type :=
| Builtin (e : PyError)
| KeyError (key : string).

Inductive Outcome (A : Type) : Type :=
| Returns (a : A)
| Throws (e : Exception).

Arguments Returns {A} a.
Arguments Throws {A} e.

Definition lift (A : Type) (r : Result A) : Outcome A :=
  match r with
  | Ok a => Returns a
  | Raise e => Throws (Builtin e)
  end.

Definition andthen (A B : Type) (c : Outcome A) (k : A -> Outcome B) : Outcome B :=
  match c with
  | Returns a => k a
  | Throws e => Throws e
  end.

Notation "x <~ c ;; k" := (andthen c (fun x => k))
  (at level 61, c at next level, right associativity) : py_scope.

(** A Python dict with string keys, in insertion order. *)
Fixpoint dict_get (V : Type) (d : list (string * V)) (key : string) : option V :=
  match d with
  | [] => None
  | (k, v) :: rest => if String.eqb k key then Some v else dict_get rest key
  end.

(** [d[key] = value] *)
Fixpoint dict_set (V : Type) (d : list (string * V)) (key : string) (value : V)
  : list (string * V) :=
  match d with
  | [] => [(key, value)]
  | (k, v) :: rest =>
      if String.eqb k key then (k, value) :: rest
      else (k, v) :: dict_set rest key value
  end.

(** [d[key]], raising [KeyError] *)
Definition dict_item (V : Type) (d : list (string * V)) (key : string) : Outcome V :=
  match dict_get d key with
  | Some v => Returns v
  | None => Throws (KeyError key)
  end.

(** The default [layers] of [get_frame_features]. *)
Definition default_layers : list (string * string) :=
  [("0", "conv1_1"); ("5", "conv2_1"); ("21", "conv4_2")]%string.

Definition style_layers : list string := ["conv1_1"; "conv2_1"]%string.

Section Features.

Variable R : Type.
Variable zero : R.
Variables add mul : R -> R -> R.

(** A module of the network: a function on tensors that may raise. *)
Definition Layer : Type := Tensor R -> Result (Tensor R).

(** One iteration of [for name, layer in model._modules.items()]; the state
    is [(x, features)]. *)
Definition feature_step (layers : list (string * string))
    (st : Outcome (Tensor R * list (string * Tensor R))) (m : string * Layer)
  : Outcome (Tensor R * list (string * Tensor R)) :=
  s <~ st ;;
  let (x, features) := s in
  let (name, layer) := m in
  x <~ lift (layer x) ;;
  match dict_get layers name with
  | Some feature => Returns (x, dict_set features feature x)
  | None => Returns (x, features)
  end.

(** [def get_frame_features(image, model, layers=None)] *)
Definition get_frame_features (image : Tensor R) (model : list (string * Layer))
    (layers : option (list (string * string)))
  : Outcome (list (string * Tensor R)) :=
  let layers := match layers with
                | None => default_layers
                | Some given => given
                end in
  s <~ fold_left (feature_step layers) model (Returns (image, [])) ;;
  Returns (snd s).

(** The network as one function: its modules applied in order. *)
Definition forward (modules : list (string * Layer)) (x : Tensor R)
  : Result (Tensor R) :=
  fold_left (fun acc m => y <- acc ;; snd m y) modules (Ok x).

(** [tensor.unsqueeze(0)] *)
Definition unsqueeze0 (x : Tensor R) : Tensor R :=
  mkTensor (1 :: size x) (data x).

(** One iteration of [for layer in style_layers]:
    [frame_gram_matrices.extend(gram_matrix(features[layer]))]. *)
Definition gram_step (features : list (string * Tensor R))
    (acc : Outcome (list R)) (layer : string) : Outcome (list R) :=
  frame_gram_matrices <~ acc ;;
  feature <~ dict_item features layer ;;
  gram <~ lift (SFVQA.gram_matrix zero add mul feature) ;;
  Returns (frame_gram_matrices ++ data gram).

Section Video.

(** A frame as decoded, and the preprocessing pipeline [transform]. *)
Variable Image : Type.
Variable transform : Image -> Result (Tensor R).

(** The body of [for frame in video]. *)
Definition frame_descriptor (model : list (string * Layer)) (frame : Image)
  : Outcome (list R) :=
  frame <~ lift (transform frame) ;;
  let frame := unsqueeze0 frame in
  features <~ get_frame_features frame model None ;;
  fold_left (gram_step features) style_layers (Returns []).

(** What the descriptor of a frame is made of: the activations recorded
    as conv1_1 and conv2_1 for the preprocessed frame, and their Gram
    vectors one after the other. *)
Definition style_descriptor (model : list (string * Layer)) (frame : Image)
    (descriptor : list R) : Prop :=
  exists t features f1 f2 g1 g2,
    transform frame = Ok t /\
    get_frame_features (unsqueeze0 t) model None = Returns features /\
    dict_get features "conv1_1" = Some f1 /\
    dict_get features "conv2_1" = Some f2 /\
    SFVQA.gram_matrix zero add mul f1 = Ok g1 /\
    SFVQA.gram_matrix zero add mul f2 = Ok g2 /\
    descriptor = data g1 ++ data g2.

(** [def get_video_style_features(video, model, device, transform)] *)
Fixpoint get_video_style_features (video : list Image) (model : list (string * Layer))
  : Outcome (list (list R)) :=
  match video with
  | [] => Returns []
  | frame :: rest =>
      frame_gram_matrices <~ frame_descriptor model frame ;;
      video_features <~ get_video_style_features rest model ;;
      Returns (frame_gram_matrices :: video_features)
  end.

End Video.
End Features.
End Style.

(** ** src/run.py *)

Module Run.
Import VideoUtility Style.

Section FrameFeatures.

Variable R : Type.
Variable zero : R.
Variables add mul : R -> R -> R.
Variable vreader : string -> nat -> nat -> bool -> option string -> list Frame.
Variable transform : Frame -> Result (Torch.Tensor R).

(** [str(Path(video_path) / seq)] *)
Variable path_join : string -> string -> string.

(** Iterating over what [get_frames] returned. *)
Definition iterate (r : Returned) : Result (list Frame) :=
  match r with
  | Generator frames => Ok frames
  | Array items => Ok items
  | NoneValue => Raise TypeError
  end.

(** The body of [for seq in tqdm(video_list)] in [videoset_frame_feats]. *)
Definition video_features (model : list (string * Layer R)) (video_path dataset : string)
    (frame_diff : bool) (seq : string) : Outcome (list (list R)) :=
  let vid_path := path_join video_path seq in
  vid_frames <~ lift (if String.eqb dataset "live"
                      then get_frames vreader vid_path "yuv420p" "rgb" 432 768 false
                      else get_frames vreader vid_path "yuv420p" "rgb" 0 0 frame_diff) ;;
  video <~ lift (iterate vid_frames) ;;
  get_video_style_features zero add mul transform video model.

(** [def videoset_frame_feats(model, device, video_list, video_path,
    transform, dataset='LIVE', *, frame_diff=False)]: everything the
    generator yields, when it is consumed to its end. *)
Fixpoint videoset_loop (model : list (string * Layer R)) (video_path dataset : string)
    (frame_diff : bool) (video_list : list string)
  : Outcome (list (list (list R))) :=
  match video_list with
  | [] => Returns []
  | seq :: rest =>
      frames_features <~ video_features model video_path dataset frame_diff seq ;;
      others <~ videoset_loop model video_path dataset frame_diff rest ;;
      Returns (frames_features :: others)
  end.

Definition videoset_frame_feats (model : list (string * Layer R))
    (video_list : list string) (video_path dataset : string) (frame_diff : bool)
  : Outcome (list (list (list R))) :=
  videoset_loop model video_path (Str.lower dataset) frame_diff video_list.

End FrameFeatures.
End Run.

(** ** Concrete instances, for running the model *)

Module Instances.
Import Sklearn.

(** A generator whose state counts its draws: the k-th draw rotates the
    list by k places, or is the number k.  Training a network draws
    nothing from it. *)
Definition rotate (k : nat) (l : list nat) : list nat :=
  skipn (k mod length l) l ++ firstn (k mod length l) l.

Definition rotating : Generator :=
  mkGenerator (fun (st : nat) l => (rotate st l, S st))
              (fun (st : nat) _ => (Z.of_nat st, S st))
              (fun (st : nat) => st).

(** Integer arithmetic, a constant-0 "SVR" and a constant-1 "network". *)
Definition Zsum (l : list Z) : Z := fold_right Z.add 0%Z l.

Definition integers : Backend :=
  @mkBackend Z 0%Z Z.add Z.sub Z.mul Z.div
    (fun col => (Zsum col / Z.of_nat (length col))%Z)
    (fun _ => 1%Z)
    unit unit
    (fun _ _ _ => tt) (fun _ X => map (fun _ => 0%Z) X)
    (fun _ _ => tt) (fun _ X => map (fun _ => 1%Z) X)
    (fun a b => (Zsum (map (fun ab => (fst ab * snd ab)%Z) (combine a b)), 0%Z))
    (fun a b => (Zsum (map (fun ab => (fst ab * snd ab)%Z) (combine a b)), 0%Z)).

(** 150 one-feature videos, feature and score both equal to the index. *)
Definition X150 : list (list Z) := map (fun i => [Z.of_nat i]) (seq 0 150).
Definition y150 : list Z := map Z.of_nat (seq 0 150).
Definition names150 : list string := repeat "video"%string 150.

(** Seven such videos: enough for the k-fold splitter, too few for the
    rank correlation of every fold. *)
Definition X7 : list (list Z) := firstn 7 X150.
Definition y7 : list Z := firstn 7 y150.

(** Ten such videos, two in every test fold, and the ten after them. *)
Definition X10 : list (list Z) := firstn 10 X150.
Definition y10 : list Z := firstn 10 y150.
Definition X10_next : list (list Z) := firstn 10 (skipn 10 X150).
Definition y10_next : list Z := firstn 10 (skipn 10 y150).

(** Three two-sample frames, and a decoder that yields them for any path. *)
Definition three_frames : list VideoUtility.Frame :=
  [[1; 2]; [3; 1]; [10; 255]]%Z.

Definition three_frame_reader
  : string -> nat -> nat -> bool -> option string -> list VideoUtility.Frame :=
  fun _ _ _ _ _ => three_frames.

(** Numbers written in decimal digits, standing in for [float]: the empty
    string and anything with another character is not a number. *)
Fixpoint digits_value_from (acc : nat) (s : string) : option nat :=
  match s with
  | EmptyString => Some acc
  | String c rest =>
      let n := nat_of_ascii c in
      if (48 <=? n) && (n <=? 57)
      then digits_value_from (10 * acc + (n - 48)) rest
      else None
  end.

Definition digits_value (s : string) : option nat :=
  match s with
  | EmptyString => None
  | _ => digits_value_from 0 s
  end.

(** A CSIQ-style metadata file: a header and two videos. *)
Definition csiq_text : string :=
  "name dmos
a.yuv 12
b.yuv 345
".

(** A small network on integer tensors: modules that double, keep or
    refuse their input. *)
Definition doubling : Style.Layer Z :=
  fun x => Ok (Torch.mkTensor (Torch.size x) (map (Z.mul 2) (Torch.data x))).

Definition keeping : Style.Layer Z := fun x => Ok x.

Definition refusing : Style.Layer Z := fun _ => Raise RuntimeError.

Definition small_model : list (string * Style.Layer Z) :=
  [("0", doubling); ("1", keeping); ("5", doubling)]%string.

Definition first_modules : list (string * Style.Layer Z) :=
  [("0", doubling); ("1", keeping)]%string.

Definition last_modules : list (string * Style.Layer Z) :=
  [("7", keeping)]%string.

(** Preprocessing that lays a four-sample frame out as 2 x 1 x 2. *)
Definition to_tensor (frame : list Z) : Result (Torch.Tensor Z) :=
  Ok (Torch.mkTensor [2; 1; 2] frame).

Definition slash_join (video_path seq : string) : string :=
  (video_path ++ "/" ++ seq)%string.

End Instances.

(** * Properties *)

(** ** Generic list facts *)

Lemma fold_left_ext_in (A B : Type) (f g : A -> B -> A) (l : list B) :
  (forall a b, In b l -> f a b = g a b) ->
  forall a, fold_left f l a = fold_left g l a.
Proof.
  induction l as [|b l IH]; intros Hfg a; simpl.
  - reflexivity.
  - rewrite (Hfg a b) by (left; reflexivity).
    apply IH. intros a' b' Hb'. apply Hfg. right. exact Hb'.
Qed.

Lemma blocks_length (A : Type) (cols : nat) (cell : nat -> nat -> A) :
  forall rows s,
    length (flat_map (fun i => map (cell i) (seq 0 cols)) (seq s rows)) = rows * cols.
Proof.
  induction rows as [|rows IH]; intros s; simpl.
  - reflexivity.
  - rewrite length_app, length_map, length_seq, IH. reflexivity.
Qed.

Lemma blocks_nth (A : Type) (d : A) (cols : nat) (cell : nat -> nat -> A) :
  forall rows s i j,
    i < rows -> j < cols ->
    nth (i * cols + j)
        (flat_map (fun i => map (cell i) (seq 0 cols)) (seq s rows)) d
    = cell (s + i) j.
Proof.
  induction rows as [|rows IH]; intros s i j Hi Hj.
  - lia.
  - simpl. destruct i as [|i].
    + rewrite app_nth1 by (rewrite length_map, length_seq; simpl; lia).
      simpl. rewrite nth_indep with (d' := cell s 0)
        by (rewrite length_map, length_seq; lia).
      rewrite map_nth, seq_nth by lia. f_equal; lia.
    + rewrite app_nth2 by (rewrite length_map, length_seq; simpl; lia).
      rewrite length_map, length_seq.
      replace (S i * cols + j - cols) with (i * cols + j) by (simpl; lia).
      rewrite IH by lia. f_equal; lia.
Qed.

Lemma table_length (A : Type) (rows cols : nat) (cell : nat -> nat -> A) :
  length (table rows cols cell) = rows * cols.
Proof. apply blocks_length. Qed.

Lemma table_nth (A : Type) (d : A) (rows cols : nat) (cell : nat -> nat -> A) i j :
  i < rows -> j < cols ->
  nth (i * cols + j) (table rows cols cell) d = cell i j.
Proof. intros Hi Hj. unfold table. rewrite blocks_nth by assumption. reflexivity. Qed.

Lemma table_ext (A : Type) (rows cols : nat) (f g : nat -> nat -> A) :
  (forall i j, i < rows -> j < cols -> f i j = g i j) ->
  table rows cols f = table rows cols g.
Proof.
  intros Hfg. unfold table. rewrite !flat_map_concat_map. f_equal.
  apply map_ext_in. intros i Hi.
  apply map_ext_in. intros j Hj. apply in_seq in Hi, Hj. apply Hfg; lia.
Qed.

Lemma map_constant_seq (A : Type) (v : A) :
  forall n s, map (fun _ => v) (seq s n) = repeat v n.
Proof.
  induction n as [|n IH]; intros s; simpl.
  - reflexivity.
  - f_equal. apply IH.
Qed.

Lemma table_constant (A : Type) (rows cols : nat) (v : A) :
  table rows cols (fun _ _ => v) = repeat v (rows * cols).
Proof.
  unfold table. rewrite flat_map_concat_map, map_constant_seq.
  rewrite map_constant_seq.
  induction rows as [|rows IH]; simpl.
  - reflexivity.
  - rewrite repeat_app, IH. reflexivity.
Qed.

(** ** gram_matrix *)

Section GramProperties.
Import Torch SFVQA.

Variable R : Type.
Variable zero : R.
Variables add mul : R -> R -> R.

Lemma gram_matrix_4d (x : Tensor R) b d h w :
  size x = [b; d; h; w] ->
  gram_matrix zero add mul x =
    Ok (mkTensor [(b * d) * (b * d)]
          (table (b * d) (b * d) (gram_entry zero add mul (h * w) (data x)))).
Proof.
  intros Hsz. unfold gram_matrix. rewrite Hsz.
  unfold view. rewrite Hsz.
  replace (numel [b; d; h; w] =? numel [b * d; h * w]) with true
    by (symmetry; apply Nat.eqb_eq; simpl; lia).
  cbn [bind]. unfold t. cbn [size data bind].
  unfold mm. cbn [size data]. rewrite Nat.eqb_refl. cbn [bind].
  unfold flatten. cbn [size data numel fold_right]. rewrite Nat.mul_1_r.
  f_equal. f_equal.
  apply table_ext. intros i j Hi Hj.
  unfold dot, gram_entry. apply fold_left_ext_in.
  intros acc l Hl. apply in_seq in Hl.
  rewrite table_nth by lia. reflexivity.
Qed.

Lemma gram_matrix_not_4d (x : Tensor R) :
  length (size x) <> 4 -> gram_matrix zero add mul x = Raise ValueError.
Proof.
  intros Hlen. unfold gram_matrix.
  destruct (size x) as [|b [|d [|h [|w [|e rest]]]]]; try reflexivity.
  exfalso. apply Hlen. reflexivity.
Qed.

(** C3 (amended).  [gram_matrix] raises (a ValueError, from the tuple
    unpacking) whenever the input does not have exactly four dimensions.
    On a four-dimensional input of zero spatial extent, h * w = 0, it does
    not raise: it returns the vector of (b * d) squared zeros. *)
Theorem gram_matrix_rank_and_zero_extent (x : Tensor R) :
  (length (size x) <> 4 -> gram_matrix zero add mul x = Raise ValueError) /\
  (forall b d h w,
      size x = [b; d; h; w] -> h * w = 0 ->
      gram_matrix zero add mul x =
        Ok (mkTensor [(b * d) * (b * d)] (repeat zero ((b * d) * (b * d))))).
Proof.
  split.
  - apply gram_matrix_not_4d.
  - intros b d h w Hsz Hhw. rewrite (gram_matrix_4d x Hsz). rewrite Hhw.
    f_equal. f_equal. rewrite <- table_constant.
    apply table_ext. intros i j _ _. reflexivity.
Qed.

Hypothesis mul_comm : forall a b, mul a b = mul b a.

Lemma gram_entry_sym k buf i j :
  gram_entry zero add mul k buf i j = gram_entry zero add mul k buf j i.
Proof.
  unfold gram_entry. apply fold_left_ext_in. intros acc l _.
  rewrite mul_comm. reflexivity.
Qed.

(** C2.  For an activation of shape (1, C, H, W) with H * W > 0,
    [gram_matrix] returns a one-dimensional tensor of C * C elements whose
    value at position i * C + j equals its value at j * C + i. *)
Theorem gram_matrix_symmetric (x : Tensor R) (C H W : nat) :
  size x = [1; C; H; W] ->
  0 < H * W ->
  exists g,
    gram_matrix zero add mul x = Ok g /\
    size g = [C * C] /\
    length (data g) = C * C /\
    forall i j, i < C -> j < C ->
      nth (i * C + j) (data g) zero = nth (j * C + i) (data g) zero.
Proof.
  intros Hsz _. rewrite (gram_matrix_4d x Hsz).
  rewrite Nat.mul_1_l. eexists. split; [reflexivity|].
  cbn [size data]. repeat split.
  - apply table_length.
  - intros i j Hi Hj. rewrite !table_nth by assumption.
    apply gram_entry_sym.
Qed.

End GramProperties.

(** A 1 x 2 x 1 x 2 activation: the witness of C2. *)
Lemma gram_matrix_symmetric_witness :
  exists g,
    SFVQA.gram_matrix 0%Z Z.add Z.mul (Torch.mkTensor [1; 2; 1; 2] [1; 2; 3; 4]%Z) = Ok g /\
    Torch.size g = [2 * 2] /\
    length (Torch.data g) = 2 * 2 /\
    forall i j, i < 2 -> j < 2 ->
      nth (i * 2 + j) (Torch.data g) 0%Z = nth (j * 2 + i) (Torch.data g) 0%Z.
Proof.
  apply (@gram_matrix_symmetric Z 0%Z Z.add Z.mul Z.mul_comm
           (Torch.mkTensor [1; 2; 1; 2] [1; 2; 3; 4]%Z) 2 1 2).
  - reflexivity.
  - simpl. lia.
Defined.

(** Both halves of the amended C3 on concrete tensors: a 2-D tensor is
    refused, a (1, 2, 0, 3) one gives four zeros. *)
Lemma gram_matrix_rank_and_zero_extent_witness :
  SFVQA.gram_matrix 0%Z Z.add Z.mul (Torch.mkTensor [2; 2] [1; 2; 3; 4]%Z)
    = Raise ValueError /\
  SFVQA.gram_matrix 0%Z Z.add Z.mul (Torch.mkTensor [1; 2; 0; 3] [])
    = Ok (Torch.mkTensor [(1 * 2) * (1 * 2)] (repeat 0%Z ((1 * 2) * (1 * 2)))).
Proof.
  split.
  - apply (proj1 (gram_matrix_rank_and_zero_extent 0%Z Z.add Z.mul
                    (Torch.mkTensor [2; 2] [1; 2; 3; 4]%Z))).
    simpl. discriminate.
  - apply (proj2 (gram_matrix_rank_and_zero_extent 0%Z Z.add Z.mul
                    (Torch.mkTensor [1; 2; 0; 3] [])) 1 2 0 3); reflexivity.
Defined.

(** C3 as stated fails: a (1, 2, 0, 3) activation has zero spatial extent,
    and [gram_matrix] returns four zeros for it instead of raising. *)
Lemma gram_matrix_zero_extent_returns :
  Torch.size (Torch.mkTensor [1; 2; 0; 3] (@nil Z)) = [1; 2; 0; 3] /\
  0 * 3 = 0 /\
  SFVQA.gram_matrix 0%Z Z.add Z.mul (Torch.mkTensor [1; 2; 0; 3] []) =
    Ok (Torch.mkTensor [4] [0; 0; 0; 0]%Z).
Proof. repeat split. Qed.

(** ** get_frames *)

Section FrameProperties.
Import VideoUtility.

Lemma np_subtract_same_shape (a b : Frame) :
  length a = length b -> np_subtract a b = Ok (wrap_sub a b).
Proof.
  intros Hlen. unfold np_subtract. rewrite Hlen, Nat.eqb_refl. reflexivity.
Qed.

(** The loop from its second iteration on: [last_frame] is bound. *)
Lemma diff_loop_bound (npix : nat) :
  forall (l : list Frame) (s : nat) (prev : Frame) (acc : list Frame),
    0 < s ->
    length prev = npix ->
    Forall (fun f => length f = npix) l ->
    exists last_frame,
      fold_left diff_step (combine (seq s (length l)) l) (Ok (Some prev, acc))
      = Ok (last_frame, acc ++ diffs_from prev l).
Proof.
  induction l as [|frame rest IH]; intros s prev acc Hs Hprev Hall.
  - simpl. rewrite app_nil_r. eexists. reflexivity.
  - inversion Hall as [|? ? Hframe Hrest]; subst.
    cbn [length seq combine fold_left].
    unfold diff_step at 2. cbn [bind].
    replace (0 <? s) with true by (symmetry; apply Nat.ltb_lt; exact Hs).
    rewrite np_subtract_same_shape by congruence. cbn [bind].
    destruct (IH (S s) frame (acc ++ [wrap_sub frame prev])) as [lf Hlf];
      [lia | assumption | assumption |].
    exists lf. rewrite Hlf, <- app_assoc. reflexivity.
Qed.

Lemma diff_loop (npix : nat) (first : Frame) (rest : list Frame) :
  Forall (fun f => length f = npix) (first :: rest) ->
  exists last_frame,
    fold_left diff_step (enumerate (first :: rest)) (Ok (None, []))
    = Ok (last_frame, diffs_from first rest).
Proof.
  intros Hall. inversion Hall as [|? ? Hfirst Hrest]; subst.
  unfold enumerate. cbn [length seq combine fold_left].
  unfold diff_step at 2. cbn [bind Nat.ltb Nat.leb].
  destruct (@diff_loop_bound (length first) rest 1 first []) as [lf Hlf];
    [lia | reflexivity | assumption |].
  exists lf. exact Hlf.
Qed.

Lemma diffs_from_length :
  forall l prev, length (diffs_from prev l) = length l.
Proof.
  induction l as [|f l IH]; intros prev; simpl.
  - reflexivity.
  - rewrite IH. reflexivity.
Qed.

Lemma diffs_from_nth :
  forall l prev i,
    i < length l ->
    nth i (diffs_from prev l) [] = wrap_sub (nth i l []) (nth i (prev :: l) []).
Proof.
  induction l as [|f l IH]; intros prev i Hi; simpl in Hi.
  - lia.
  - destruct i as [|i].
    + reflexivity.
    + cbn [diffs_from nth]. rewrite IH by lia. reflexivity.
Qed.

Variable vreader : string -> nat -> nat -> bool -> option string -> list Frame.

(** Reading a sample of a [uint8] difference. *)
Lemma wrap_sub_nth (a b : Frame) (k : nat) :
  length a = length b -> k < length a ->
  nth k (wrap_sub a b) 0%Z = ((nth k a 0 - nth k b 0) mod 256)%Z.
Proof.
  intros Hlen Hk. unfold wrap_sub.
  set (f := fun xy : Z * Z => ((fst xy - snd xy) mod 256)%Z).
  rewrite nth_indep with (d' := f (0%Z, 0%Z))
    by (rewrite length_map, length_combine; lia).
  rewrite (map_nth f), combine_nth by exact Hlen. reflexivity.
Qed.

(** C9 (amended).  When the frame source yields the frames [frames],
    n >= 1 of them (all of [npix] samples, as the frames of one video are),
    the call with [frame_diff=True] returns an array of exactly n - 1 items
    of [npix] samples each, and sample k of item i is the difference of
    sample k of frame i+1 and sample k of frame i reduced modulo 256: the
    integer difference itself exactly where the later sample, both being
    [uint8] values, is not the smaller one. *)
Theorem get_frames_differences_modulo_256
    (vid_path vid_pix_fmt frame_color_mode : string) (height width npix : nat)
    (frames : list Frame) :
  get_frames vreader vid_path vid_pix_fmt frame_color_mode height width false
    = Ok (Generator frames) ->
  1 <= length frames ->
  Forall (fun f => length f = npix) frames ->
  exists items,
    get_frames vreader vid_path vid_pix_fmt frame_color_mode height width true
      = Ok (Array items) /\
    length items = length frames - 1 /\
    forall i, i < length frames - 1 ->
      length (nth i items []) = npix /\
      forall k, k < npix ->
        nth k (nth i items []) 0%Z
        = ((nth k (nth (S i) frames []) 0 - nth k (nth i frames []) 0) mod 256)%Z /\
        ((0 <= nth k (nth i frames []) 0 <= nth k (nth (S i) frames []) 0)%Z ->
         (nth k (nth (S i) frames []) 0 < 256)%Z ->
         nth k (nth i items []) 0%Z
         = (nth k (nth (S i) frames []) 0 - nth k (nth i frames []) 0)%Z).
Proof.
  intros Hgen Hn Hall. unfold get_frames in *.
  set (frames_gen :=
         if String.eqb (last (Str.split "." vid_path) EmptyString) "mp4" then _
         else _) in *.
  destruct frames_gen as [fs|]; [|discriminate].
  injection Hgen as ->.
  destruct frames as [|first rest]; [simpl in Hn; lia|].
  destruct (diff_loop Hall) as [lf Hlf]. rewrite Hlf. cbn [bind snd].
  exists (diffs_from first rest). split; [reflexivity|].
  split; [rewrite diffs_from_length; simpl; lia|].
  intros i Hi. simpl in Hi. rewrite diffs_from_nth by lia.
  change (nth (S i) (first :: rest) []) with (nth i rest []).
  rewrite Forall_forall in Hall.
  assert (Hnext : length (nth i rest []) = npix)
    by (apply Hall; right; apply nth_In; lia).
  assert (Hprev : length (nth i (first :: rest) []) = npix)
    by (apply Hall; apply nth_In; simpl; lia).
  split.
  - unfold wrap_sub. rewrite length_map, length_combine. lia.
  - intros k Hk. rewrite wrap_sub_nth by lia. split; [reflexivity|].
    intros Hle Hhigh. apply Z.mod_small. lia.
Qed.

(** C10.  For a path whose extension is not mp4, with [frame_diff=False]
    and a [frame_color_mode] that is neither 'rgb' nor 'gray', [get_frames]
    returns [None] and raises nothing. *)
Theorem get_frames_unknown_color_mode
    (vid_path vid_pix_fmt frame_color_mode : string) (height width : nat) :
  last (Str.split "." vid_path) EmptyString <> "mp4"%string ->
  frame_color_mode <> "rgb"%string ->
  frame_color_mode <> "gray"%string ->
  get_frames vreader vid_path vid_pix_fmt frame_color_mode height width false
    = Ok NoneValue.
Proof.
  intros Hext Hrgb Hgray. unfold get_frames.
  apply String.eqb_neq in Hext, Hrgb, Hgray.
  rewrite Hext, Hrgb, Hgray. reflexivity.
Qed.

End FrameProperties.

(** Three two-sample frames of a raw video: the witness of C9. *)
Lemma get_frames_differences_modulo_256_witness :
  exists items,
    VideoUtility.get_frames Instances.three_frame_reader
      "clip.yuv" "yuv420p" "rgb" 432 768 true = Ok (VideoUtility.Array items) /\
    length items = length Instances.three_frames - 1 /\
    forall i, i < length Instances.three_frames - 1 ->
      length (nth i items []) = 2 /\
      forall k, k < 2 ->
        nth k (nth i items []) 0%Z
        = ((nth k (nth (S i) Instances.three_frames []) 0
            - nth k (nth i Instances.three_frames []) 0) mod 256)%Z /\
        ((0 <= nth k (nth i Instances.three_frames []) 0
             <= nth k (nth (S i) Instances.three_frames []) 0)%Z ->
         (nth k (nth (S i) Instances.three_frames []) 0 < 256)%Z ->
         nth k (nth i items []) 0%Z
         = (nth k (nth (S i) Instances.three_frames []) 0
            - nth k (nth i Instances.three_frames []) 0)%Z).
Proof.
  apply (@get_frames_differences_modulo_256 Instances.three_frame_reader
           "clip.yuv" "yuv420p" "rgb" 432 768 2 Instances.three_frames).
  - reflexivity.
  - simpl. lia.
  - repeat constructor.
Defined.

(** C9 as stated fails.  From the second frame [3; 1] of the three the
    first frame [1; 2] is subtracted: the second sample of the first item is
    255, where the difference of the two samples is 1 - 2 = -1. *)
Lemma get_frames_difference_wraps :
  VideoUtility.get_frames Instances.three_frame_reader
    "clip.yuv" "yuv420p" "rgb" 432 768 true
  = Ok (VideoUtility.Array [[2; 255]; [7; 254]]%Z) /\
  (nth 1 (nth 1 Instances.three_frames []) 0
   - nth 1 (nth 0 Instances.three_frames []) 0 = -1)%Z /\
  nth 1 (nth 0 [[2; 255]; [7; 254]]%Z []) 0%Z = 255%Z.
Proof. repeat split. Qed.

(** A raw video asked for in an unknown colour mode: the witness of C10. *)
Lemma get_frames_unknown_color_mode_witness :
  VideoUtility.get_frames (fun _ _ _ _ _ => [[1; 2]; [3; 1]]%Z)
    "clip.yuv" "yuv420p" "bgr" 432 768 false = Ok VideoUtility.NoneValue.
Proof.
  apply (@get_frames_unknown_color_mode (fun _ _ _ _ _ => [[1; 2]; [3; 1]]%Z)
           "clip.yuv" "yuv420p" "bgr" 432 768).
  - simpl. discriminate.
  - discriminate.
  - discriminate.
Defined.

(** ** Pooling *)

Section PoolProperties.
Import Pooling.

Variable R : Type.
Variables rmax radd : R -> R -> R.
Variable rdiv : R -> nat -> R.

(** C8.  Pooling an empty sequence of frame descriptors fails with a
    DataShapeError, whatever the method; it returns no vector at all, so in
    particular no zero-filled one. *)
Theorem pool_empty_sequence (m : PoolMethod) :
  pool rmax radd rdiv [] m = Raise DataShapeError /\
  forall v, pool rmax radd rdiv [] m <> Ok v.
Proof.
  split.
  - reflexivity.
  - intros v Hv. discriminate Hv.
Qed.

End PoolProperties.

(** ** Splitters *)

Section SplitterProperties.
Import Sklearn.

Lemma mem_In (x : nat) (l : list nat) : mem x l = true <-> In x l.
Proof.
  unfold mem. rewrite existsb_exists. split.
  - intros [y [Hy Heq]]. apply Nat.eqb_eq in Heq. subst. exact Hy.
  - intros Hx. exists x. split; [exact Hx | apply Nat.eqb_refl].
Qed.

Lemma where_isin_In (a values : list nat) (i : nat) :
  In i (where_isin a values) <-> i < length a /\ In (nth i a 0) values.
Proof.
  unfold where_isin. rewrite filter_In, in_seq, mem_In. intuition lia.
Qed.

Lemma NoDup_app_disjoint (A : Type) (l1 l2 : list A) (x : A) :
  NoDup (l1 ++ l2) -> In x l1 -> In x l2 -> False.
Proof.
  induction l1 as [|a l1 IH]; intros Hnd H1 H2.
  - destruct H1.
  - simpl in Hnd. inversion Hnd as [|? ? Hnotin Hnd']; subst.
    destruct H1 as [-> | H1].
    + apply Hnotin. apply in_or_app. right. exact H2.
    + apply IH; assumption.
Qed.

Lemma In_firstn (A : Type) (n : nat) (l : list A) (x : A) :
  In x (firstn n l) -> In x l.
Proof.
  intros Hx. rewrite <- (firstn_skipn n l). apply in_or_app. left. exact Hx.
Qed.

(** The two sides of one [ShuffleSplit] draw never share a class. *)
Lemma shuffle_split_sides_disjoint (perm : list nat) (n_train n_test x : nat) :
  NoDup perm ->
  In x (firstn n_train (skipn n_test perm)) ->
  In x (firstn n_test perm) ->
  False.
Proof.
  intros Hnd Htrain Htest.
  rewrite <- (firstn_skipn n_test perm) in Hnd.
  apply (NoDup_app_disjoint _ _ x Hnd Htest).
  apply In_firstn with (n := n_train). exact Htrain.
Qed.

Variable G : Generator.
Hypothesis G_lawful : lawful G.

Lemma permutation_spec (st : RandomState G) (n : nat) :
  Permutation (seq 0 n) (fst (permutation G st n)).
Proof. apply G_lawful. Qed.

Lemma shuffle_split_iter_spec (n n_train n_test : nat) :
  forall (n_splits : nat) (st : RandomState G),
    length (fst (shuffle_split_iter G n_splits n n_train n_test st)) = n_splits /\
    Forall (drawn_from n n_train n_test)
           (fst (shuffle_split_iter G n_splits n n_train n_test st)).
Proof.
  induction n_splits as [|k IH]; intros st; cbn [shuffle_split_iter].
  - split; [reflexivity | constructor].
  - pose proof (permutation_spec st n) as Hperm.
    destruct (permutation G st n) as [perm st1]. cbn [fst] in Hperm.
    specialize (IH st1).
    destruct (shuffle_split_iter G k n n_train n_test st1) as [rest st2].
    cbn [fst] in *. destruct IH as [Hlen Hall]. split.
    + simpl. rewrite Hlen. reflexivity.
    + constructor; [|exact Hall].
      exists perm. repeat split. exact Hperm.
Qed.

End SplitterProperties.

(** ** The grouped split of live_dataset_regression *)

Section LiveSplitProperties.
Import Sklearn Regression.

Lemma group_loop (video_list : list string) :
  forall (indices : list nat) (groups : list nat) (video_groups : list string),
    Forall (fun i => i < length video_list) indices ->
    fold_left (group_step video_list) indices (Ok (groups, video_groups))
    = Ok (fold_left (fun g i => slice_assign g i (i + 15) (i / 15)) indices groups,
          video_groups ++ map (fun i => nth i video_list EmptyString) indices).
Proof.
  induction indices as [|i rest IH]; intros groups video_groups Hall.
  - simpl. rewrite app_nil_r. reflexivity.
  - inversion Hall as [|? ? Hi Hrest]; subst.
    cbn [fold_left]. unfold group_step at 2. cbn [bind].
    destruct (nth_error video_list i) as [name|] eqn:Hname.
    + rewrite IH by assumption. cbn [map]. rewrite <- app_assoc. cbn [app].
      rewrite (nth_error_nth _ _ _ Hname). reflexivity.
    + apply nth_error_None in Hname. lia.
Qed.

(** Whatever [np.empty] held, the loop leaves [index // 15] everywhere. *)
Lemma groups_filled (garbage : nat -> nat) :
  fold_left (fun g i => slice_assign g i (i + 15) (i / 15))
            (range 0 150 15) (np_empty 150 garbage)
  = live_groups.
Proof. vm_compute. reflexivity. Qed.

Lemma build_groups_ok (video_list : list string) (garbage : nat -> nat) :
  135 < length video_list ->
  build_groups video_list garbage
  = Ok (live_groups, map (fun i => nth i video_list EmptyString) (range 0 150 15)).
Proof.
  intros Hlen. unfold build_groups. rewrite group_loop.
  - rewrite groups_filled. reflexivity.
  - change (range 0 150 15) with [0; 15; 30; 45; 60; 75; 90; 105; 120; 135].
    repeat constructor; lia.
Qed.

Lemma live_groups_nth (i : nat) : i < 150 -> nth i live_groups 0 = i / 15.
Proof.
  intros Hi. unfold live_groups.
  rewrite nth_indep with (d' := 0 / 15) by (rewrite length_map, length_seq; exact Hi).
  rewrite (map_nth (fun k => k / 15)). rewrite seq_nth by exact Hi. reflexivity.
Qed.

Lemma live_groups_unique : unique live_groups = (seq 0 10, live_groups).
Proof. vm_compute. reflexivity. Qed.

(** Everything the splitter needs to know about the group array. *)
Lemma build_groups_spec (video_list : list string) (garbage : nat -> nat) :
  135 < length video_list ->
  exists groups video_groups,
    build_groups video_list garbage = Ok (groups, video_groups) /\
    length groups = 150 /\
    (forall i, i < 150 -> nth i groups 0 = i / 15) /\
    unique groups = (seq 0 10, groups).
Proof.
  intros Hlen. eexists _, _.
  split; [apply build_groups_ok; exact Hlen|].
  split; [reflexivity|].
  split; [exact live_groups_nth | exact live_groups_unique].
Qed.

Section GroupArray.
Variable groups : list nat.
Hypothesis groups_length : length groups = 150.
Hypothesis groups_nth : forall i, i < 150 -> nth i groups 0 = i / 15.

Lemma where_isin_groups (values : list nat) (i : nat) :
  In i (where_isin groups values) <-> i < 150 /\ In (i / 15) values.
Proof.
  rewrite where_isin_In, groups_length.
  split; intros [Hi Hin]; (split; [exact Hi|]).
  - rewrite groups_nth in Hin by exact Hi. exact Hin.
  - rewrite groups_nth by exact Hi. exact Hin.
Qed.

Lemma drawn_whole_groups (part split : list nat * list nat) :
  drawn_from 10 8 2 part ->
  split = (where_isin groups (fst part), where_isin groups (snd part)) ->
  whole_groups split /\ groups_apart groups split.
Proof.
  intros [perm [Hperm [Htrain Htest]]] ->.
  assert (Hlen : length perm = 10)
    by (rewrite <- (Permutation_length Hperm); apply length_seq).
  assert (Hnd : NoDup perm)
    by (apply (Permutation_NoDup Hperm); apply seq_NoDup).
  split.
  - exists (fst part), (snd part). split; [|split; [|split]].
    + rewrite Htrain, length_firstn, length_skipn. lia.
    + rewrite Htest, length_firstn. lia.
    + intros i. apply where_isin_groups.
    + intros i. apply where_isin_groups.
  - intros i j Hi Hj Heq.
    apply where_isin_groups in Hi, Hj.
    destruct Hi as [Hi' Hi], Hj as [Hj' Hj].
    rewrite !groups_nth in Heq by assumption.
    rewrite Heq, Htrain in Hi. rewrite Htest in Hj.
    exact (shuffle_split_sides_disjoint _ _ _ Hnd Hi Hj).
Qed.

End GroupArray.

Variable G : Generator.
Hypothesis G_lawful : lawful G.


End LiveSplitProperties.

(** ** Loops that thread the generator state *)

Section LoopProperties.
Import Regression.

Lemma for_each_Forall (A C : Type) (body : A -> Result C) (P : A -> C -> Prop) :
  (forall x c, body x = Ok c -> P x c) ->
  forall (l : list A) (cs : list C),
    for_each body l = Ok cs -> Forall2 P l cs.
Proof.
  intros Hbody. induction l as [|x rest IH]; intros cs Hrun; cbn [for_each] in Hrun.
  - injection Hrun as <-. constructor.
  - destruct (body x) as [c|e] eqn:Hx; [|discriminate]. cbn [bind] in Hrun.
    destruct (for_each body rest) as [cs'|e]; [|discriminate]. cbn [bind] in Hrun.
    injection Hrun as <-. constructor; [apply Hbody; exact Hx | apply IH; reflexivity].
Qed.

Lemma Forall2_right (A C : Type) (P : C -> Prop) (l : list A) (cs : list C) :
  Forall2 (fun _ c => P c) l cs -> Forall P cs.
Proof. induction 1; constructor; assumption. Qed.

Lemma Forall2_map_right (A C : Type) (f : C -> A) (l : list A) (cs : list C) :
  Forall2 (fun x c => f c = x) l cs -> map f cs = l.
Proof. induction 1; simpl; congruence. Qed.

Lemma Forall2_map_eq (A C : Type) (f : A -> C) (l l' : list A) :
  Forall2 (fun a a' => f a = f a') l l' -> map f l = map f l'.
Proof. induction 1; simpl; congruence. Qed.

Lemma Forall2_concat_map_eq (A C : Type) (f : A -> C) (l l' : list (list A)) :
  Forall2 (fun a a' => map f a = map f a') l l' ->
  map f (concat l) = map f (concat l').
Proof.
  induction 1 as [|a a' l l' Ha _ IH]; [reflexivity|].
  cbn [concat]. rewrite !map_app, Ha, IH. reflexivity.
Qed.

Variables A C S : Type.
Variable body : A -> S -> Result (C * S).

Lemma for_each_st_cons (x : A) (rest : list A) (st : S) (cs : list C) (st' : S) :
  for_each_st body (x :: rest) st = Ok (cs, st') ->
  exists c st1 cs',
    body x st = Ok (c, st1) /\
    for_each_st body rest st1 = Ok (cs', st') /\
    cs = c :: cs'.
Proof.
  cbn [for_each_st]. intros Hrun.
  destruct (body x st) as [[c st1]|e]; [|discriminate]. cbn [bind fst snd] in Hrun.
  destruct (for_each_st body rest st1) as [[cs' st2]|e] eqn:Hrest; [|discriminate].
  cbn [bind fst snd] in Hrun. injection Hrun as <- <-.
  exists c, st1, cs'. split; [reflexivity|]. split; [exact Hrest | reflexivity].
Qed.

Lemma for_each_st_length :
  forall (l : list A) (st : S) (cs : list C) (st' : S),
    for_each_st body l st = Ok (cs, st') -> length cs = length l.
Proof.
  induction l as [|x rest IH]; intros st cs st' Hrun.
  - cbn [for_each_st] in Hrun. injection Hrun as <- _. reflexivity.
  - destruct (for_each_st_cons _ _ _ Hrun) as [c [st1 [cs' [_ [Hrest ->]]]]].
    simpl. rewrite (IH _ _ _ Hrest). reflexivity.
Qed.

Lemma for_each_st_Forall2 (P : A -> C -> Prop) :
  (forall x st c st', body x st = Ok (c, st') -> P x c) ->
  forall (l : list A) (st : S) (cs : list C) (st' : S),
    for_each_st body l st = Ok (cs, st') -> Forall2 P l cs.
Proof.
  intros Hbody. induction l as [|x rest IH]; intros st cs st' Hrun.
  - cbn [for_each_st] in Hrun. injection Hrun as <- _. constructor.
  - destruct (for_each_st_cons _ _ _ Hrun) as [c [st1 [cs' [Hx [Hrest ->]]]]].
    constructor; [exact (Hbody _ _ _ _ Hx) | exact (IH _ _ _ Hrest)].
Qed.

Lemma for_each_st_Forall (P : C -> Prop) :
  (forall x st c st', body x st = Ok (c, st') -> P c) ->
  forall (l : list A) (st : S) (cs : list C) (st' : S),
    for_each_st body l st = Ok (cs, st') -> Forall P cs.
Proof.
  intros Hbody l st cs st' Hrun. apply Forall2_right with (l := l).
  exact (for_each_st_Forall2 (fun _ c => P c) Hbody _ _ Hrun).
Qed.

(** A body that never returns stops a loop that has anything to do. *)
Lemma for_each_st_never (l : list A) (st : S) :
  l <> [] ->
  (forall x st0, returns (body x st0) = false) ->
  returns (for_each_st body l st) = false.
Proof.
  intros Hl Hbody. destruct l as [|x rest]; [congruence|].
  cbn [for_each_st]. specialize (Hbody x st).
  destruct (body x st); [discriminate | reflexivity].
Qed.

(** Two bodies that leave the same state behind whenever both return take
    their loops through the same states. *)
Lemma for_each_st_agree (body' : A -> S -> Result (C * S)) (R : C -> C -> Prop) :
  (forall x st c st1 c' st2,
      body x st = Ok (c, st1) -> body' x st = Ok (c', st2) -> R c c' /\ st1 = st2) ->
  forall (l : list A) (st : S) (cs : list C) (st1 : S) (cs' : list C) (st2 : S),
    for_each_st body l st = Ok (cs, st1) ->
    for_each_st body' l st = Ok (cs', st2) ->
    Forall2 R cs cs' /\ st1 = st2.
Proof.
  intros Hbody. induction l as [|x rest IH]; intros st cs st1 cs' st2 Hrun Hrun'.
  - cbn [for_each_st] in Hrun, Hrun'. injection Hrun as <- <-.
    injection Hrun' as <- <-. split; [constructor | reflexivity].
  - destruct (for_each_st_cons _ _ _ Hrun) as [c [sa [ca [Hx [Hrest ->]]]]].
    cbn [for_each_st] in Hrun'.
    destruct (body' x st) as [[c' sb]|e] eqn:Hx'; [|discriminate].
    cbn [bind fst snd] in Hrun'.
    destruct (for_each_st body' rest sb) as [[cb st3]|e] eqn:Hrest'; [|discriminate].
    cbn [bind fst snd] in Hrun'. injection Hrun' as <- <-.
    destruct (Hbody _ _ _ _ _ _ Hx Hx') as [Hr <-].
    destruct (IH _ _ _ _ _ Hrest Hrest') as [Hall Hst].
    split; [constructor; assumption | exact Hst].
Qed.

End LoopProperties.

(** ** The repeated k-fold split of konvid1k_dataset_regression *)

Section KFoldProperties.
Import Sklearn Regression.

Lemma fold_sizes_sum (n : nat) :
  list_sum (map (fun i => n / 5 + (if i <? n mod 5 then 1 else 0)) (seq 0 5)) = n.
Proof.
  pose proof (Nat.div_mod_eq n 5) as Hdm.
  pose proof (Nat.mod_upper_bound n 5 ltac:(lia)) as Hlt.
  cbn [seq map list_sum].
  remember (n mod 5) as r eqn:Hr. clear Hr.
  destruct r as [|[|[|[|[|r]]]]]; cbn [Nat.ltb Nat.leb];
    unfold list_sum; cbn [fold_right]; lia.
Qed.

Lemma slices_concat :
  forall (fold_sizes : list nat) (indices : list nat),
    list_sum fold_sizes = length indices ->
    concat (slices indices fold_sizes) = indices.
Proof.
  induction fold_sizes as [|size rest IH]; intros indices Hsum.
  - simpl in *. symmetry in Hsum. apply length_zero_iff_nil in Hsum.
    subst. reflexivity.
  - cbn [slices concat]. rewrite IH.
    + apply firstn_skipn.
    + rewrite length_skipn. simpl in Hsum. lia.
Qed.

Lemma slices_length :
  forall (fold_sizes indices : list nat),
    length (slices indices fold_sizes) = length fold_sizes.
Proof.
  induction fold_sizes as [|size rest IH]; intros indices; simpl.
  - reflexivity.
  - rewrite IH. reflexivity.
Qed.

Lemma concat_NoDup_parts (A : Type) :
  forall (parts : list (list A)), NoDup (concat parts) -> Forall (@NoDup A) parts.
Proof.
  induction parts as [|part rest IH]; intros Hnd; constructor.
  - simpl in Hnd. apply NoDup_app_remove_r in Hnd. exact Hnd.
  - apply IH. simpl in Hnd. apply NoDup_app_remove_l in Hnd. exact Hnd.
Qed.

Lemma concat_exactly_one (A : Type) :
  forall (parts : list (list A)) (x : A),
    NoDup (concat parts) -> In x (concat parts) ->
    exists k, k < length parts /\ In x (nth k parts []) /\
      forall k', k' < length parts -> In x (nth k' parts []) -> k' = k.
Proof.
  induction parts as [|part rest IH]; intros x Hnd Hin.
  - destruct Hin.
  - cbn [concat] in Hnd, Hin. apply in_app_or in Hin. destruct Hin as [Hin | Hin].
    + exists 0. split; [simpl; lia|]. split; [exact Hin|].
      intros [|k'] Hk' Hx; [reflexivity|]. exfalso.
      apply (NoDup_app_disjoint _ _ x Hnd Hin).
      apply in_concat. exists (nth k' rest []). split; [|exact Hx].
      apply nth_In. simpl in Hk'. lia.
    + destruct (IH x (NoDup_app_remove_l _ _ Hnd) Hin) as [k [Hk [Hxk Huniq]]].
      exists (S k). split; [simpl; lia|]. split; [exact Hxk|].
      intros [|k'] Hk' Hx.
      * exfalso. exact (NoDup_app_disjoint _ _ x Hnd Hx Hin).
      * f_equal. apply Huniq; [simpl in Hk'; lia | exact Hx].
Qed.

(** A boolean mask turned back into indices lists the masked indices. *)
Lemma mask_permutation (n : nat) (test_index : list nat) :
  NoDup test_index ->
  (forall x, In x test_index -> x < n) ->
  Permutation (filter (fun i => mem i test_index) (seq 0 n)) test_index.
Proof.
  intros Hnd Hbound. apply NoDup_Permutation.
  - apply NoDup_filter, seq_NoDup.
  - exact Hnd.
  - intros x. rewrite filter_In, in_seq, mem_In. split.
    + intros [_ Hx]. exact Hx.
    + intros Hx. split; [|exact Hx]. specialize (Hbound x Hx). lia.
Qed.

Lemma concat_map_permutation (f : list nat -> list nat) :
  forall parts,
    Forall (fun part => Permutation (f part) part) parts ->
    Permutation (concat (map f parts)) (concat parts).
Proof.
  induction parts as [|part rest IH]; intros Hall.
  - constructor.
  - inversion Hall; subst. cbn [map concat].
    apply Permutation_app; [assumption | apply IH; assumption].
Qed.

Variable G : Generator.
Hypothesis G_lawful : lawful G.

Lemma kfold_split_spec (st : RandomState G) (n : nat) :
  5 <= n ->
  exists folds st',
    kfold_split G 5 st n = Ok (folds, st') /\ kfold_partition n folds.
Proof.
  intros Hn. unfold kfold_split.
  replace (n <? 5) with false by (symmetry; apply Nat.ltb_ge; exact Hn).
  unfold kfold_test_indices.
  pose proof (G_lawful st (seq 0 n)) as Hperm.
  destruct (shuffle G st (seq 0 n)) as [indices st']. cbn [fst] in Hperm.
  set (fold_sizes := map _ (seq 0 5)).
  set (tests := slices indices fold_sizes).
  assert (Hlen : length indices = n)
    by (rewrite <- (Permutation_length Hperm); apply length_seq).
  assert (Hconcat : concat tests = indices)
    by (apply slices_concat; unfold fold_sizes; rewrite fold_sizes_sum; congruence).
  assert (Hnd : NoDup indices)
    by (apply (Permutation_NoDup Hperm), seq_NoDup).
  assert (Hparts : Forall (@NoDup nat) tests)
    by (apply concat_NoDup_parts; rewrite Hconcat; exact Hnd).
  assert (Hbound : forall t x, In t tests -> In x t -> x < n).
  { intros t x Ht Hx.
    assert (Hin : In x indices)
      by (rewrite <- Hconcat; apply in_concat; exists t; split; assumption).
    apply (Permutation_in _ (Permutation_sym Hperm)) in Hin.
    apply in_seq in Hin. lia. }
  assert (Htests : Permutation (concat (map (fun t => filter (fun i => mem i t) (seq 0 n)) tests))
                               (seq 0 n)).
  { rewrite concat_map_permutation.
    - rewrite Hconcat. apply Permutation_sym. exact Hperm.
    - apply Forall_forall. intros t Ht. apply mask_permutation.
      + rewrite Forall_forall in Hparts. apply Hparts. exact Ht.
      + intros x Hx. exact (Hbound t x Ht Hx). }
  eexists _, _. split; [reflexivity|].
  unfold kfold_partition. rewrite map_map. cbn [snd].
  split; [|split; [|split]].
  - rewrite length_map. unfold tests. rewrite slices_length.
    unfold fold_sizes. rewrite length_map. reflexivity.
  - exact Htests.
  - intros i Hi.
    assert (Hcount : length (map (fun t => filter (fun i => mem i t) (seq 0 n)) tests) = 5).
    { rewrite length_map. unfold tests. rewrite slices_length.
      unfold fold_sizes. rewrite length_map. reflexivity. }
    rewrite <- Hcount. apply concat_exactly_one.
    + apply (Permutation_NoDup (Permutation_sym Htests)), seq_NoDup.
    + apply (Permutation_in _ (Permutation_sym Htests)). apply in_seq. lia.
  - apply Forall_map, Forall_forall. intros t _. cbn [fst snd]. split.
    + intros i Hi Hi'. apply filter_In in Hi, Hi'.
      destruct Hi as [_ Hi], Hi' as [_ Hi']. rewrite Hi' in Hi. discriminate.
    + intros i Hi. rewrite !filter_In, in_seq.
      destruct (mem i t); [right | left]; (split; [lia | reflexivity]).
Qed.

Lemma repeated_kfold_spec (n : nat) :
  5 <= n ->
  forall (repeats : nat) (st : RandomState G),
    exists reps st',
      repeated_kfold G repeats st n = Ok (reps, st') /\
      length reps = repeats /\
      Forall (kfold_partition n) reps.
Proof.
  intros Hn. induction repeats as [|k IH]; intros st; cbn [repeated_kfold].
  - eexists _, _. repeat split. constructor.
  - destruct (kfold_split_spec st Hn) as [folds [st1 [Hsplit Hfolds]]].
    rewrite Hsplit. cbn [bind fst snd].
    destruct (IH st1) as [reps [st2 [Hrest [Hlen Hall]]]].
    rewrite Hrest. cbn [bind fst snd].
    eexists _, _. split; [reflexivity|]. split.
    + simpl. rewrite Hlen. reflexivity.
    + constructor; assumption.
Qed.

Lemma concat_length_uniform (A : Type) (size : nat) :
  forall (parts : list (list A)),
    Forall (fun part => length part = size) parts ->
    length (concat parts) = length parts * size.
Proof.
  induction parts as [|part rest IH]; intros Hall.
  - reflexivity.
  - inversion Hall; subst. cbn [concat length]. rewrite length_app, IH by assumption.
    simpl. lia.
Qed.

Lemma for_each_length (A B : Type) (body : A -> Result B) :
  forall (l : list A) (bs : list B),
    for_each body l = Ok bs -> length bs = length l.
Proof.
  induction l as [|x rest IH]; intros bs Hrun; cbn [for_each] in Hrun.
  - injection Hrun as <-. reflexivity.
  - destruct (body x) as [b|e]; [|discriminate]. cbn [bind] in Hrun.
    destruct (for_each body rest) as [bs'|e]; [|discriminate]. cbn [bind] in Hrun.
    injection Hrun as <-. simpl. rewrite (IH bs' eq_refl). reflexivity.
Qed.

Lemma kfold_split_count (st : RandomState G) (n : nat)
    (folds : list (list nat * list nat)) (st' : RandomState G) :
  kfold_split G 5 st n = Ok (folds, st') -> length folds = 5.
Proof.
  unfold kfold_split, kfold_test_indices.
  destruct (n <? 5); [discriminate|].
  destruct (shuffle G st (seq 0 n)) as [indices st1].
  intros Hrun. injection Hrun as <- _. reflexivity.
Qed.

(** What one repetition of the k-fold loop went through: the split of the
    state it began with, and the bodies on its five folds. *)
Lemma konvid1k_repetition_inv (B : Backend) (regression_method : string)
    (X y : list (list (num B))) (i : nat) (st : RandomState G)
    (fs : list (FoldLocals B)) (st' : RandomState G) :
  konvid1k_repetition B G regression_method X y i st = Ok (fs, st') ->
  exists splits st1,
    kfold_split G 5 st (length X) = Ok (splits, st1) /\
    for_each_st (per_fold B G regression_method X y) splits st1 = Ok (fs, st') /\
    length fs = 5.
Proof.
  unfold konvid1k_repetition. intros Hrun.
  destruct (kfold_split G 5 st (length X)) as [[splits st1]|e] eqn:Hsplit;
    [|discriminate].
  cbn [bind fst snd] in Hrun.
  exists splits, st1. split; [reflexivity|]. split; [exact Hrun|].
  rewrite (for_each_st_length _ _ _ Hrun). exact (kfold_split_count _ _ Hsplit).
Qed.

(** The folds of a k-fold run, repetition by repetition. *)
Lemma konvid1k_folds_inv (B : Backend) (st : RandomState G)
    (X : list (list (num B))) (y : list (num B)) (regression_method : string)
    (folds : list (FoldLocals B)) (st' : RandomState G) :
  konvid1k_folds B G st X y regression_method = Ok (folds, st') ->
  exists reps,
    for_each_st (konvid1k_repetition B G (Str.lower regression_method) X
                   (reshape_column y)) (seq 0 10) st = Ok (reps, st') /\
    folds = concat reps.
Proof.
  unfold konvid1k_folds. intros Hrun.
  destruct (for_each_st _ (seq 0 10) st) as [[reps st1]|e]; [|discriminate].
  cbn [bind fst snd] in Hrun. injection Hrun as <- <-.
  exists reps. split; reflexivity.
Qed.

Lemma konvid1k_folds_count (B : Backend) (st : RandomState G)
    (X : list (list (num B))) (y : list (num B)) (regression_method : string)
    (folds : list (FoldLocals B)) (st' : RandomState G) :
  konvid1k_folds B G st X y regression_method = Ok (folds, st') ->
  length folds = 50.
Proof.
  intros Hrun. destruct (konvid1k_folds_inv _ _ _ _ Hrun) as [reps [Hreps ->]].
  rewrite (@concat_length_uniform _ 5).
  - rewrite (for_each_st_length _ _ _ Hreps). reflexivity.
  - apply (@for_each_st_Forall _ _ _ _ (fun fs => length fs = 5)) in Hreps;
      [exact Hreps|].
    intros i st0 fs st1 Hfs.
    destruct (konvid1k_repetition_inv _ _ _ _ _ Hfs) as [_ [_ [_ [_ Hlen]]]].
    exact Hlen.
Qed.

(** C4.  With at least five videos, the ten repetitions of
    [KFold(n_splits=5, shuffle=True)] are always produced; each repetition
    has five folds whose test sides hold every video index exactly once, and
    whose train and test sides are disjoint; there are 5 * 10 = 50 folds in
    all, and a run of [konvid1k_dataset_regression] that returns has
    evaluated exactly 50. *)
Theorem konvid1k_kfold_partitions (st : RandomState G) (n : nat) :
  5 <= n ->
  exists reps st',
    konvid1k_splits G st n = Ok (reps, st') /\
    length reps = 10 /\
    Forall (kfold_partition n) reps /\
    length (concat reps) = 50 /\
    forall (B : Backend) (X : list (list (num B))) (y : list (num B))
           (regression_method : string) (folds : list (FoldLocals B))
           (st'' : RandomState G),
      length X = n ->
      konvid1k_folds B G st X y regression_method = Ok (folds, st'') ->
      length folds = 50.
Proof.
  intros Hn. unfold konvid1k_splits.
  destruct (repeated_kfold_spec Hn 10 st) as [reps [st' [Hrun [Hlen Hall]]]].
  assert (Hfifty : length (concat reps) = 50).
  { rewrite (@concat_length_uniform _ 5).
    - rewrite Hlen. reflexivity.
    - eapply Forall_impl; [|exact Hall]. intros folds Hfolds. apply Hfolds. }
  exists reps, st'. split; [exact Hrun|]. split; [exact Hlen|].
  split; [exact Hall|]. split; [exact Hfifty|].
  intros B X y m folds st'' HX Hfolds.
  exact (konvid1k_folds_count _ _ _ _ Hfolds).
Qed.

End KFoldProperties.

(** ** The per-fold procedure *)

Section FoldProperties.
Import Sklearn Regression.

Variable B : Backend.

(** Fancy indexing returns the rows at the indices, all of them in range. *)
Lemma take_spec (A : Type) (a : list A) (d : A) :
  forall (idx : list nat) (rows : list A),
    take a idx = Ok rows ->
    Forall (fun i => i < length a) idx /\ rows = map (fun i => nth i a d) idx.
Proof.
  induction idx as [|i idx IH]; intros rows Hrows.
  - injection Hrows as <-. split; [constructor | reflexivity].
  - unfold take in Hrows. cbn [fold_right] in Hrows. fold (take a idx) in Hrows.
    destruct (take a idx) as [rest|e]; [|discriminate]. cbn [bind] in Hrows.
    destruct (nth_error a i) as [x|] eqn:Hx; [|discriminate].
    injection Hrows as <-. destruct (IH rest eq_refl) as [Hall ->].
    split.
    + constructor; [|exact Hall]. apply nth_error_Some. congruence.
    + cbn [map]. rewrite (nth_error_nth _ _ d Hx). reflexivity.
Qed.

Lemma squeeze_reshape_column (A : Type) (l : list A) :
  squeeze (reshape_column l) = l.
Proof.
  unfold squeeze, reshape_column. induction l as [|v l IH]; [reflexivity|].
  cbn [map concat app]. rewrite IH. reflexivity.
Qed.

Lemma map_seq_nth (A : Type) (d : A) (l : list A) :
  l = map (fun j => nth j l d) (seq 0 (length l)).
Proof.
  apply nth_ext with (d := d) (d' := (fun j => nth j l d) 0).
  - rewrite length_map, length_seq. reflexivity.
  - intros n Hn. rewrite (map_nth (fun j => nth j l d)), seq_nth by exact Hn.
    reflexivity.
Qed.

(** A row against the means and scales of its [d] columns, sample by
    sample. *)
Lemma row_by_column (d : nat) (g : num B * (num B * num B) -> num B)
    (row means scales : list (num B)) :
  length row = d -> length means = d -> length scales = d ->
  map g (combine row (combine means scales))
  = map (fun j => g (nth j row (zero B), (nth j means (zero B), nth j scales (zero B))))
        (seq 0 d).
Proof.
  intros Hrow Hmeans Hscales.
  set (l := combine row (combine means scales)).
  assert (Hl : length l = d)
    by (unfold l; rewrite !length_combine; lia).
  rewrite (map_seq_nth (zero B, (zero B, zero B)) l) at 1.
  rewrite map_map, Hl. apply map_ext. intros j. unfold l.
  rewrite combine_nth by (rewrite length_combine; lia).
  rewrite combine_nth by lia. reflexivity.
Qed.

Lemma map_nth_seq (f : nat -> num B) (d j : nat) :
  j < d -> nth j (map f (seq 0 d)) (zero B) = f j.
Proof.
  intros Hj. rewrite nth_indep with (d' := f 0) by (rewrite length_map, length_seq; lia).
  rewrite map_nth, seq_nth by exact Hj. reflexivity.
Qed.

Section Rectangular.

Variable d : nat.
Variable X : list (list (num B)).
Hypothesis X_rectangular : Forall (fun row => length row = d) X.

Lemma row_length (i : nat) : i < length X -> length (nth i X []) = d.
Proof.
  intros Hi. rewrite Forall_forall in X_rectangular.
  apply X_rectangular, nth_In, Hi.
Qed.

(** The scaler fitted on the rows at [idx]. *)
Lemma fit_rows (idx : list nat) :
  idx <> [] ->
  Forall (fun i => i < length X) idx ->
  fit B (map (fun i => nth i X []) idx)
  = mkScaler B (map (fun j => mean B (features_at B X idx j)) (seq 0 d))
               (map (fun j => std B (features_at B X idx j)) (seq 0 d)).
Proof.
  intros Hne Hall. unfold fit.
  assert (Hd : n_features B (map (fun i => nth i X []) idx) = d).
  { destruct idx as [|i idx]; [congruence|].
    cbn [map n_features]. apply row_length.
    inversion Hall; assumption. }
  rewrite Hd. unfold column, features_at. f_equal; apply map_ext; intros j;
    rewrite map_map; reflexivity.
Qed.

(** Rows standardized by a scaler of [d] means and scales. *)
Lemma transform_rows (mu sigma : nat -> num B) (idx : list nat) :
  Forall (fun i => i < length X) idx ->
  transform (mkScaler B (map mu (seq 0 d)) (map sigma (seq 0 d)))
            (map (fun i => nth i X []) idx)
  = map (fun i =>
           map (fun j => div B (sub B (nth j (nth i X []) (zero B)) (mu j)) (sigma j))
               (seq 0 d)) idx.
Proof.
  intros Hall. unfold transform. cbn [mean_ scale_]. rewrite map_map.
  apply map_ext_in. intros i Hi. rewrite Forall_forall in Hall.
  rewrite (@row_by_column d) by
    (try (apply row_length, Hall, Hi); rewrite length_map, length_seq; reflexivity).
  apply map_ext_in. intros j Hj. apply in_seq in Hj. cbn [fst snd].
  rewrite !map_nth_seq by lia. reflexivity.
Qed.

End Rectangular.

Lemma take_column (y : list (num B)) (idx : list nat) (rows : list (list (num B))) :
  take (reshape_column y) idx = Ok rows ->
  rows = map (fun i => [nth i y (zero B)]) idx.
Proof.
  intros Hrows. destruct (take_spec (reshape_column y) [] idx Hrows) as [Hall ->].
  apply map_ext_in. intros i Hi. rewrite Forall_forall in Hall.
  specialize (Hall i Hi). unfold reshape_column in *. rewrite length_map in Hall.
  rewrite nth_indep with (d' := (fun v => [v]) (zero B)) by (rewrite length_map; exact Hall).
  rewrite (map_nth (fun v => [v])). reflexivity.
Qed.

(** The scaler fitted on the scores at [idx], as a column. *)
Lemma fit_column (y : list (num B)) (idx : list nat) :
  idx <> [] ->
  fit B (map (fun i => [nth i y (zero B)]) idx)
  = mkScaler B [mean B (scores_at B y idx)] [std B (scores_at B y idx)].
Proof.
  intros Hne. unfold fit.
  assert (Hd : n_features B (map (fun i => [nth i y (zero B)]) idx) = 1)
    by (destruct idx; [congruence | reflexivity]).
  rewrite Hd. cbn [seq map]. unfold column, scores_at. rewrite !map_map. reflexivity.
Qed.

Lemma squeeze_rows (A : Type) (v : A -> num B) (idx : list A) :
  squeeze (map (fun i => [v i]) idx) = map v idx.
Proof.
  unfold squeeze. induction idx as [|i idx IH]; [reflexivity|].
  cbn [map concat app]. rewrite IH. reflexivity.
Qed.

Lemma transform_column (A : Type) (mu sigma : num B) (v : A -> num B) (idx : list A) :
  transform (mkScaler B [mu] [sigma]) (map (fun i => [v i]) idx)
  = map (fun i => [div B (sub B (v i) mu) sigma]) idx.
Proof. unfold transform. rewrite map_map. reflexivity. Qed.

Lemma inverse_transform_column (mu sigma : num B) (pred : list (num B)) :
  inverse_transform (mkScaler B [mu] [sigma]) (reshape_column pred)
  = map (fun v => [add B (mul B v sigma) mu]) pred.
Proof. unfold inverse_transform, reshape_column. rewrite map_map. reflexivity. Qed.

Lemma check_array_rows (A : Type) (rows : A -> list (num B)) (idx : list A) (u : unit) :
  check_array B (map rows idx) = Ok u -> idx <> [].
Proof. destruct idx; [discriminate | intros _; discriminate]. Qed.

Lemma mstats_spearmanr_returned (x y : list (num B)) (rho : num B * num B) :
  mstats_spearmanr B x y = Ok rho ->
  rho = spearmanr B x y /\ length x = length y /\ 2 <= length x.
Proof.
  unfold mstats_spearmanr.
  destruct (Nat.eqb_spec (length x) (length y)) as [Heq|Hne]; [|discriminate].
  cbn [negb]. destruct (Nat.ltb_spec (length x) 2) as [Hlt|Hge]; [discriminate|].
  intros Hrho. injection Hrho as <-. repeat split; assumption.
Qed.

Variable G : Generator.

(** Everything one pass of the loop body leaves behind. *)
Lemma per_fold_locals (d : nat) (regression_method : string)
    (X : list (list (num B))) (y : list (num B)) (split : list nat * list nat)
    (st : RandomState G) (f : FoldLocals B) (st' : RandomState G) :
  Forall (fun row => length row = d) X ->
  per_fold B G regression_method X (reshape_column y) split st = Ok (f, st') ->
  sides f = split /\
  scaled_by_training d X y f /\
  fit_regressor B G regression_method (X_train f) (y_train f) st
    = Ok (regressor f, st') /\
  2 <= length (test_idx f).
Proof.
  intros Hrect. unfold per_fold. destruct split as [train test].
  destruct (take X train) as [X_tr|e] eqn:HXtr; [|discriminate]. cbn [bind].
  destruct (take (reshape_column y) train) as [y_tr|e] eqn:Hytr; [|discriminate].
  cbn [bind].
  destruct (take X test) as [X_te|e] eqn:HXte; [|discriminate]. cbn [bind].
  destruct (take (reshape_column y) test) as [y_te|e] eqn:Hyte; [|discriminate].
  cbn [bind].
  destruct (take_spec X [] train HXtr) as [Htrain ->].
  destruct (take_spec X [] test HXte) as [Htest ->].
  rewrite (take_column _ _ Hytr), (take_column _ _ Hyte). clear Hytr Hyte y_tr y_te.
  destruct (check_array B (map _ train)) as [u|e] eqn:Hc1; [|discriminate].
  cbn [bind]. pose proof (@check_array_rows _ _ _ _ Hc1) as Hne.
  destruct (check_array B (map _ test)) as [u'|e] eqn:Hc2; [|discriminate].
  cbn [bind]. pose proof (@check_array_rows _ _ _ _ Hc2) as Hne'.
  destruct (check_array B (map (fun i => [nth i y (zero B)]) train)) as [u''|e];
    [|discriminate].
  cbn [bind].
  rewrite (fit_rows Hrect Hne Htrain), (fit_column y Hne).
  rewrite !(transform_rows Hrect) by assumption.
  destruct (fit_regressor B G regression_method _ _ st) as [[reg st1]|e] eqn:Hreg;
    [|discriminate].
  cbn [bind].
  destruct (mstats_spearmanr B _ _) as [[c pv]|e] eqn:Hsp; [|discriminate].
  cbn [bind].
  destruct (pearsonr B _ _) as [r pv'] eqn:Hpe.
  intros Hf. injection Hf as <- <-.
  destruct (mstats_spearmanr_returned _ _ Hsp) as [Hrho [_ Htwo]].
  rewrite ?transform_column, ?inverse_transform_column, ?squeeze_rows in *.
  fold (scores_at B y test) in *.
  split; [reflexivity|]. split; [|split; [exact Hreg|]].
  - unfold scaled_by_training.
    cbn [train_idx test_idx sc_X sc_y X_train X_test y_train y_test regressor
         y_pred coef p corr mean_ scale_].
    rewrite Hpe. cbn [fst].
    repeat split; try assumption; try reflexivity.
    rewrite map_map. reflexivity.
  - cbn [test_idx]. unfold scores_at in Htwo. rewrite length_map in Htwo. exact Htwo.
Qed.


(** The lighter reading of one pass: what was fitted, on which rows. *)
Lemma per_fold_inv (regression_method : string) (X y : list (list (num B)))
    (split : list nat * list nat) (st : RandomState G)
    (f : FoldLocals B) (st' : RandomState G) :
  per_fold B G regression_method X y split st = Ok (f, st') ->
  exists X_tr y_tr,
    take X (fst split) = Ok X_tr /\
    take y (fst split) = Ok y_tr /\
    sides f = split /\
    sc_X f = fit B X_tr /\
    X_train f = transform (fit B X_tr) X_tr /\
    sc_y f = fit B y_tr /\
    y_train f = transform (fit B y_tr) y_tr /\
    fit_regressor B G regression_method (X_train f) (y_train f) st
      = Ok (regressor f, st').
Proof.
  unfold per_fold. destruct split as [train test]. cbn [fst].
  destruct (take X train) as [X_tr|e]; [|discriminate]. cbn [bind].
  destruct (take y train) as [y_tr|e]; [|discriminate]. cbn [bind].
  destruct (take X test) as [X_te|e]; [|discriminate]. cbn [bind].
  destruct (take y test) as [y_te|e]; [|discriminate]. cbn [bind].
  destruct (check_array B X_tr) as [u|e]; [|discriminate]. cbn [bind].
  destruct (check_array B X_te) as [u'|e]; [|discriminate]. cbn [bind].
  destruct (check_array B y_tr) as [u''|e]; [|discriminate]. cbn [bind].
  destruct (fit_regressor B G regression_method _ _ st) as [[reg st1]|e] eqn:Hreg;
    [|discriminate].
  cbn [bind].
  destruct (mstats_spearmanr B _ _) as [[c pv]|e]; [|discriminate]. cbn [bind].
  destruct (pearsonr B _ _) as [r pv'].
  intros Hf. injection Hf as <- <-.
  exists X_tr, y_tr. repeat split. exact Hreg.
Qed.

Lemma fit_regressor_svr (X_tr y_tr : list (list (num B))) (st : RandomState G)
    (r : Regressor B) (st' : RandomState G) :
  fit_regressor B G "svr" X_tr y_tr st = Ok (r, st') ->
  (exists model, r = SVR B model) /\ st' = snd (randint G st 2147483647%Z).
Proof.
  unfold fit_regressor. cbn [String.eqb Ascii.eqb Bool.eqb].
  destruct (randint G st 2147483647%Z) as [seed st1].
  intros Hr. injection Hr as <- <-. split; [eexists; reflexivity | reflexivity].
Qed.

(** A fold that fits the SVR takes one number from the generator. *)
Lemma per_fold_svr (X y : list (list (num B))) (split : list nat * list nat)
    (st : RandomState G) (f : FoldLocals B) (st' : RandomState G) :
  per_fold B G "svr" X y split st = Ok (f, st') ->
  sides f = split /\ fitted_svr f /\ st' = snd (randint G st 2147483647%Z).
Proof.
  intros Hf.
  destruct (per_fold_inv _ _ _ _ _ Hf) as [X_tr [y_tr [_ [_ [Hs [_ [_ [_ [_ Hreg]]]]]]]]].
  destruct (fit_regressor_svr _ _ _ Hreg) as [Hsvr Hst].
  split; [exact Hs|]. split; [exact Hsvr | exact Hst].
Qed.

Lemma take_agree (A : Type) (a a' : list A) :
  forall (idx : list nat),
    (forall i, In i idx -> nth_error a i = nth_error a' i) ->
    take a idx = take a' idx.
Proof.
  induction idx as [|i idx IH]; intros Hagree; [reflexivity|].
  unfold take. cbn [fold_right]. fold (take a idx). fold (take a' idx).
  rewrite IH by (intros k Hk; apply Hagree; right; exact Hk).
  rewrite (Hagree i) by (left; reflexivity). reflexivity.
Qed.

(** What a LIVE run went through before and in its loop. *)
Lemma live_folds_inv (st : RandomState G) (video_list : list string)
    (garbage : nat -> nat) (X : list (list (num B))) (y : list (num B))
    (regression_method : string) (folds : list (FoldLocals B)) (st' : RandomState G) :
  live_folds B G st video_list garbage X y regression_method = Ok (folds, st') ->
  exists groups video_groups n_train n_test,
    build_groups video_list garbage = Ok (groups, video_groups) /\
    indexable [length X; length y; length groups] = Ok tt /\
    validate_shuffle_split (length (fst (unique groups))) (4, 5)
      = Ok (n_train, n_test) /\
    for_each_st
      (live_iteration B G regression_method X (reshape_column y)
         (snd (unique groups)) (length (fst (unique groups))) n_train n_test)
      (seq 0 50) st = Ok (folds, st').
Proof.
  unfold live_folds. intros Hrun.
  destruct (build_groups video_list garbage) as [[groups video_groups]|e];
    [|discriminate].
  cbn [bind fst] in Hrun. unfold reshape_column at 1 in Hrun.
  rewrite length_map in Hrun.
  destruct (indexable _) as [[]|e] eqn:Hidx; [|discriminate]. cbn [bind] in Hrun.
  destruct (unique groups) as [classes group_indices] eqn:Hunique.
  destruct (validate_shuffle_split (length classes) (4, 5)) as [[n_train n_test]|e]
    eqn:Hsizes; [|discriminate].
  cbn [bind] in Hrun.
  exists groups, video_groups, n_train, n_test. rewrite Hunique. cbn [fst snd].
  split; [reflexivity|]. split; [exact Hidx|]. split; [exact Hsizes | exact Hrun].
Qed.

Lemma live_iteration_inv (regression_method : string) (X y : list (list (num B)))
    (group_indices : list nat) (n_classes n_train n_test i : nat)
    (st : RandomState G) (f : FoldLocals B) (st' : RandomState G) :
  live_iteration B G regression_method X y group_indices n_classes n_train n_test i st
    = Ok (f, st') ->
  exists part,
    part = (firstn n_train (skipn n_test (fst (permutation G st n_classes))),
            firstn n_test (fst (permutation G st n_classes))) /\
    per_fold B G regression_method X y
      (where_isin group_indices (fst part), where_isin group_indices (snd part))
      (snd (permutation G st n_classes)) = Ok (f, st').
Proof.
  unfold live_iteration. destruct (permutation G st n_classes) as [perm st1].
  intros Hf. eexists. split; [reflexivity | exact Hf].
Qed.

(** What holds after every pass of the body holds of every fold of a run. *)
Lemma live_folds_Forall (P : FoldLocals B -> Prop) (st : RandomState G)
    (video_list : list string) (garbage : nat -> nat) (X : list (list (num B)))
    (y : list (num B)) (regression_method : string)
    (folds : list (FoldLocals B)) (st' : RandomState G) :
  (forall split st0 f st1,
      per_fold B G regression_method X (reshape_column y) split st0 = Ok (f, st1) ->
      P f) ->
  live_folds B G st video_list garbage X y regression_method = Ok (folds, st') ->
  Forall P folds.
Proof.
  intros Hbody Hrun.
  destruct (live_folds_inv _ _ _ _ _ _ Hrun)
    as [groups [video_groups [n_train [n_test [_ [_ [_ Hloop]]]]]]].
  apply (@for_each_st_Forall _ _ _ _ P) in Hloop; [exact Hloop|].
  intros i st0 f st1 Hf.
  destruct (live_iteration_inv _ _ _ _ _ _ _ _ _ Hf) as [part [_ Hfold]].
  exact (Hbody _ _ _ _ Hfold).
Qed.

Lemma konvid1k_folds_Forall (P : FoldLocals B -> Prop) (st : RandomState G)
    (X : list (list (num B))) (y : list (num B)) (regression_method : string)
    (folds : list (FoldLocals B)) (st' : RandomState G) :
  (forall split st0 f st1,
      per_fold B G (Str.lower regression_method) X (reshape_column y) split st0
        = Ok (f, st1) ->
      P f) ->
  konvid1k_folds B G st X y regression_method = Ok (folds, st') ->
  Forall P folds.
Proof.
  intros Hbody Hrun.
  destruct (konvid1k_folds_inv _ _ _ _ _ Hrun) as [reps [Hreps ->]].
  apply Forall_concat.
  apply (@for_each_st_Forall _ _ _ _ (Forall P)) in Hreps; [exact Hreps|].
  intros i st0 fs st1 Hfs.
  destruct (konvid1k_repetition_inv _ _ _ _ _ _ Hfs) as [splits [st2 [_ [Hloop _]]]].
  apply (@for_each_st_Forall _ _ _ _ P) in Hloop; [exact Hloop|].
  intros split st3 f st4 Hf. exact (Hbody _ _ _ _ Hf).
Qed.

(** C5.  In every fold of both strategies the feature standardizer is
    fitted on the training features only and that fitted transform is the
    one applied to the test features; a separate standardizer is fitted on
    the training scores, and the predictions on the standardized test
    features are inverse-transformed through it before they are compared
    with the test scores: every sample of every fold is the one
    [scaled_by_training] spells out from the array X of d features and the
    scores y.  Nothing fitted in a fold depends on rows outside its training
    indices: two data sets that agree at the training indices of a split
    give the same standardizers and the same standardized training data. *)
Theorem folds_scaled_by_training_statistics :
  (forall d st video_list garbage X y regression_method folds st',
      Forall (fun row => length row = d) X ->
      live_folds B G st video_list garbage X y regression_method = Ok (folds, st') ->
      Forall (scaled_by_training d X y) folds) /\
  (forall d st X y regression_method folds st',
      Forall (fun row => length row = d) X ->
      konvid1k_folds B G st X y regression_method = Ok (folds, st') ->
      Forall (scaled_by_training d X y) folds) /\
  (forall regression_method X X' y y' split st st0 f f' st1 st2,
      (forall i, In i (fst split) ->
         nth_error X i = nth_error X' i /\ nth_error y i = nth_error y' i) ->
      per_fold B G regression_method X (reshape_column y) split st = Ok (f, st1) ->
      per_fold B G regression_method X' (reshape_column y') split st0 = Ok (f', st2) ->
      same_fit f f').
Proof.
  split; [|split].
  - intros d st video_list garbage X y m folds st' Hrect Hrun.
    apply (@live_folds_Forall (scaled_by_training d X y)
             st video_list garbage X y m folds st'); [|exact Hrun].
    intros split st0 f st1 Hf.
    apply (@per_fold_locals d m X y split st0 f st1 Hrect Hf).
  - intros d st X y m folds st' Hrect Hrun.
    apply (@konvid1k_folds_Forall (scaled_by_training d X y)
             st X y m folds st'); [|exact Hrun].
    intros split st0 f st1 Hf.
    apply (@per_fold_locals d (Str.lower m) X y split st0 f st1 Hrect Hf).
  - intros m X X' y y' split st st0 f f' st1 st2 Hagree Hf Hf'.
    destruct (per_fold_inv _ _ _ _ _ Hf)
      as [X_tr [y_tr [HX [Hy [_ [HscX [HXtrain [Hscy [Hytrain _]]]]]]]]].
    destruct (per_fold_inv _ _ _ _ _ Hf')
      as [X_tr' [y_tr' [HX' [Hy' [_ [HscX' [HXtrain' [Hscy' [Hytrain' _]]]]]]]]].
    assert (HeqX : take X (fst split) = take X' (fst split))
      by (apply take_agree; intros i Hi; apply Hagree, Hi).
    assert (Heqy : take (reshape_column y) (fst split)
                   = take (reshape_column y') (fst split)).
    { apply take_agree. intros i Hi. unfold reshape_column.
      rewrite !nth_error_map. destruct (Hagree i Hi) as [_ ->]. reflexivity. }
    assert (X_tr = X_tr') by congruence.
    assert (y_tr = y_tr') by congruence.
    subst X_tr' y_tr'. unfold same_fit. repeat split; congruence.
Qed.

(** C6, as the code has it.  [regression] hands the literal 'svr' to the
    evaluation functions: whatever [regression_method] it is called with,
    it does what it does for 'svr', and every fold it evaluates fits a
    support vector regressor. *)
Theorem regression_always_fits_svr :
  forall (st : RandomState G) (video_list : list string) (garbage : nat -> nat)
         (X : list (list (num B))) (y : list (num B))
         (regression_method dataset : string),
    regression B G st video_list garbage X y regression_method dataset
    = regression B G st video_list garbage X y "svr" dataset /\
    forall folds st',
      regression_folds B G st video_list garbage X y regression_method dataset
      = Ok (folds, st') ->
      Forall (@fitted_svr B) folds.
Proof.
  intros st video_list garbage X y m dataset. split; [reflexivity|].
  intros folds st' Hrun. unfold regression_folds in Hrun.
  destruct (String.eqb (Str.upper dataset) "LIVE").
  - apply (@live_folds_Forall (@fitted_svr B)
             st video_list garbage X y "svr" folds st'); [|exact Hrun].
    intros split st0 f st1 Hf. apply (per_fold_svr _ _ _ _ Hf).
  - destruct (String.eqb (Str.upper dataset) "KONVID1K"); [|discriminate].
    apply (@konvid1k_folds_Forall (@fitted_svr B) st X y "svr" folds st');
      [|exact Hrun].
    intros split st0 f st1 Hf. apply (per_fold_svr _ _ _ _ Hf).
Qed.

(** Two passes of the SVR body from one state, on any two data sets. *)
Lemma per_fold_svr_agree (X X' y y' : list (list (num B)))
    (split : list nat * list nat) (st : RandomState G)
    (f f' : FoldLocals B) (st1 st2 : RandomState G) :
  per_fold B G "svr" X y split st = Ok (f, st1) ->
  per_fold B G "svr" X' y' split st = Ok (f', st2) ->
  sides f = sides f' /\ st1 = st2.
Proof.
  intros Hf Hf'.
  destruct (per_fold_svr _ _ _ _ Hf) as [Hs [_ Hst]].
  destruct (per_fold_svr _ _ _ _ Hf') as [Hs' [_ Hst']].
  split; congruence.
Qed.

Lemma live_iteration_svr_agree (X X' y y' : list (list (num B)))
    (group_indices : list nat) (n_classes n_train n_test i : nat)
    (st : RandomState G) (f f' : FoldLocals B) (st1 st2 : RandomState G) :
  live_iteration B G "svr" X y group_indices n_classes n_train n_test i st
    = Ok (f, st1) ->
  live_iteration B G "svr" X' y' group_indices n_classes n_train n_test i st
    = Ok (f', st2) ->
  sides f = sides f' /\ st1 = st2.
Proof.
  intros Hf Hf'.
  destruct (live_iteration_inv _ _ _ _ _ _ _ _ _ Hf) as [part [-> Hp]].
  destruct (live_iteration_inv _ _ _ _ _ _ _ _ _ Hf') as [part' [-> Hp']].
  eapply per_fold_svr_agree; eassumption.
Qed.

Lemma konvid1k_repetition_svr_agree (X X' y y' : list (list (num B))) (i : nat)
    (st : RandomState G) (fs fs' : list (FoldLocals B)) (st1 st2 : RandomState G) :
  length X = length X' ->
  konvid1k_repetition B G "svr" X y i st = Ok (fs, st1) ->
  konvid1k_repetition B G "svr" X' y' i st = Ok (fs', st2) ->
  map (@sides B) fs = map (@sides B) fs' /\ st1 = st2.
Proof.
  intros HX Hfs Hfs'.
  destruct (konvid1k_repetition_inv _ _ _ _ _ _ Hfs) as [splits [sa [Hsplit [Hloop _]]]].
  destruct (konvid1k_repetition_inv _ _ _ _ _ _ Hfs')
    as [splits' [sb [Hsplit' [Hloop' _]]]].
  rewrite <- HX, Hsplit in Hsplit'. injection Hsplit' as <- <-.
  destruct (@for_each_st_agree _ _ _ (per_fold B G "svr" X y) (per_fold B G "svr" X' y')
              (fun f f' => sides f = sides f')
              (fun split st0 f sc f' sd Hf Hf' =>
                 @per_fold_svr_agree X X' y y' split st0 f f' sc sd Hf Hf')
              _ _ _ _ _ _ Hloop Hloop') as [Hall Hst].
  split; [exact (Forall2_map_eq _ Hall) | exact Hst].
Qed.

(** C7 (amended).  Neither evaluation function takes a seed and neither
    splitter is given one: the splits are drawn from the state of the
    ambient generator, from which every [SVR().fit] between two splits
    draws as well.  For the support vector regressor, which [regression]
    always runs, that state and the number of videos determine the splits:
    two runs started from the same generator state on inputs of the same
    sizes, whatever the feature values and the scores, go through the same
    sequence of (train, test) index sets and leave the generator in the
    same state. *)
Theorem svr_splits_determined_by_generator_state :
  (forall st video_list garbage X X' y y' folds folds' st1 st2,
      length X = length X' -> length y = length y' ->
      live_folds B G st video_list garbage X y "svr" = Ok (folds, st1) ->
      live_folds B G st video_list garbage X' y' "svr" = Ok (folds', st2) ->
      map (@sides B) folds = map (@sides B) folds' /\ st1 = st2) /\
  (forall st X X' y y' m m' folds folds' st1 st2,
      length X = length X' ->
      Str.lower m = "svr"%string -> Str.lower m' = "svr"%string ->
      konvid1k_folds B G st X y m = Ok (folds, st1) ->
      konvid1k_folds B G st X' y' m' = Ok (folds', st2) ->
      map (@sides B) folds = map (@sides B) folds' /\ st1 = st2).
Proof.
  split.
  - intros st video_list garbage X X' y y' folds folds' st1 st2 HX Hy Hrun Hrun'.
    destruct (live_folds_inv _ _ _ _ _ _ Hrun)
      as [groups [video_groups [n_train [n_test [Hbuild [_ [Hsizes Hloop]]]]]]].
    destruct (live_folds_inv _ _ _ _ _ _ Hrun')
      as [groups' [video_groups' [n_train' [n_test' [Hbuild' [_ [Hsizes' Hloop']]]]]]].
    rewrite Hbuild in Hbuild'. injection Hbuild' as <- <-.
    rewrite Hsizes in Hsizes'. injection Hsizes' as <- <-.
    destruct (@for_each_st_agree _ _ _ _ _ (fun f f' => sides f = sides f')
                (fun i st0 f sa f' sb Hf Hf' =>
                   @live_iteration_svr_agree _ _ _ _ _ _ _ _ i st0 f f' sa sb Hf Hf')
                _ _ _ _ _ _ Hloop Hloop') as [Hall Hst].
    split; [exact (Forall2_map_eq _ Hall) | exact Hst].
  - intros st X X' y y' m m' folds folds' st1 st2 HX Hm Hm' Hrun Hrun'.
    destruct (konvid1k_folds_inv _ _ _ _ _ Hrun) as [reps [Hreps ->]].
    destruct (konvid1k_folds_inv _ _ _ _ _ Hrun') as [reps' [Hreps' ->]].
    rewrite Hm in Hreps. rewrite Hm' in Hreps'.
    destruct (@for_each_st_agree _ _ _ _ _
                (fun fs fs' => map (@sides B) fs = map (@sides B) fs')
                (fun i st0 fs sa fs' sb Hfs Hfs' =>
                   @konvid1k_repetition_svr_agree _ _ _ _ i st0 fs fs' sa sb HX Hfs Hfs')
                _ _ _ _ _ _ Hreps Hreps') as [Hall Hst].
    split; [exact (Forall2_concat_map_eq _ Hall) | exact Hst].
Qed.

End FoldProperties.

(** ** Runs on the concrete instances *)

Section Runs.
Import Sklearn Regression Instances.

Lemma rotating_lawful : lawful rotating.
Proof.
  intros st l. cbn. unfold rotate.
  rewrite <- (firstn_skipn (st mod length l) l) at 1.
  apply Permutation_app_comm.
Qed.


(** The witness of C4: the rotating generator on ten videos. *)
Lemma konvid1k_kfold_partitions_witness :
  exists reps st',
    konvid1k_splits rotating 0 10 = Ok (reps, st') /\
    length reps = 10 /\
    Forall (kfold_partition 10) reps /\
    length (concat reps) = 50 /\
    forall (B : Backend) (X : list (list (num B))) (y : list (num B))
           (regression_method : string) (folds : list (FoldLocals B))
           (st'' : RandomState rotating),
      length X = 10 ->
      konvid1k_folds B rotating 0 X y regression_method = Ok (folds, st'') ->
      length folds = 50.
Proof.
  apply (@konvid1k_kfold_partitions rotating rotating_lawful 0 10). lia.
Defined.

(** A run of the k-fold strategy on ten one-feature videos: a witness of
    C5. *)
Lemma folds_scaled_by_training_statistics_witness :
  exists folds st',
    konvid1k_folds integers rotating 0 X10 y10 "svr" = Ok (folds, st') /\
    Forall (@scaled_by_training integers 1 X10 y10) folds.
Proof.
  destruct (konvid1k_folds integers rotating 0 X10 y10 "svr")
    as [[folds st']|e] eqn:Hrun.
  - exists folds, st'. split; [reflexivity|].
    apply (proj1 (proj2 (folds_scaled_by_training_statistics integers rotating))
             1 0 X10 y10 "svr"%string folds st'); [|exact Hrun].
    repeat constructor.
  - apply (f_equal (@returns _)) in Hrun. vm_compute in Hrun. discriminate Hrun.
Defined.

(** Two runs of the SVR from one generator state, on the first ten videos
    and on the next ten: a witness of the amended C7. *)
Lemma svr_splits_determined_by_generator_state_witness :
  exists folds folds' st1 st2,
    konvid1k_folds integers rotating 0 X10 y10 "svr" = Ok (folds, st1) /\
    konvid1k_folds integers rotating 0 X10_next y10_next "SVR" = Ok (folds', st2) /\
    map (@sides integers) folds = map (@sides integers) folds' /\ st1 = st2.
Proof.
  destruct (konvid1k_folds integers rotating 0 X10 y10 "svr")
    as [[folds st1]|e] eqn:Hrun;
    [|apply (f_equal (@returns _)) in Hrun; vm_compute in Hrun; discriminate Hrun].
  destruct (konvid1k_folds integers rotating 0 X10_next y10_next "SVR")
    as [[folds' st2]|e] eqn:Hrun';
    [|apply (f_equal (@returns _)) in Hrun'; vm_compute in Hrun'; discriminate Hrun'].
  exists folds, folds', st1, st2. split; [reflexivity|]. split; [reflexivity|].
  exact (proj2 (svr_splits_determined_by_generator_state integers rotating)
           0 X10 X10_next y10 y10_next "svr"%string "SVR"%string folds folds' st1 st2
           eq_refl eq_refl eq_refl Hrun Hrun').
Defined.

(** The regressor is part of what determines the splits: from one
    generator state and on the same ten videos, the run that fits the SVR
    and the run that trains the network go through different index sets and
    leave the generator in different states. *)
Lemma svr_and_nn_runs_split_differently :
  trace (konvid1k_folds integers rotating 0 X10 y10 "svr")
  <> trace (konvid1k_folds integers rotating 0 X10 y10 "nn") /\
  option_map snd (trace (konvid1k_folds integers rotating 0 X10 y10 "svr"))
  <> option_map snd (trace (konvid1k_folds integers rotating 0 X10 y10 "nn")) /\
  option_map fst (trace (live_folds integers rotating 0 names150 (fun _ => 7)
                           X150 y150 "svr"))
  <> option_map fst (trace (live_folds integers rotating 0 names150 (fun _ => 7)
                              X150 y150 "nn")).
Proof.
  assert (Hstates :
            option_map snd (trace (konvid1k_folds integers rotating 0 X10 y10 "svr"))
            <> option_map snd (trace (konvid1k_folds integers rotating 0 X10 y10 "nn")))
    by (vm_compute; discriminate).
  split; [|split; [exact Hstates|]].
  - intros H. apply Hstates. rewrite H. reflexivity.
  - intros H.
    apply (f_equal (fun t => match t with
                             | Some (_ :: (_, i :: _) :: _) => i
                             | _ => 0
                             end)) in H.
    vm_compute in H. discriminate H.
Qed.

(** C7 as stated fails.  The evaluation functions have no seed among their
    arguments, and equal arguments do not give equal splits: the LIVE splits
    drawn from generator states 0 and 1 differ; a second round of the
    k-fold splitter, started where the first one left the generator, differs
    from the first; and two k-fold evaluations of the same ten videos, both
    of which return, go through different index sets when the generator is
    in state 0 and in state 1. *)
Lemma splits_differ_between_runs :
  (exists s1 s2,
      live_splits rotating 0 names150 (fun _ => 7) 150 150 = Ok s1 /\
      live_splits rotating 1 names150 (fun _ => 7) 150 150 = Ok s2 /\
      fst s1 <> fst s2) /\
  (exists r1 r2,
      konvid1k_splits rotating 0 11 = Ok r1 /\
      konvid1k_splits rotating (snd r1) 11 = Ok r2 /\
      fst r1 <> fst r2) /\
  (returns (konvid1k_folds integers rotating 0 X10 y10 "svr") = true /\
   returns (konvid1k_folds integers rotating 1 X10 y10 "svr") = true /\
   option_map fst (trace (konvid1k_folds integers rotating 0 X10 y10 "svr"))
   <> option_map fst (trace (konvid1k_folds integers rotating 1 X10 y10 "svr"))).
Proof.
  split; [|split].
  - eexists _, _. split; [vm_compute; reflexivity|].
    split; [vm_compute; reflexivity|].
    intros H. apply (f_equal (fun l => hd 0 (snd (hd ([], []) l)))) in H.
    vm_compute in H. discriminate H.
  - eexists _, _. split; [vm_compute; reflexivity|].
    split; [vm_compute; reflexivity|].
    intros H.
    apply (f_equal (fun l => nth 2 (snd (hd ([], []) (hd [] l))) 0)) in H.
    vm_compute in H. discriminate H.
  - split; [vm_compute; reflexivity|]. split; [vm_compute; reflexivity|].
    intros H.
    apply (f_equal (fun t => match t with
                             | Some ((_, i :: _) :: _) => i
                             | _ => 0
                             end)) in H.
    vm_compute in H. discriminate H.
Qed.

(** C6 at its failing input: asked for the network on LIVE, [regression]
    returns what the SVR run returns, although [live_dataset_regression]
    itself tells the two methods apart. *)
Lemma regression_nn_on_live_runs_svr :
  regression integers rotating 0 names150 (fun _ => 7) X150 y150 "nn" "LIVE"
  = live_dataset_regression integers rotating 0 names150 (fun _ => 7) X150 y150 "svr"
  /\
  live_dataset_regression integers rotating 0 names150 (fun _ => 7) X150 y150 "nn"
  <> live_dataset_regression integers rotating 0 names150 (fun _ => 7) X150 y150 "svr".
Proof.
  split.
  - vm_compute. reflexivity.
  - intros H.
    apply (f_equal (fun r => match r with
                             | Ok (coefs, _, _, _) => hd 0%Z coefs
                             | Raise _ => 0%Z
                             end)) in H.
    vm_compute in H. discriminate H.
Qed.

End Runs.

(** * Further properties of the code *)

(** ** gram_matrix: values, spatial layout, diagonal *)

Section GramValues.
Import Torch SFVQA.

Variable R : Type.
Variable zero : R.
Variables add mul : R -> R -> R.

(** X1.  On any 4-D tensor of shape (b, d, h, w), [gram_matrix] returns a
    1-D tensor of (b*d) squared entries, batch and depth taken together as
    rows, and its entry i*(b*d)+j is the inner product, accumulated left to
    right, of rows i and j of the (b*d) x (h*w) view of the buffer. *)
Theorem gram_matrix_inner_products (x : Tensor R) (b d h w : nat) :
  size x = [b; d; h; w] ->
  exists g,
    gram_matrix zero add mul x = Ok g /\
    size g = [(b * d) * (b * d)] /\
    length (data g) = (b * d) * (b * d) /\
    forall i j, i < b * d -> j < b * d ->
      nth (i * (b * d) + j) (data g) zero
      = fold_left (fun acc l => add acc (mul (nth (i * (h * w) + l) (data x) zero)
                                             (nth (j * (h * w) + l) (data x) zero)))
                  (seq 0 (h * w)) zero.
Proof.
  intros Hsz. rewrite (gram_matrix_4d zero add mul x Hsz).
  eexists. split; [reflexivity|]. cbn [size data].
  split; [reflexivity|]. split; [apply table_length|].
  intros i j Hi Hj. rewrite table_nth by assumption. reflexivity.
Qed.

Section Reordering.

Hypothesis add_comm : forall a b, add a b = add b a.
Hypothesis add_assoc : forall a b c, add a (add b c) = add (add a b) c.

Lemma fold_add_permutation (F : nat -> R) (l1 l2 : list nat) :
  Permutation l1 l2 ->
  forall a, fold_left (fun acc m => add acc (F m)) l1 a
            = fold_left (fun acc m => add acc (F m)) l2 a.
Proof.
  induction 1 as [|m l1 l2 _ IH|m1 m2 l|l1 l2 l3 _ IH1 _ IH2]; intros a.
  - reflexivity.
  - simpl. apply IH.
  - simpl. f_equal.
    rewrite <- !add_assoc. f_equal. apply add_comm.
  - rewrite IH1. apply IH2.
Qed.

Lemma fold_add_map (F : nat -> R) (sigma : nat -> nat) (l : list nat) :
  forall a, fold_left (fun acc m => add acc (F (sigma m))) l a
            = fold_left (fun acc m => add acc (F m)) (map sigma l) a.
Proof.
  induction l as [|m l IH]; intros a; simpl.
  - reflexivity.
  - apply IH.
Qed.

(** X2.  The Gram vector does not depend on the spatial layout: if the
    addition is commutative and associative, permuting the h*w spatial
    positions the same way in every row leaves the result of [gram_matrix]
    unchanged. *)
Theorem gram_matrix_spatial_permutation
    (x x' : Tensor R) (b d h w : nat) (sigma : nat -> nat) :
  size x = [b; d; h; w] ->
  size x' = [b; d; h; w] ->
  Permutation (map sigma (seq 0 (h * w))) (seq 0 (h * w)) ->
  (forall i l, i < b * d -> l < h * w ->
     nth (i * (h * w) + l) (data x') zero
     = nth (i * (h * w) + sigma l) (data x) zero) ->
  gram_matrix zero add mul x' = gram_matrix zero add mul x.
Proof.
  intros Hsz Hsz' Hperm Hdata.
  rewrite (gram_matrix_4d zero add mul x Hsz), (gram_matrix_4d zero add mul x' Hsz').
  f_equal. f_equal. apply table_ext. intros i j Hi Hj. unfold gram_entry.
  rewrite <- (fold_add_permutation
                (fun l => mul (nth (i * (h * w) + l) (data x) zero)
                              (nth (j * (h * w) + l) (data x) zero)) Hperm).
  rewrite <- fold_add_map.
  apply fold_left_ext_in. intros acc l Hl. apply in_seq in Hl.
  rewrite !Hdata by lia. reflexivity.
Qed.

End Reordering.

Section Order.

Variable le : R -> R -> Prop.
Hypothesis le_zero : le zero zero.
Hypothesis le_square : forall a, le zero (mul a a).
Hypothesis le_add : forall a b, le zero a -> le zero b -> le zero (add a b).

Lemma fold_squares_nonnegative (F : nat -> R) (l : list nat) :
  forall a, le zero a ->
            le zero (fold_left (fun acc m => add acc (mul (F m) (F m))) l a).
Proof.
  induction l as [|m l IH]; intros a Ha; simpl.
  - exact Ha.
  - apply IH. apply le_add; [exact Ha | apply le_square].
Qed.

(** X3.  The diagonal of the Gram matrix is non-negative: in any ordered
    arithmetic where squares and sums of non-negatives are non-negative,
    entry i*(b*d)+i of the result of [gram_matrix] is non-negative. *)
Theorem gram_matrix_diagonal_nonnegative (x : Tensor R) (b d h w : nat) :
  size x = [b; d; h; w] ->
  exists g,
    gram_matrix zero add mul x = Ok g /\
    forall i, i < b * d -> le zero (nth (i * (b * d) + i) (data g) zero).
Proof.
  intros Hsz. rewrite (gram_matrix_4d zero add mul x Hsz).
  eexists. split; [reflexivity|]. cbn [data].
  intros i Hi. rewrite table_nth by assumption.
  unfold gram_entry. apply fold_squares_nonnegative. exact le_zero.
Qed.

End Order.
End GramValues.

(** A batch of two one-channel 1 x 2 activations: the witness of X1. *)
Lemma gram_matrix_inner_products_witness :
  exists g,
    SFVQA.gram_matrix 0%Z Z.add Z.mul (Torch.mkTensor [2; 1; 1; 2] [1; 2; 3; 4]%Z) = Ok g /\
    Torch.size g = [(2 * 1) * (2 * 1)] /\
    length (Torch.data g) = (2 * 1) * (2 * 1) /\
    forall i j, i < 2 * 1 -> j < 2 * 1 ->
      nth (i * (2 * 1) + j) (Torch.data g) 0%Z
      = fold_left (fun acc l => (acc + nth (i * (1 * 2) + l) [1; 2; 3; 4] 0
                                       * nth (j * (1 * 2) + l) [1; 2; 3; 4] 0)%Z)
                  (seq 0 (1 * 2)) 0%Z.
Proof.
  apply (@gram_matrix_inner_products Z 0%Z Z.add Z.mul
           (Torch.mkTensor [2; 1; 1; 2] [1; 2; 3; 4]%Z) 2 1 1 2).
  reflexivity.
Defined.

(** Swapping the two spatial positions of a 1 x 2 x 1 x 2 activation: the
    witness of X2. *)
Lemma gram_matrix_spatial_permutation_witness :
  SFVQA.gram_matrix 0%Z Z.add Z.mul (Torch.mkTensor [1; 2; 1; 2] [2; 1; 4; 3]%Z)
  = SFVQA.gram_matrix 0%Z Z.add Z.mul (Torch.mkTensor [1; 2; 1; 2] [1; 2; 3; 4]%Z).
Proof.
  apply (@gram_matrix_spatial_permutation Z 0%Z Z.add Z.mul Z.add_comm Z.add_assoc
           (Torch.mkTensor [1; 2; 1; 2] [1; 2; 3; 4]%Z)
           (Torch.mkTensor [1; 2; 1; 2] [2; 1; 4; 3]%Z)
           1 2 1 2 (fun l => 1 - l)).
  - reflexivity.
  - reflexivity.
  - simpl. apply perm_swap.
  - intros i l Hi Hl.
    destruct i as [|[|i]]; [| |simpl in Hi; lia];
      (destruct l as [|[|l]]; [reflexivity | reflexivity | simpl in Hl; lia]).
Defined.

(** Integers with their usual order: the witness of X3. *)
Lemma gram_matrix_diagonal_nonnegative_witness :
  exists g,
    SFVQA.gram_matrix 0%Z Z.add Z.mul (Torch.mkTensor [1; 2; 1; 2] [1; -2; 3; 4]%Z) = Ok g /\
    forall i, i < 1 * 2 -> (0 <= nth (i * (1 * 2) + i) (Torch.data g) 0)%Z.
Proof.
  apply (@gram_matrix_diagonal_nonnegative Z 0%Z Z.add Z.mul Z.le
           (Z.le_refl 0) Z.square_nonneg
           (fun a b Ha Hb => Z.add_nonneg_nonneg a b Ha Hb)
           (Torch.mkTensor [1; 2; 1; 2] [1; -2; 3; 4]%Z) 1 2 1 2).
  reflexivity.
Defined.

(** ** str.split with a separator *)

Section SplitProperties.
Import DatasetHandler.

Lemma string_app_assoc (a b c : string) :
  ((a ++ b) ++ c)%string = (a ++ (b ++ c))%string.
Proof.
  induction a as [|x a IH]; simpl.
  - reflexivity.
  - rewrite IH. reflexivity.
Qed.

Lemma split_nonempty (sep : ascii) (s : string) : Str.split sep s <> [].
Proof.
  destruct s as [|c rest]; simpl.
  - discriminate.
  - destruct (Ascii.eqb c sep); [discriminate|].
    destruct (Str.split sep rest); discriminate.
Qed.

Lemma split_pieces_free (sep : ascii) (s : string) :
  Forall (fun piece => count_char sep piece = 0) (Str.split sep s).
Proof.
  induction s as [|c rest IH]; simpl.
  - repeat constructor.
  - destruct (Ascii.eqb c sep) eqn:Hc.
    + constructor; [reflexivity | exact IH].
    + destruct (Str.split sep rest) as [|piece more].
      * repeat constructor. simpl. rewrite Hc. reflexivity.
      * inversion IH as [|? ? Hpiece Hmore]; subst.
        constructor; [|exact Hmore]. simpl. rewrite Hc. exact Hpiece.
Qed.

Lemma split_join (sep : ascii) (s : string) :
  String.concat (String sep EmptyString) (Str.split sep s) = s.
Proof.
  induction s as [|c rest IH]; simpl.
  - reflexivity.
  - pose proof (split_nonempty sep rest) as Hne.
    destruct (Ascii.eqb c sep) eqn:Hc.
    + apply Ascii.eqb_eq in Hc. subst c.
      destruct (Str.split sep rest) as [|piece more]; [contradiction|].
      change (String.concat (String sep EmptyString) (EmptyString :: piece :: more))
        with (EmptyString ++ String sep EmptyString
              ++ String.concat (String sep EmptyString) (piece :: more))%string.
      rewrite IH. reflexivity.
    + destruct (Str.split sep rest) as [|piece more]; [contradiction|].
      destruct more as [|piece' more].
      * change (String.concat (String sep EmptyString) [piece]) with piece in IH.
        change (String.concat (String sep EmptyString) [String c piece])
          with (String c piece).
        rewrite IH. reflexivity.
      * change (String.concat (String sep EmptyString) (piece :: piece' :: more))
          with (piece ++ String sep EmptyString
                ++ String.concat (String sep EmptyString) (piece' :: more))%string
          in IH.
        change (String.concat (String sep EmptyString)
                  (String c piece :: piece' :: more))
          with (String c (piece ++ String sep EmptyString
                ++ String.concat (String sep EmptyString) (piece' :: more)))%string.
        rewrite IH. reflexivity.
Qed.

Lemma split_length (sep : ascii) (s : string) :
  length (Str.split sep s) = S (count_char sep s).
Proof.
  induction s as [|c rest IH]; simpl.
  - reflexivity.
  - destruct (Ascii.eqb c sep).
    + simpl. rewrite IH. reflexivity.
    + pose proof (split_nonempty sep rest) as Hne.
      destruct (Str.split sep rest) as [|piece more]; [contradiction|].
      simpl in *. exact IH.
Qed.

Lemma split_app_sep (sep : ascii) (s : string) :
  Str.split sep (s ++ String sep EmptyString) = Str.split sep s ++ [EmptyString].
Proof.
  induction s as [|c rest IH]; simpl.
  - rewrite Ascii.eqb_refl. reflexivity.
  - destruct (Ascii.eqb c sep); [rewrite IH; reflexivity|].
    rewrite IH. pose proof (split_nonempty sep rest) as Hne.
    destruct (Str.split sep rest) as [|piece more]; [contradiction|].
    reflexivity.
Qed.

Lemma concat_snoc (sep : string) (l : list string) (x : string) :
  l <> [] ->
  String.concat sep (l ++ [x]) = (String.concat sep l ++ sep ++ x)%string.
Proof.
  induction l as [|a l IH]; intros Hne; [contradiction|].
  destruct l as [|b l].
  - reflexivity.
  - change (String.concat sep ((a :: b :: l) ++ [x]))
      with (a ++ sep ++ String.concat sep ((b :: l) ++ [x]))%string.
    rewrite IH by discriminate.
    change (String.concat sep (a :: b :: l))
      with (a ++ sep ++ String.concat sep (b :: l))%string.
    rewrite !string_app_assoc. reflexivity.
Qed.

(** X8.  The extension [get_frames] looks at is the text after the last
    dot of the path: it contains no dot, and either the path has no dot at
    all and the extension is the whole path, or the path is a stem, a dot
    and the extension. *)
Theorem extension_is_text_after_last_dot (vid_path : string) :
  count_char "." (last (Str.split "." vid_path) EmptyString) = 0 /\
  ((count_char "." vid_path = 0 /\
    last (Str.split "." vid_path) EmptyString = vid_path) \/
   exists stem,
     vid_path = (stem ++ "." ++ last (Str.split "." vid_path) EmptyString)%string).
Proof.
  pose proof (split_nonempty "." vid_path) as Hne.
  pose proof (split_pieces_free "." vid_path) as Hfree.
  pose proof (split_join "." vid_path) as Hjoin.
  pose proof (split_length "." vid_path) as Hlen.
  set (pieces := Str.split "." vid_path) in *.
  pose proof (app_removelast_last EmptyString Hne) as Hsplit.
  fold pieces in Hsplit.
  set (extension := last pieces EmptyString) in *.
  set (init := removelast pieces) in *.
  split.
  - rewrite Forall_forall in Hfree. apply Hfree.
    rewrite Hsplit. apply in_or_app. right. left. reflexivity.
  - rewrite Hsplit in Hjoin, Hlen. destruct init as [|a init].
    + left. simpl in Hjoin, Hlen. split; [lia | exact Hjoin].
    + right. rewrite concat_snoc in Hjoin by discriminate.
      eexists. symmetry. exact Hjoin.
Qed.

End SplitProperties.

(** ** get_frames: more on the difference mode and on the parameters *)

Section FrameExtras.
Import VideoUtility FrameArithmetic.

Lemma wrap_sub_length (a b : Frame) :
  length a = length b -> length (wrap_sub a b) = length a.
Proof.
  intros Hlen. unfold wrap_sub. rewrite length_map, length_combine. lia.
Qed.

Lemma wrap_sub_uint8 (a b : Frame) : uint8_frame (wrap_sub a b).
Proof.
  unfold uint8_frame, wrap_sub. apply Forall_map, Forall_forall.
  intros xy _. apply Z.mod_pos_bound. lia.
Qed.

Lemma wrap_add_sub :
  forall (a b : Frame),
    length a = length b -> uint8_frame a -> wrap_add (wrap_sub a b) b = a.
Proof.
  induction a as [|x a IH]; intros b Hlen Hrange.
  - reflexivity.
  - destruct b as [|y b]; [discriminate|].
    inversion Hrange as [|? ? Hx Ha]; subst.
    unfold wrap_add, wrap_sub in *. cbn [combine map fst snd]. f_equal.
    + rewrite Zplus_mod_idemp_l.
      replace (x - y + y)%Z with x by lia. apply Z.mod_small. exact Hx.
    + apply IH; [simpl in Hlen; lia | exact Ha].
Qed.

Lemma diffs_from_shape (npix : nat) :
  forall (l : list Frame) (prev : Frame),
    length prev = npix ->
    Forall (fun f => length f = npix) l ->
    Forall (fun d => uint8_frame d /\ length d = npix) (diffs_from prev l).
Proof.
  induction l as [|f l IH]; intros prev Hprev Hall; cbn [diffs_from].
  - constructor.
  - inversion Hall as [|? ? Hf Hl]; subst. constructor.
    + split; [apply wrap_sub_uint8|].
      rewrite wrap_sub_length by congruence. exact Hf.
    + apply IH; [exact Hf | exact Hl].
Qed.

Variable vreader : string -> nat -> nat -> bool -> option string -> list Frame.

(** The call in difference mode, reduced to the loop. *)
Lemma get_frames_diff_of_frames
    (vid_path vid_pix_fmt frame_color_mode : string) (height width : nat)
    (frames : list Frame) :
  get_frames vreader vid_path vid_pix_fmt frame_color_mode height width false
    = Ok (Generator frames) ->
  get_frames vreader vid_path vid_pix_fmt frame_color_mode height width true
    = (s <- fold_left diff_step (enumerate frames) (Ok (None, [])) ;;
       Ok (Array (snd s))).
Proof.
  unfold get_frames.
  set (frames_gen :=
         if String.eqb (last (Str.split "." vid_path) EmptyString) "mp4" then _
         else _).
  destruct frames_gen as [fs|]; [|discriminate].
  intros Hgen. injection Hgen as ->. reflexivity.
Qed.

(** X4.  In difference mode an unrecognised colour mode is not silent: for
    a path whose extension is not mp4 and a [frame_color_mode] other than
    'rgb' and 'gray', [get_frames] with [frame_diff=True] raises TypeError
    (it iterates over [None]). *)
Theorem get_frames_diff_unknown_color_mode
    (vid_path vid_pix_fmt frame_color_mode : string) (height width : nat) :
  last (Str.split "." vid_path) EmptyString <> "mp4"%string ->
  frame_color_mode <> "rgb"%string ->
  frame_color_mode <> "gray"%string ->
  get_frames vreader vid_path vid_pix_fmt frame_color_mode height width true
    = Raise TypeError.
Proof.
  intros Hext Hrgb Hgray. unfold get_frames.
  apply String.eqb_neq in Hext, Hrgb, Hgray.
  rewrite Hext, Hrgb, Hgray. reflexivity.
Qed.

(** X5.  What the parameters do not do: [vid_pix_fmt] never changes the
    result of [get_frames], and for a path with extension mp4 neither do
    [frame_color_mode], [height] and [width]. *)
Theorem get_frames_unused_parameters
    (vid_path frame_color_mode : string) (height width : nat) (frame_diff : bool) :
  (forall vid_pix_fmt vid_pix_fmt',
      get_frames vreader vid_path vid_pix_fmt frame_color_mode height width frame_diff
      = get_frames vreader vid_path vid_pix_fmt' frame_color_mode height width frame_diff) /\
  (last (Str.split "." vid_path) EmptyString = "mp4"%string ->
   forall vid_pix_fmt vid_pix_fmt' frame_color_mode' height' width',
      get_frames vreader vid_path vid_pix_fmt frame_color_mode height width frame_diff
      = get_frames vreader vid_path vid_pix_fmt' frame_color_mode' height' width'
          frame_diff).
Proof.
  split.
  - reflexivity.
  - intros Hext fmt fmt' mode' height' width'. unfold get_frames.
    rewrite Hext. reflexivity.
Qed.

(** X6.  The differences determine the video from its first frame: for
    [uint8] frames of one shape, adding item i of the result back to frame
    i, modulo 256, gives frame i+1. *)
Theorem get_frames_differences_restore_frames
    (vid_path vid_pix_fmt frame_color_mode : string) (height width npix : nat)
    (frames : list Frame) :
  get_frames vreader vid_path vid_pix_fmt frame_color_mode height width false
    = Ok (Generator frames) ->
  Forall (fun f => length f = npix) frames ->
  Forall uint8_frame frames ->
  exists items,
    get_frames vreader vid_path vid_pix_fmt frame_color_mode height width true
      = Ok (Array items) /\
    forall i, S i < length frames ->
      wrap_add (nth i items []) (nth i frames []) = nth (S i) frames [].
Proof.
  intros Hgen Hshape Hrange.
  rewrite (get_frames_diff_of_frames _ _ _ _ _ Hgen).
  destruct frames as [|first rest].
  - exists []. split; [reflexivity|]. intros i Hi. simpl in Hi. lia.
  - destruct (diff_loop Hshape) as [lf Hlf]. rewrite Hlf. cbn [bind snd].
    exists (diffs_from first rest). split; [reflexivity|].
    intros i Hi. simpl in Hi. rewrite diffs_from_nth by lia.
    change (nth (S i) (first :: rest) []) with (nth i rest []).
    rewrite Forall_forall in Hshape, Hrange.
    assert (Hin : In (nth i rest []) (first :: rest))
      by (right; apply nth_In; lia).
    assert (Hin' : In (nth i (first :: rest) []) (first :: rest))
      by (apply nth_In; simpl; lia).
    apply wrap_add_sub.
    + rewrite (Hshape _ Hin), (Hshape _ Hin'). reflexivity.
    + apply Hrange. exact Hin.
Qed.

(** X7.  In difference mode the result is an array of [len(frames) - 1]
    items when there are frames and an empty array when there are none;
    every item has the shape of the frames and samples in 0..255. *)
Theorem get_frames_differences_shape
    (vid_path vid_pix_fmt frame_color_mode : string) (height width npix : nat)
    (frames : list Frame) :
  get_frames vreader vid_path vid_pix_fmt frame_color_mode height width false
    = Ok (Generator frames) ->
  Forall (fun f => length f = npix) frames ->
  exists items,
    get_frames vreader vid_path vid_pix_fmt frame_color_mode height width true
      = Ok (Array items) /\
    length items = length frames - 1 /\
    (frames = [] -> items = []) /\
    Forall (fun d => uint8_frame d /\ length d = npix) items.
Proof.
  intros Hgen Hshape.
  rewrite (get_frames_diff_of_frames _ _ _ _ _ Hgen).
  destruct frames as [|first rest].
  - exists []. repeat split. constructor.
  - destruct (diff_loop Hshape) as [lf Hlf]. rewrite Hlf. cbn [bind snd].
    exists (diffs_from first rest). split; [reflexivity|].
    split; [rewrite diffs_from_length; simpl; lia|].
    split; [discriminate|].
    inversion Hshape as [|? ? Hfirst Hrest]; subst.
    apply diffs_from_shape; [reflexivity | exact Hrest].
Qed.

End FrameExtras.

(** ** DatasetHandler: the two metadata readers *)

Section DatasetProperties.
Import Regression DatasetHandler.

Lemma for_each_raises (A C : Type) (body : A -> Result C) :
  forall (l : list A) (x : A),
    In x l -> returns (body x) = false -> returns (for_each body l) = false.
Proof.
  induction l as [|y l IH]; intros x Hin Hx; [destruct Hin|].
  cbn [for_each]. destruct Hin as [-> | Hin].
  - destruct (body x); [discriminate | reflexivity].
  - destruct (body y); [|reflexivity]. cbn [bind].
    specialize (IH x Hin Hx). destruct (for_each body l); [discriminate|reflexivity].
Qed.

Lemma Forall2_nth_error_right (A C : Type) (P : A -> C -> Prop)
    (l : list A) (cs : list C) :
  Forall2 P l cs ->
  forall i c, nth_error cs i = Some c ->
              exists x, nth_error l i = Some x /\ P x c.
Proof.
  induction 1 as [|x c0 l cs Hxc _ IH]; intros i c Hc.
  - destruct i; discriminate.
  - destruct i as [|i]; simpl in *.
    + injection Hc as <-. exists x. split; [reflexivity | exact Hxc].
    + apply IH. exact Hc.
Qed.

Variable F : Type.
Variable py_float : string -> option F.

Lemma csiq_step_raise (e : PyError) :
  forall (l : list (nat * string)),
    fold_left (csiq_step py_float) l (Raise e) = Raise e.
Proof. induction l as [|x l IH]; simpl; [reflexivity | exact IH]. Qed.

(** The loop of [get_csiq_info] past the header, row by row. *)
Lemma csiq_loop :
  forall (rows : list string) (s : nat) (videos : list string) (dmos : list F),
    0 < s ->
    fold_left (csiq_step py_float) (combine (seq s (length rows)) rows)
              (Ok (videos, dmos))
    = (rs <- for_each (csiq_row py_float) rows ;;
       Ok (videos ++ map fst rs, dmos ++ map snd rs)).
Proof.
  induction rows as [|line rows IH]; intros s videos dmos Hs.
  - simpl. rewrite !app_nil_r. reflexivity.
  - cbn [length seq combine fold_left for_each].
    unfold csiq_step at 2, csiq_row at 1. cbn [bind].
    replace (s =? 0) with false by (symmetry; apply Nat.eqb_neq; lia).
    destruct (nth_error (split_whitespace line) 0) as [name|];
      [|rewrite csiq_step_raise; reflexivity].
    destruct (nth_error (split_whitespace line) 1) as [field|];
      [|rewrite csiq_step_raise; reflexivity].
    destruct (float py_float field) as [score|e];
      [|cbn [bind]; rewrite csiq_step_raise; reflexivity].
    cbn [bind]. rewrite IH by lia.
    destruct (for_each (csiq_row py_float) rows) as [rs|e]; [|reflexivity].
    cbn [bind map fst snd]. rewrite <- !app_assoc. reflexivity.
Qed.

Lemma get_csiq_info_rows (content : string) :
  get_csiq_info py_float content
  = match file_lines content with
    | [] => Ok ([], [])
    | _ :: rows =>
        rs <- for_each (csiq_row py_float) rows ;;
        Ok (map fst rs, map snd rs)
    end.
Proof.
  unfold get_csiq_info, VideoUtility.enumerate.
  destruct (file_lines content) as [|header rows]; [reflexivity|].
  cbn [length seq combine fold_left]. unfold csiq_step at 2. cbn [bind Nat.eqb].
  apply csiq_loop. lia.
Qed.

(** X9.  [get_csiq_info] skips the first line and reads every other one:
    when it returns, there is one name and one score per remaining line,
    and the i-th name and the i-th score are the first field and the number
    in the second field of line i+1. *)
Theorem get_csiq_info_rows_in_order
    (content : string) (videos : list string) (dmos : list F) :
  get_csiq_info py_float content = Ok (videos, dmos) ->
  length videos = length (file_lines content) - 1 /\
  length dmos = length videos /\
  forall i name, nth_error videos i = Some name ->
    exists line score,
      nth_error (file_lines content) (S i) = Some line /\
      csiq_row py_float line = Ok (name, score) /\
      nth_error dmos i = Some score.
Proof.
  rewrite get_csiq_info_rows.
  destruct (file_lines content) as [|header rows].
  - intros Hrun. injection Hrun as <- <-. repeat split.
    intros [|i] name Hname; discriminate.
  - destruct (for_each (csiq_row py_float) rows) as [rs|e] eqn:Hrs; [|discriminate].
    cbn [bind]. intros Hrun. injection Hrun as <- <-.
    pose proof (for_each_length _ _ Hrs) as Hlen.
    pose proof (@for_each_Forall _ _ (csiq_row py_float)
                  (fun line r => csiq_row py_float line = Ok r)
                  (fun line r Hr => Hr) rows rs Hrs) as Hall.
    split; [rewrite length_map; simpl; lia|].
    split; [rewrite !length_map; reflexivity|].
    intros i name Hname. rewrite nth_error_map in Hname.
    destruct (nth_error rs i) as [[name' score]|] eqn:Hi; [|discriminate].
    cbn in Hname. injection Hname as ->.
    destruct (Forall2_nth_error_right Hall i Hi) as [line [Hline Hrow]].
    exists line, score. split; [exact Hline|]. split; [exact Hrow|].
    rewrite nth_error_map, Hi. reflexivity.
Qed.

(** X10.  A line after the header with fewer than two whitespace-separated
    fields, a blank line at the end of the file included, makes
    [get_csiq_info] raise: it never returns on such a file. *)
Theorem get_csiq_info_short_line (content : string) (i : nat) (line : string) :
  0 < i ->
  nth_error (file_lines content) i = Some line ->
  length (split_whitespace line) < 2 ->
  returns (get_csiq_info py_float content) = false.
Proof.
  intros Hi Hline Hshort. rewrite get_csiq_info_rows.
  destruct (file_lines content) as [|header rows]; [destruct i; discriminate|].
  destruct i as [|i]; [lia|]. cbn [nth_error] in Hline.
  assert (Hrow : returns (csiq_row py_float line) = false).
  { unfold csiq_row.
    destruct (split_whitespace line) as [|a [|b fields]];
      [reflexivity | reflexivity | simpl in Hshort; lia]. }
  pose proof (for_each_raises (csiq_row py_float) rows line
                (nth_error_In _ _ Hline) Hrow) as Hraises.
  destruct (for_each (csiq_row py_float) rows); [discriminate | reflexivity].
Qed.

(** X11.  [get_live_info] reads one name per newline-separated piece of
    the video file and one score per piece of the score file, and never
    compares the two counts: when it returns, the names are the pieces of
    the video file, 1 + (number of newlines) of them, the scores number
    1 + (number of newlines of the score file), and a video file that ends
    with a newline yields a final empty name. *)
Theorem get_live_info_counts
    (vid_file dmos_file : string) (videos : list string) (dmos : list F) :
  get_live_info py_float vid_file dmos_file = Ok (videos, dmos) ->
  length videos = S (count_char "010" vid_file) /\
  length dmos = S (count_char "010" dmos_file) /\
  (forall stem, vid_file = (stem ++ String "010" EmptyString)%string ->
                last videos "?"%string = EmptyString).
Proof.
  unfold get_live_info. intros Hrun.
  destruct (for_each _ (Str.split "010" dmos_file)) as [ds|e] eqn:Hds;
    [|discriminate].
  cbn [bind] in Hrun. injection Hrun as <- <-.
  split; [apply split_length|].
  split; [rewrite (for_each_length _ _ Hds); apply split_length|].
  intros stem ->. rewrite split_app_sep. apply last_last.
Qed.

Lemma scores_with_empty_piece :
  py_float EmptyString = None ->
  forall (pieces : list string),
    for_each (fun score => float py_float (hd EmptyString (Str.split "009" score)))
             (pieces ++ [EmptyString])
    = Raise ValueError.
Proof.
  intros Hempty. induction pieces as [|piece pieces IH].
  - cbn. unfold float. rewrite Hempty. reflexivity.
  - cbn [app for_each]. unfold float at 1.
    destruct (py_float (hd EmptyString (Str.split "009" piece))); [|reflexivity].
    cbn [bind]. rewrite IH. reflexivity.
Qed.

(** X12.  A score file that ends with a newline makes [get_live_info]
    raise ValueError: the text after the last newline is empty, and
    [float('')] is an error. *)
Theorem get_live_info_trailing_newline (vid_file scores : string) :
  py_float EmptyString = None ->
  get_live_info py_float vid_file (scores ++ String "010" EmptyString)
  = Raise ValueError.
Proof.
  intros Hempty. unfold get_live_info.
  rewrite split_app_sep, (scores_with_empty_piece Hempty). reflexivity.
Qed.

End DatasetProperties.

(** ** Per-frame style features *)

Section StyleProperties.
Import Torch Style.

Variable R : Type.
Variable zero : R.
Variables add mul : R -> R -> R.

Lemma dict_get_set_same (V : Type) (d : list (string * V)) (key : string) (v : V) :
  dict_get (dict_set d key v) key = Some v.
Proof.
  induction d as [|[k v'] d IH]; simpl.
  - rewrite String.eqb_refl. reflexivity.
  - destruct (String.eqb k key) eqn:Hk; simpl; rewrite Hk; [reflexivity | exact IH].
Qed.

Lemma dict_get_set_other (V : Type) (d : list (string * V)) (key key' : string) (v : V) :
  key <> key' -> dict_get (dict_set d key v) key' = dict_get d key'.
Proof.
  intros Hne. induction d as [|[k v'] d IH]; simpl.
  - apply String.eqb_neq in Hne. rewrite Hne. reflexivity.
  - destruct (String.eqb k key) eqn:Hk; simpl.
    + apply String.eqb_eq in Hk. subst k.
      apply String.eqb_neq in Hne. rewrite Hne. reflexivity.
    + destruct (String.eqb k key'); [reflexivity | exact IH].
Qed.

Lemma feature_fold_throws (layers : list (string * string)) (e : Exception) :
  forall (l : list (string * Layer R)),
    fold_left (feature_step layers) l (Throws e) = Throws e.
Proof. induction l as [|m l IH]; simpl; [reflexivity | exact IH]. Qed.

Lemma forward_raise (e : PyError) :
  forall (l : list (string * Layer R)),
    fold_left (fun acc m => y <- acc ;; snd m y) l (Raise e) = Raise e.
Proof. induction l as [|m l IH]; simpl; [reflexivity | exact IH]. Qed.

Lemma forward_cons (m : string * Layer R) (l : list (string * Layer R)) (x : Tensor R) :
  forward (m :: l) x = (y <- snd m x ;; forward l y).
Proof.
  unfold forward, Layer in *. cbn [fold_left bind].
  destruct (snd m x) as [y|e]; [reflexivity | apply forward_raise].
Qed.

Lemma forward_app (l l' : list (string * Layer R)) (x : Tensor R) :
  forward (l ++ l') x = (y <- forward l x ;; forward l' y).
Proof.
  revert x. induction l as [|m l IH]; intros x.
  - reflexivity.
  - cbn [app]. rewrite !forward_cons.
    destruct (snd m x) as [y|e]; [apply IH | reflexivity].
Qed.

Lemma feature_step_returns (layers : list (string * string)) (x : Tensor R)
    (features : list (string * Tensor R)) (name : string) (layer : Layer R) :
  feature_step layers (Returns (x, features)) (name, layer)
  = match layer x with
    | Ok y =>
        Returns (y, match dict_get layers name with
                    | Some feature => dict_set features feature y
                    | None => features
                    end)
    | Raise e => Throws (Builtin e)
    end.
Proof.
  unfold feature_step. cbn [andthen].
  destruct (layer x) as [y|e]; cbn [lift andthen]; [|reflexivity].
  destruct (dict_get layers name); reflexivity.
Qed.

(** The loop of [get_frame_features] and the plain forward pass agree on
    the activation and on failure. *)
Lemma feature_fold_forward (layers : list (string * string)) :
  forall (l : list (string * Layer R)) (x : Tensor R)
         (features : list (string * Tensor R)),
    match forward l x with
    | Ok y => exists features',
        fold_left (feature_step layers) l (Returns (x, features))
        = Returns (y, features')
    | Raise e =>
        fold_left (feature_step layers) l (Returns (x, features))
        = Throws (Builtin e)
    end.
Proof.
  induction l as [|[name layer] l IH]; intros x features.
  - cbn. eexists. reflexivity.
  - rewrite forward_cons. cbn [fold_left snd]. rewrite feature_step_returns.
    destruct (layer x) as [y|e]; cbn [bind].
    + apply IH.
    + apply feature_fold_throws.
Qed.

Lemma feature_fold_keeps (layers : list (string * string)) (feature : string) :
  forall (l : list (string * Layer R)) (x y : Tensor R)
         (features features' : list (string * Tensor R)),
    (forall m, In m l -> dict_get layers (fst m) <> Some feature) ->
    fold_left (feature_step layers) l (Returns (x, features)) = Returns (y, features') ->
    dict_get features' feature = dict_get features feature.
Proof.
  induction l as [|[name layer] l IH]; intros x y features features' Hother Hrun.
  - cbn in Hrun. injection Hrun as _ <-. reflexivity.
  - cbn [fold_left] in Hrun. rewrite feature_step_returns in Hrun.
    destruct (layer x) as [x1|e];
      [|rewrite feature_fold_throws in Hrun; discriminate].
    assert (Hrest : forall m, In m l -> dict_get layers (fst m) <> Some feature)
      by (intros m Hm; apply Hother; right; exact Hm).
    pose proof (Hother (name, layer) (or_introl eq_refl)) as Hname. cbn [fst] in Hname.
    rewrite (IH _ _ _ _ Hrest Hrun).
    destruct (dict_get layers name) as [other|]; [|reflexivity].
    apply dict_get_set_other. intros ->. apply Hname. reflexivity.
Qed.

(** X13.  The activation [get_frame_features] records under a feature name
    is the output of the network up to and including the last module
    mapped to that name: if the model is [pre], then a module whose name
    [layers] maps to the feature, then modules none of which maps to it,
    the recorded tensor is the forward pass through [pre] and that module. *)
Theorem get_frame_features_records_forward_pass
    (image : Tensor R) (pre post : list (string * Layer R)) (name : string)
    (layer : Layer R) (layers : list (string * string)) (feature : string)
    (features : list (string * Tensor R)) :
  dict_get layers name = Some feature ->
  (forall m, In m post -> dict_get layers (fst m) <> Some feature) ->
  get_frame_features image (pre ++ (name, layer) :: post) (Some layers)
    = Returns features ->
  exists x,
    forward (pre ++ [(name, layer)]) image = Ok x /\
    dict_get features feature = Some x.
Proof.
  intros Hname Hpost Hrun. unfold get_frame_features in Hrun.
  rewrite fold_left_app in Hrun.
  pose proof (feature_fold_forward layers pre image []) as Hpre.
  rewrite forward_app.
  destruct (forward pre image) as [x1|e].
  - destruct Hpre as [fs1 Hpre]. rewrite Hpre in Hrun.
    cbn [fold_left] in Hrun. rewrite feature_step_returns in Hrun.
    cbn [bind]. rewrite forward_cons. cbn [snd].
    destruct (layer x1) as [x|e];
      [|rewrite feature_fold_throws in Hrun; discriminate].
    rewrite Hname in Hrun. cbn [bind]. exists x. split; [reflexivity|].
    destruct (fold_left (feature_step layers) post _) as [[y fs]|ex] eqn:Hfold;
      [|discriminate].
    cbn [andthen snd] in Hrun. injection Hrun as <-.
    rewrite (feature_fold_keeps _ _ _ _ Hpost Hfold).
    apply dict_get_set_same.
  - rewrite Hpre in Hrun. rewrite feature_fold_throws in Hrun. discriminate.
Qed.

(** X14.  [get_frame_features] always runs the whole network, also past
    the last requested layer: it returns exactly when the forward pass
    through all modules succeeds, and when a module raises, that exception
    is what the call raises. *)
Theorem get_frame_features_runs_whole_network
    (image : Tensor R) (model : list (string * Layer R))
    (layers : option (list (string * string))) :
  (forall e, forward model image = Raise e ->
             get_frame_features image model layers = Throws (Builtin e)) /\
  (forall y, forward model image = Ok y ->
             exists features,
               get_frame_features image model layers = Returns features).
Proof.
  unfold get_frame_features.
  set (chosen := match layers with None => default_layers | Some given => given end).
  pose proof (feature_fold_forward chosen model image []) as Hfold.
  split.
  - intros e He. rewrite He in Hfold. rewrite Hfold. reflexivity.
  - intros y Hy. rewrite Hy in Hfold. destruct Hfold as [fs Hfold].
    rewrite Hfold. eexists. reflexivity.
Qed.

Lemma default_layers_conv1_1 (name : string) :
  dict_get default_layers name = Some "conv1_1"%string -> name = "0"%string.
Proof.
  unfold default_layers. cbn [dict_get].
  destruct (String.eqb "0" name) eqn:H0.
  - intros _. apply String.eqb_eq in H0. symmetry. exact H0.
  - destruct (String.eqb "5" name); [discriminate|].
    destruct (String.eqb "21" name); discriminate.
Qed.

Variable Image : Type.
Variable transform : Image -> Result (Tensor R).

Lemma frame_descriptor_spec (model : list (string * Layer R)) (frame : Image)
    (descriptor : list R) :
  frame_descriptor zero add mul transform model frame = Returns descriptor ->
  style_descriptor zero add mul transform model frame descriptor.
Proof.
  unfold frame_descriptor, style_descriptor. intros Hrun.
  destruct (transform frame) as [t|e] eqn:Ht; [|discriminate].
  cbn [lift andthen] in Hrun.
  destruct (get_frame_features (unsqueeze0 t) model None) as [features|ex] eqn:Hfeat;
    [|discriminate].
  cbn [andthen] in Hrun. unfold style_layers in Hrun. cbn [fold_left] in Hrun.
  unfold gram_step in Hrun. cbn [andthen] in Hrun. unfold dict_item in Hrun.
  destruct (dict_get features "conv1_1") as [f1|] eqn:Hf1; [|discriminate].
  cbn [andthen] in Hrun.
  destruct (SFVQA.gram_matrix zero add mul f1) as [g1|e] eqn:Hg1; [|discriminate].
  cbn [lift andthen] in Hrun.
  destruct (dict_get features "conv2_1") as [f2|] eqn:Hf2; [|discriminate].
  cbn [andthen] in Hrun.
  destruct (SFVQA.gram_matrix zero add mul f2) as [g2|e] eqn:Hg2; [|discriminate].
  cbn [lift andthen app] in Hrun. injection Hrun as <-.
  exists t, features, f1, f2, g1, g2. repeat split; assumption.
Qed.

(** X15.  When [get_video_style_features] returns, it returns one
    descriptor per frame, in the order of the frames, and the descriptor of
    a frame is the Gram vector of its conv1_1 activation followed by the
    Gram vector of its conv2_1 activation. *)
Theorem get_video_style_features_descriptors
    (model : list (string * Layer R)) :
  forall (video : list Image) (video_features : list (list R)),
    get_video_style_features zero add mul transform video model
      = Returns video_features ->
    length video_features = length video /\
    Forall2 (style_descriptor zero add mul transform model) video video_features.
Proof.
  induction video as [|frame rest IH]; intros video_features Hrun.
  - cbn in Hrun. injection Hrun as <-. split; [reflexivity | constructor].
  - cbn [get_video_style_features] in Hrun.
    destruct (frame_descriptor zero add mul transform model frame)
      as [descriptor|ex] eqn:Hframe; [|discriminate].
    cbn [andthen] in Hrun.
    destruct (get_video_style_features zero add mul transform rest model)
      as [others|ex]; [|discriminate].
    cbn [andthen] in Hrun. injection Hrun as <-.
    destruct (IH others eq_refl) as [Hlen Hall]. split.
    + simpl. rewrite Hlen. reflexivity.
    + constructor; [apply frame_descriptor_spec; exact Hframe | exact Hall].
Qed.

(** X16.  The style layers are looked up by fixed names: on a model with
    no module named '0', nothing is recorded as conv1_1, and for a video
    whose first frame passes preprocessing and the network,
    [get_video_style_features] raises KeyError for 'conv1_1'. *)
Theorem get_video_style_features_missing_layer
    (model : list (string * Layer R)) (frame : Image) (rest : list Image)
    (t y : Tensor R) :
  (forall m, In m model -> fst m <> "0"%string) ->
  transform frame = Ok t ->
  forward model (unsqueeze0 t) = Ok y ->
  get_video_style_features zero add mul transform (frame :: rest) model
    = Throws (KeyError "conv1_1").
Proof.
  intros Hnames Ht Hforward. cbn [get_video_style_features].
  unfold frame_descriptor. rewrite Ht. cbn [lift andthen].
  unfold get_frame_features.
  pose proof (feature_fold_forward default_layers model (unsqueeze0 t) []) as Hfold.
  rewrite Hforward in Hfold. destruct Hfold as [features Hfold].
  rewrite Hfold. cbn [andthen snd].
  assert (Hnone : dict_get features "conv1_1" = None).
  { rewrite (@feature_fold_keeps default_layers "conv1_1" model
               (unsqueeze0 t) y [] features);
      [reflexivity | | exact Hfold].
    intros m Hm Hget. apply (Hnames m Hm).
    apply default_layers_conv1_1. exact Hget. }
  unfold style_layers. cbn [fold_left]. unfold gram_step at 2. cbn [andthen].
  unfold dict_item. rewrite Hnone. cbn [andthen].
  unfold gram_step. cbn [andthen]. reflexivity.
Qed.

End StyleProperties.

(** ** videoset_frame_feats *)

Section RunProperties.
Import VideoUtility Style Run.

Variable R : Type.
Variable zero : R.
Variables add mul : R -> R -> R.
Variable vreader : string -> nat -> nat -> bool -> option string -> list Frame.
Variable transform : Frame -> Result (Torch.Tensor R).
Variable path_join : string -> string -> string.

(** X17.  For the LIVE dataset, in any capitalisation of its name,
    [videoset_frame_feats] never takes frame differences: the branch for
    'live' calls [get_frames] without [frame_diff], so the features are the
    same with [frame_diff=True] as with [frame_diff=False]. *)
Theorem videoset_frame_feats_live_ignores_frame_diff
    (model : list (string * Layer R)) (video_list : list string)
    (video_path dataset : string) :
  Str.lower dataset = "live"%string ->
  videoset_frame_feats zero add mul vreader transform path_join
    model video_list video_path dataset true
  = videoset_frame_feats zero add mul vreader transform path_join
      model video_list video_path dataset false.
Proof.
  intros Hlive. unfold videoset_frame_feats. rewrite Hlive.
  induction video_list as [|seq rest IH]; cbn [videoset_loop].
  - reflexivity.
  - rewrite IH. unfold video_features. cbn [String.eqb Ascii.eqb Bool.eqb].
    reflexivity.
Qed.

(** X18.  A video that decodes to no frames is not an error here: whatever
    the dataset and with or without [frame_diff], the loop body of
    [videoset_frame_feats] yields an empty feature list for it. *)
Theorem video_without_frames_gives_no_features
    (model : list (string * Layer R)) (video_path dataset seq : string)
    (frame_diff : bool) :
  (forall height width as_grey pix_fmt,
      vreader (path_join video_path seq) height width as_grey pix_fmt = []) ->
  video_features zero add mul vreader transform path_join
    model video_path dataset frame_diff seq
  = Returns [].
Proof.
  intros Hempty. unfold video_features, get_frames.
  cbn [String.eqb Ascii.eqb Bool.eqb]. rewrite !Hempty.
  destruct (String.eqb dataset "live");
    destruct (String.eqb (last (Str.split "." (path_join video_path seq))
                               EmptyString) "mp4");
    destruct frame_diff; reflexivity.
Qed.

End RunProperties.

(** ** The evaluation functions: inputs they refuse, results they return *)

Section EvaluationEdges.
Import Sklearn Regression.

Variable B : Backend.
Variable G : Generator.

Lemma live_folds_count (st : RandomState G) (video_list : list string)
    (garbage : nat -> nat) (X : list (list (num B))) (y : list (num B))
    (regression_method : string) (folds : list (FoldLocals B)) (st' : RandomState G) :
  live_folds B G st video_list garbage X y regression_method = Ok (folds, st') ->
  length folds = 50.
Proof.
  intros Hrun.
  destruct (@live_folds_inv _ _ _ _ _ _ _ _ _ _ Hrun)
    as [groups [video_groups [n_train [n_test [_ [_ [_ Hloop]]]]]]].
  rewrite (for_each_st_length _ _ _ Hloop). reflexivity.
Qed.

Lemma returned_lengths (folds : list (FoldLocals B)) :
  length (fst (fst (returned folds))) = length folds /\
  length (snd (fst (returned folds))) = length folds /\
  length (snd (returned folds)) = length folds.
Proof. unfold returned. cbn [fst snd]. rewrite !length_map. repeat split. Qed.

(** X27.  A run that returns has evaluated 50 folds: each of the three
    sequences returned by [live_dataset_regression] and by
    [konvid1k_dataset_regression] has 50 entries, whatever the generator
    drew. *)
Theorem evaluation_returns_fifty_results :
  (forall st video_list garbage X y regression_method coefs ps plcc st',
      live_dataset_regression B G st video_list garbage X y regression_method
        = Ok (coefs, ps, plcc, st') ->
      length coefs = 50 /\ length ps = 50 /\ length plcc = 50) /\
  (forall st X y regression_method coefs ps plcc st',
      konvid1k_dataset_regression B G st X y regression_method
        = Ok (coefs, ps, plcc, st') ->
      length coefs = 50 /\ length ps = 50 /\ length plcc = 50).
Proof.
  split.
  - intros st video_list garbage X y m coefs ps plcc st' Hrun.
    unfold live_dataset_regression in Hrun.
    destruct (live_folds B G st video_list garbage X y m) as [[folds st1]|e] eqn:Hfolds;
      [|discriminate].
    cbn [bind fst snd] in Hrun.
    pose proof (live_folds_count _ _ _ _ _ _ Hfolds) as Hcount.
    destruct (returned_lengths folds) as [H1 [H2 H3]].
    destruct (returned folds) as [[c q] r]. injection Hrun as <- <- <- _.
    cbn [fst snd] in *. repeat split; congruence.
  - intros st X y m coefs ps plcc st' Hrun.
    unfold konvid1k_dataset_regression in Hrun.
    destruct (konvid1k_folds B G st X y m) as [[folds st1]|e] eqn:Hfolds;
      [|discriminate].
    cbn [bind fst snd] in Hrun.
    pose proof (konvid1k_folds_count _ _ _ _ _ Hfolds) as Hcount.
    destruct (returned_lengths folds) as [H1 [H2 H3]].
    destruct (returned folds) as [[c q] r]. injection Hrun as <- <- <- _.
    cbn [fst snd] in *. repeat split; congruence.
Qed.

Lemma per_fold_unknown_method (regression_method : string)
    (X y : list (list (num B))) (split : list nat * list nat) (st : RandomState G) :
  regression_method <> "svr"%string ->
  regression_method <> "nn"%string ->
  returns (per_fold B G regression_method X y split st) = false.
Proof.
  intros Hsvr Hnn.
  destruct (per_fold B G regression_method X y split st) as [[f st']|e] eqn:Hf;
    [|reflexivity].
  destruct (@per_fold_inv _ _ _ _ _ _ _ _ _ Hf)
    as [X_tr [y_tr [_ [_ [_ [_ [_ [_ [_ Hreg]]]]]]]]].
  unfold fit_regressor in Hreg.
  apply String.eqb_neq in Hsvr, Hnn. rewrite Hsvr, Hnn in Hreg. discriminate Hreg.
Qed.

Lemma live_folds_unknown_method (st : RandomState G) (video_list : list string)
    (garbage : nat -> nat) (X : list (list (num B))) (y : list (num B))
    (regression_method : string) :
  regression_method <> "svr"%string ->
  regression_method <> "nn"%string ->
  returns (live_folds B G st video_list garbage X y regression_method) = false.
Proof.
  intros Hsvr Hnn. unfold live_folds.
  destruct (build_groups video_list garbage) as [gv|e]; [|reflexivity].
  cbn [bind]. destruct (indexable _) as [u|e]; [|reflexivity]. cbn [bind].
  destruct (unique (fst gv)) as [classes group_indices].
  destruct (validate_shuffle_split (length classes) (4, 5)) as [[n_train n_test]|e];
    [|reflexivity].
  cbn [bind]. apply for_each_st_never; [discriminate|].
  intros i st0. unfold live_iteration.
  destruct (permutation G st0 (length classes)) as [perm st1].
  apply per_fold_unknown_method; assumption.
Qed.

Lemma konvid1k_folds_unknown_method (st : RandomState G)
    (X : list (list (num B))) (y : list (num B)) (regression_method : string) :
  Str.lower regression_method <> "svr"%string ->
  Str.lower regression_method <> "nn"%string ->
  returns (konvid1k_folds B G st X y regression_method) = false.
Proof.
  intros Hsvr Hnn. unfold konvid1k_folds.
  assert (Hloop : returns (for_each_st
                             (konvid1k_repetition B G (Str.lower regression_method) X
                                (reshape_column y)) (seq 0 10) st) = false).
  { apply for_each_st_never; [discriminate|].
    intros i st0. unfold konvid1k_repetition.
    destruct (kfold_split G 5 st0 (length X)) as [[splits st1]|e] eqn:Hsplit;
      [|reflexivity].
    cbn [bind fst snd]. apply for_each_st_never.
    - pose proof (kfold_split_count _ _ _ Hsplit) as Hcount.
      intros ->. discriminate Hcount.
    - intros split st2. apply per_fold_unknown_method; assumption. }
  destruct (for_each_st _ (seq 0 10) st); [discriminate | reflexivity].
Qed.

(** X22.  A method name that is neither 'svr' nor 'nn' is never reported
    as such, but no run survives it: with such a name
    [live_dataset_regression] never returns, and neither does
    [konvid1k_dataset_regression] when the lower-cased name is neither. *)
Theorem unknown_method_never_returns :
  (forall st video_list garbage X y regression_method,
      regression_method <> "svr"%string ->
      regression_method <> "nn"%string ->
      returns (live_dataset_regression B G st video_list garbage X y
                 regression_method) = false) /\
  (forall st X y regression_method,
      Str.lower regression_method <> "svr"%string ->
      Str.lower regression_method <> "nn"%string ->
      returns (konvid1k_dataset_regression B G st X y regression_method) = false).
Proof.
  split.
  - intros st video_list garbage X y m Hsvr Hnn. unfold live_dataset_regression.
    pose proof (live_folds_unknown_method st video_list garbage X y Hsvr Hnn) as H.
    destruct (live_folds B G st video_list garbage X y m); [discriminate | reflexivity].
  - intros st X y m Hsvr Hnn. unfold konvid1k_dataset_regression.
    pose proof (konvid1k_folds_unknown_method st X y m Hsvr Hnn) as H.
    destruct (konvid1k_folds B G st X y m); [discriminate | reflexivity].
Qed.

Lemma lower_char_idempotent (c : ascii) :
  Str.lower_char (Str.lower_char c) = Str.lower_char c.
Proof.
  destruct c as [[] [] [] [] [] [] [] []]; reflexivity.
Qed.

Lemma lower_idempotent (s : string) : Str.lower (Str.lower s) = Str.lower s.
Proof.
  induction s as [|c s IH]; simpl.
  - reflexivity.
  - rewrite lower_char_idempotent, IH. reflexivity.
Qed.

(** X23.  The two evaluation functions treat the capitalisation of the
    method name differently: [konvid1k_dataset_regression] lower-cases it,
    so a name and its lower-cased form give the same run, while
    [live_dataset_regression] compares it as given, so a name that is not
    already lower-case ('SVR', 'NN', 'Svr', ...) never returns. *)
Theorem method_name_capitalisation :
  (forall st X y regression_method,
      konvid1k_dataset_regression B G st X y regression_method
      = konvid1k_dataset_regression B G st X y (Str.lower regression_method)) /\
  (forall st video_list garbage X y regression_method,
      Str.lower regression_method <> regression_method ->
      returns (live_dataset_regression B G st video_list garbage X y
                 regression_method) = false).
Proof.
  split.
  - intros st X y m. unfold konvid1k_dataset_regression, konvid1k_folds.
    rewrite lower_idempotent. reflexivity.
  - intros st video_list garbage X y m Hcase. unfold live_dataset_regression.
    assert (Hsvr : m <> "svr"%string) by (intros ->; apply Hcase; reflexivity).
    assert (Hnn : m <> "nn"%string) by (intros ->; apply Hcase; reflexivity).
    pose proof (live_folds_unknown_method st video_list garbage X y Hsvr Hnn) as H.
    destruct (live_folds B G st video_list garbage X y m); [discriminate | reflexivity].
Qed.

Lemma indexable_mismatch (a b c : nat) :
  a <> c \/ b <> c -> indexable [a; b; c] = Raise ValueError.
Proof.
  intros Hne. unfold indexable. cbn [forallb].
  destruct (Nat.eqb_spec a b) as [Hab|Hab]; [|reflexivity].
  destruct (Nat.eqb_spec a c) as [Hac|Hac]; [|reflexivity].
  exfalso. destruct Hne as [H|H]; apply H; congruence.
Qed.

(** X20.  [live_dataset_regression] works on exactly 150 videos: with a
    video list long enough for the group loop, a feature matrix or a score
    list of any other length makes it raise ValueError, before any split is
    drawn. *)
Theorem live_needs_150_videos (st : RandomState G) (video_list : list string)
    (garbage : nat -> nat) (X : list (list (num B))) (y : list (num B))
    (regression_method : string) :
  135 < length video_list ->
  length X <> 150 \/ length y <> 150 ->
  live_dataset_regression B G st video_list garbage X y regression_method
    = Raise ValueError.
Proof.
  intros Hlist Hsize.
  destruct (@build_groups_spec video_list garbage Hlist)
    as [groups [video_groups [Hbuild [Hlen _]]]].
  unfold live_dataset_regression, live_folds.
  rewrite Hbuild. cbn [bind fst].
  unfold reshape_column at 1. rewrite length_map, Hlen.
  rewrite (indexable_mismatch Hsize). reflexivity.
Qed.

Lemma group_step_raise (video_list : list string) (e : PyError) :
  forall (indices : list nat),
    fold_left (group_step video_list) indices (Raise e) = Raise e.
Proof. induction indices as [|i l IH]; simpl; [reflexivity | exact IH]. Qed.

Lemma group_loop_short (video_list : list string) :
  forall (indices : list nat) (groups : list nat) (video_groups : list string),
    (exists i, In i indices /\ length video_list <= i) ->
    fold_left (group_step video_list) indices (Ok (groups, video_groups))
    = Raise IndexError.
Proof.
  induction indices as [|i0 rest IH]; intros groups video_groups [i [Hin Hi]].
  - destruct Hin.
  - cbn [fold_left]. unfold group_step at 2. cbn [bind].
    destruct (nth_error video_list i0) as [name|] eqn:Hname.
    + apply IH. exists i. split; [|exact Hi].
      destruct Hin as [<- | Hin]; [|exact Hin].
      exfalso. apply nth_error_None in Hi. congruence.
    + apply group_step_raise.
Qed.

(** X21.  The group loop reads the names at indices 0, 15, ..., 135 of the
    video list: with a list of 135 names or fewer,
    [live_dataset_regression] raises IndexError, whatever X and y are. *)
Theorem live_short_video_list (st : RandomState G) (video_list : list string)
    (garbage : nat -> nat) (X : list (list (num B))) (y : list (num B))
    (regression_method : string) :
  length video_list <= 135 ->
  live_dataset_regression B G st video_list garbage X y regression_method
    = Raise IndexError.
Proof.
  intros Hshort.
  unfold live_dataset_regression, live_folds, build_groups.
  rewrite group_loop_short; [reflexivity|].
  exists 135. split; [|exact Hshort].
  change (range 0 150 15) with [0; 15; 30; 45; 60; 75; 90; 105; 120; 135].
  repeat (try (left; reflexivity); right).
Qed.

(** X25.  With fewer than five videos [konvid1k_dataset_regression]
    raises ValueError at the first split. *)
Theorem konvid1k_too_few_videos (st : RandomState G)
    (X : list (list (num B))) (y : list (num B)) (regression_method : string) :
  length X < 5 ->
  konvid1k_dataset_regression B G st X y regression_method = Raise ValueError.
Proof.
  intros Hfew.
  unfold konvid1k_dataset_regression, konvid1k_folds.
  cbn [seq for_each_st]. unfold konvid1k_repetition at 1. unfold kfold_split.
  replace (length X <? 5) with true by (symmetry; apply Nat.ltb_lt; exact Hfew).
  reflexivity.
Qed.

End EvaluationEdges.

(** ** Sizes of the splits *)

Section SplitSizes.
Import Sklearn Regression.

Lemma filter_constant (A : Type) (b : bool) (l : list A) :
  filter (fun _ => b) l = if b then l else [].
Proof.
  induction l as [|x l IH]; simpl.
  - destruct b; reflexivity.
  - rewrite IH. destruct b; reflexivity.
Qed.

(** Indices come in blocks of fifteen per group id. *)
Lemma block_count (chosen : list nat) :
  forall n,
    length (filter (fun i => mem (i / 15) chosen) (seq 0 (15 * n)))
    = 15 * length (filter (fun g => mem g chosen) (seq 0 n)).
Proof.
  induction n as [|n IH].
  - reflexivity.
  - replace (15 * S n) with (15 * n + 15) by lia.
    rewrite seq_app, filter_app, length_app, IH.
    rewrite (seq_S n 0), (filter_app _ (seq 0 n)), length_app. cbn [plus].
    rewrite (filter_ext_in (fun i => mem (i / 15) chosen) (fun _ => mem n chosen)).
    + rewrite filter_constant. cbn [filter].
      destruct (mem n chosen); rewrite ?length_seq; cbn [length]; lia.
    + intros i Hi. apply in_seq in Hi. f_equal.
      symmetry. apply Nat.div_unique with (r := i - 15 * n); lia.
Qed.

Lemma NoDup_firstn_skipn (A : Type) (n : nat) (l : list A) :
  NoDup l -> NoDup (firstn n l) /\ NoDup (skipn n l).
Proof.
  intros Hnd. rewrite <- (firstn_skipn n l) in Hnd. split.
  - apply NoDup_app_remove_r in Hnd. exact Hnd.
  - apply NoDup_app_remove_l in Hnd. exact Hnd.
Qed.

Lemma In_skipn (A : Type) (n : nat) (l : list A) (x : A) :
  In x (skipn n l) -> In x l.
Proof.
  intros Hx. rewrite <- (firstn_skipn n l). apply in_or_app. right. exact Hx.
Qed.

Section GroupSizes.
Variable groups : list nat.
Hypothesis groups_length : length groups = 150.
Hypothesis groups_nth : forall i, i < 150 -> nth i groups 0 = i / 15.

Lemma where_isin_size (chosen : list nat) :
  NoDup chosen ->
  (forall g, In g chosen -> g < 10) ->
  length (where_isin groups chosen) = 15 * length chosen.
Proof.
  intros Hnd Hbound. unfold where_isin. rewrite groups_length.
  rewrite (filter_ext_in (fun i => mem (nth i groups 0) chosen)
                         (fun i => mem (i / 15) chosen)).
  - change 150 with (15 * 10). rewrite block_count.
    rewrite (Permutation_length (mask_permutation Hnd Hbound)). reflexivity.
  - intros i Hi. apply in_seq in Hi. rewrite groups_nth by lia. reflexivity.
Qed.

Lemma drawn_four_to_one (part split : list nat * list nat) :
  drawn_from 10 8 2 part ->
  split = (where_isin groups (fst part), where_isin groups (snd part)) ->
  four_to_one split.
Proof.
  intros [perm [Hperm [Htrain Htest]]] ->.
  assert (Hlen : length perm = 10)
    by (rewrite <- (Permutation_length Hperm); apply length_seq).
  assert (Hnd : NoDup perm)
    by (apply (Permutation_NoDup Hperm); apply seq_NoDup).
  assert (Hbound : forall g, In g perm -> g < 10).
  { intros g Hg. apply (Permutation_in _ (Permutation_sym Hperm)) in Hg.
    apply in_seq in Hg. lia. }
  destruct (NoDup_firstn_skipn 2 Hnd) as [Hnd_test Hnd_rest].
  assert (Hall : firstn 8 (skipn 2 perm) = skipn 2 perm)
    by (apply firstn_all2; rewrite length_skipn; lia).
  unfold four_to_one. cbn [fst snd]. rewrite Htrain, Htest, Hall.
  split; [|split].
  - rewrite where_isin_size.
    + rewrite length_skipn. lia.
    + exact Hnd_rest.
    + intros g Hg. apply Hbound. exact (In_skipn _ _ _ Hg).
  - rewrite where_isin_size.
    + rewrite length_firstn. lia.
    + exact Hnd_test.
    + intros g Hg. apply Hbound. exact (In_firstn _ _ _ Hg).
  - intros i Hi.
    assert (Hg : In (i / 15) perm).
    { apply (Permutation_in _ Hperm). apply in_seq.
      pose proof (Nat.Div0.div_lt_upper_bound i 15 10). lia. }
    rewrite <- (firstn_skipn 2 perm) in Hg. apply in_app_or in Hg.
    destruct Hg as [Hg | Hg]; [right | left];
      apply (where_isin_groups groups groups_length groups_nth); split; assumption.
Qed.

End GroupSizes.

Lemma slices_lengths :
  forall (fold_sizes indices : list nat),
    list_sum fold_sizes <= length indices ->
    map (@length nat) (slices indices fold_sizes) = fold_sizes.
Proof.
  induction fold_sizes as [|size rest IH]; intros indices Hsum.
  - reflexivity.
  - cbn [slices map]. simpl in Hsum. f_equal.
    + rewrite length_firstn. lia.
    + apply IH. rewrite length_skipn. lia.
Qed.

Variable G : Generator.
Hypothesis G_lawful : lawful G.

(** X19.  Every split of the 150 LIVE videos has 120 training and 30 test
    indices (eight and two whole groups of fifteen), and leaves no video
    out: each index is on one of the two sides. *)
Theorem live_split_sizes
    (st : RandomState G) (video_list : list string) (garbage : nat -> nat) :
  135 < length video_list ->
  exists splits st',
    live_splits G st video_list garbage 150 150 = Ok (splits, st') /\
    Forall four_to_one splits.
Proof.
  intros Hlen.
  destruct (@build_groups_spec video_list garbage Hlen)
    as [groups [video_groups [Hbuild [Hsize [Hnth Huniq]]]]].
  unfold live_splits. rewrite Hbuild. cbn [bind fst].
  unfold group_shuffle_split. rewrite Hsize, Huniq.
  change (indexable [150; 150; 150]) with (Ok tt). cbn [bind].
  change (validate_shuffle_split (length (seq 0 10)) (4, 5)) with (Ok (8, 2)).
  cbn [bind]. change (length (seq 0 10)) with 10.
  destruct (shuffle_split_iter_spec G_lawful 10 8 2 50 st) as [_ Hdrawn].
  destruct (shuffle_split_iter G 50 10 8 2 st) as [parts st'].
  cbn [fst] in Hdrawn.
  eexists _, _. split; [reflexivity|].
  apply Forall_map. eapply Forall_impl; [|exact Hdrawn].
  intros part Hpart.
  apply (@drawn_four_to_one groups Hsize Hnth part _ Hpart eq_refl).
Qed.

Lemma kfold_split_balanced (st : RandomState G) (n : nat) :
  5 <= n ->
  exists folds st',
    kfold_split G 5 st n = Ok (folds, st') /\ balanced_folds n folds.
Proof.
  intros Hn. unfold kfold_split.
  replace (n <? 5) with false by (symmetry; apply Nat.ltb_ge; exact Hn).
  unfold kfold_test_indices.
  pose proof (G_lawful st (seq 0 n)) as Hperm.
  destruct (shuffle G st (seq 0 n)) as [indices st']. cbn [fst] in Hperm.
  set (size_of := fun i => n / 5 + (if i <? n mod 5 then 1 else 0)).
  set (fold_sizes := map size_of (seq 0 5)).
  set (tests := slices indices fold_sizes).
  set (masks := fun test_index : list nat =>
                  (filter (fun i => negb (mem i test_index)) (seq 0 n),
                   filter (fun i => mem i test_index) (seq 0 n))).
  assert (Hlen : length indices = n)
    by (rewrite <- (Permutation_length Hperm); apply length_seq).
  assert (Hsum : list_sum fold_sizes = n) by apply fold_sizes_sum.
  assert (Hconcat : concat tests = indices)
    by (apply slices_concat; congruence).
  assert (Hnd : NoDup indices)
    by (apply (Permutation_NoDup Hperm), seq_NoDup).
  assert (Hparts : Forall (@NoDup nat) tests)
    by (apply concat_NoDup_parts; rewrite Hconcat; exact Hnd).
  assert (Hbound : forall t x, In t tests -> In x t -> x < n).
  { intros t x Ht Hx.
    assert (Hin : In x indices)
      by (rewrite <- Hconcat; apply in_concat; exists t; split; assumption).
    apply (Permutation_in _ (Permutation_sym Hperm)) in Hin.
    apply in_seq in Hin. lia. }
  assert (Hsizes : map (@length nat) tests = fold_sizes)
    by (apply slices_lengths; lia).
  assert (Hcount : length tests = 5)
    by (unfold tests; rewrite slices_length; reflexivity).
  exists (map masks tests), st'. split; [reflexivity|]. split.
  - intros k Hk.
    rewrite nth_indep with (d' := masks []) by (rewrite length_map; lia).
    rewrite map_nth. unfold masks at 1. cbn [snd].
    assert (Hin : In (nth k tests []) tests) by (apply nth_In; lia).
    rewrite Forall_forall in Hparts.
    rewrite (Permutation_length
               (mask_permutation (Hparts _ Hin) (fun x Hx => Hbound _ x Hin Hx))).
    change (length (nth k tests [])) with (length (nth k tests [])).
    rewrite <- (map_nth (@length nat) tests [] k). rewrite Hsizes.
    unfold fold_sizes.
    rewrite nth_indep with (d' := size_of 0) by (rewrite length_map, length_seq; lia).
    rewrite map_nth, seq_nth by lia. reflexivity.
  - apply Forall_map, Forall_forall. intros t _. unfold masks. cbn [fst snd].
    rewrite Nat.add_comm.
    rewrite (filter_length (fun i => mem i t) (seq 0 n)). apply length_seq.
Qed.

Lemma repeated_kfold_all (P : list (list nat * list nat) -> Prop) (n : nat) :
  (forall st, exists folds st', kfold_split G 5 st n = Ok (folds, st') /\ P folds) ->
  forall (repeats : nat) (st : RandomState G),
    exists reps st',
      repeated_kfold G repeats st n = Ok (reps, st') /\ Forall P reps.
Proof.
  intros Hsplit. induction repeats as [|k IH]; intros st; cbn [repeated_kfold].
  - eexists _, _. split; [reflexivity | constructor].
  - destruct (Hsplit st) as [folds [st1 [Hrun Hfolds]]].
    rewrite Hrun. cbn [bind fst snd].
    destruct (IH st1) as [reps [st2 [Hrest Hall]]].
    rewrite Hrest. cbn [bind fst snd].
    eexists _, _. split; [reflexivity|]. constructor; assumption.
Qed.

(** X24.  The five folds of every repetition are as even as they can be:
    with n >= 5 videos, test fold k has n // 5 + 1 indices when k < n % 5
    and n // 5 otherwise, and train and test of a fold hold n indices
    together. *)
Theorem konvid1k_folds_balanced (st : RandomState G) (n : nat) :
  5 <= n ->
  exists reps st',
    konvid1k_splits G st n = Ok (reps, st') /\
    Forall (balanced_folds n) reps.
Proof.
  intros Hn. unfold konvid1k_splits.
  apply repeated_kfold_all. intros st0. apply kfold_split_balanced. exact Hn.
Qed.

End SplitSizes.

(** ** The splits the evaluation loops run on *)

Section FoldSplits.
Import Sklearn Regression.

Variable B : Backend.
Variable G : Generator.
Hypothesis G_lawful : lawful G.



Lemma kfold_split_returned (st : RandomState G) (n : nat)
    (splits : list (list nat * list nat)) (st' : RandomState G) :
  kfold_split G 5 st n = Ok (splits, st') ->
  5 <= n /\ kfold_partition n splits /\ balanced_folds n splits.
Proof.
  intros Hsplit.
  assert (Hn : 5 <= n).
  { unfold kfold_split in Hsplit.
    destruct (Nat.ltb_spec n 5) as [Hlt|Hge]; [discriminate | exact Hge]. }
  destruct (kfold_split_spec G_lawful st Hn) as [folds [st1 [Hrun Hpart]]].
  destruct (kfold_split_balanced G_lawful st Hn) as [folds' [st2 [Hrun' Hbal]]].
  rewrite Hsplit in Hrun, Hrun'. injection Hrun as <- <-. injection Hrun' as <- _.
  split; [exact Hn | split; [exact Hpart | exact Hbal]].
Qed.


(** X29.  The folds a LIVE run evaluates are drawn between the draws of
    the regressor, and still every one of its 50 folds is on whole groups:
    eight groups on the train side and two on the test side, no group on
    both, 120 and 30 videos that leave none out. *)
Theorem live_folds_on_whole_groups (st : RandomState G) (video_list : list string)
    (garbage : nat -> nat) (X : list (list (num B))) (y : list (num B))
    (regression_method : string) (folds : list (FoldLocals B)) (st' : RandomState G) :
  live_folds B G st video_list garbage X y regression_method = Ok (folds, st') ->
  exists groups video_groups,
    build_groups video_list garbage = Ok (groups, video_groups) /\
    length folds = 50 /\
    Forall (fun f => whole_groups (sides f) /\
                     groups_apart groups (sides f) /\
                     four_to_one (sides f)) folds.
Proof.
  intros Hrun.
  destruct (live_folds_inv _ _ _ _ _ _ _ Hrun)
    as [groups [video_groups [n_train [n_test [Hbuild [_ [Hsizes Hloop]]]]]]].
  assert (Hlen : 135 < length video_list).
  { destruct (le_lt_dec (length video_list) 135) as [Hshort|Hlong]; [|exact Hlong].
    unfold build_groups in Hbuild. rewrite group_loop_short in Hbuild; [discriminate|].
    exists 135. split; [|exact Hshort].
    change (range 0 150 15) with [0; 15; 30; 45; 60; 75; 90; 105; 120; 135].
    repeat (try (left; reflexivity); right). }
  destruct (@build_groups_spec video_list garbage Hlen)
    as [groups' [video_groups' [Hbuild' [Hsize [Hnth Huniq]]]]].
  rewrite Hbuild in Hbuild'. injection Hbuild' as <- <-.
  rewrite Huniq in Hsizes, Hloop. cbn [fst snd] in Hsizes, Hloop.
  change (validate_shuffle_split (length (seq 0 10)) (4, 5)) with (Ok (8, 2)) in Hsizes.
  injection Hsizes as <- <-. change (length (seq 0 10)) with 10 in Hloop.
  exists groups, video_groups. split; [exact Hbuild|].
  split; [rewrite (for_each_st_length _ _ _ Hloop); reflexivity|].
  apply (@for_each_st_Forall _ _ _ _
           (fun f => whole_groups (sides f) /\ groups_apart groups (sides f) /\
                     four_to_one (sides f))) in Hloop; [exact Hloop|].
  intros i st0 f st1 Hf.
  destruct (live_iteration_inv _ _ _ _ _ _ _ _ _ _ Hf) as [part [Hpart Hfold]].
  destruct (per_fold_inv _ _ _ _ _ _ Hfold) as [_ [_ [_ [_ [Hsides _]]]]].
  assert (Hdrawn : drawn_from 10 8 2 part).
  { exists (fst (permutation G st0 10)). rewrite Hpart. cbn [fst snd].
    split; [apply permutation_spec, G_lawful | split; reflexivity]. }
  destruct (@drawn_whole_groups groups Hsize Hnth part _ Hdrawn Hsides) as [Hwhole Hapart].
  split; [exact Hwhole|]. split; [exact Hapart|].
  exact (@drawn_four_to_one groups Hsize Hnth part _ Hdrawn Hsides).
Qed.

(** X30.  The folds a k-fold run evaluates come in ten repetitions of
    five, each repetition shuffled after the draws of the five bodies before
    it, and every repetition is a partition: its test sides hold every video
    exactly once, train and test of a fold are disjoint, and the folds are
    as even as they can be. *)
Theorem konvid1k_folds_are_partitions (st : RandomState G) (X : list (list (num B)))
    (y : list (num B)) (regression_method : string)
    (folds : list (FoldLocals B)) (st' : RandomState G) :
  konvid1k_folds B G st X y regression_method = Ok (folds, st') ->
  exists reps,
    map (@sides B) folds = concat reps /\
    length reps = 10 /\
    Forall (kfold_partition (length X)) reps /\
    Forall (balanced_folds (length X)) reps.
Proof.
  intros Hrun.
  destruct (konvid1k_folds_inv _ _ _ _ _ Hrun) as [reps [Hreps ->]].
  exists (map (map (@sides B)) reps).
  split; [apply concat_map|].
  split; [rewrite length_map, (for_each_st_length _ _ _ Hreps); reflexivity|].
  apply (@for_each_st_Forall _ _ _ _
           (fun fs => kfold_partition (length X) (map (@sides B) fs) /\
                      balanced_folds (length X) (map (@sides B) fs))) in Hreps.
  - split; apply Forall_map; eapply Forall_impl; try exact Hreps;
      intros fs Hfs; apply Hfs.
  - intros i st0 fs st1 Hfs.
    destruct (konvid1k_repetition_inv _ _ _ _ _ _ Hfs)
      as [splits [st2 [Hsplit [Hloop _]]]].
    assert (Hsides : map (@sides B) fs = splits).
    { apply Forall2_map_right.
      apply (@for_each_st_Forall2 _ _ _ _ (fun split f => sides f = split)) in Hloop;
        [exact Hloop|].
      intros split st3 f st4 Hf.
      destruct (per_fold_inv _ _ _ _ _ _ Hf) as [_ [_ [_ [_ [Hs _]]]]]. exact Hs. }
    rewrite Hsides.
    destruct (kfold_split_returned _ _ Hsplit) as [_ [Hpart Hbal]].
    split; assumption.
Qed.

End FoldSplits.

(** ** Runs of the further properties on the concrete instances *)

Section MoreRuns.
Import Sklearn Regression Instances VideoUtility FrameArithmetic DatasetHandler Style Run.

(** The witness of X4. *)
Lemma get_frames_diff_unknown_color_mode_witness :
  get_frames three_frame_reader "clip.yuv" "yuv420p" "bgr" 432 768 true
  = Raise TypeError.
Proof.
  apply (@get_frames_diff_unknown_color_mode three_frame_reader
           "clip.yuv" "yuv420p" "bgr" 432 768).
  - simpl. discriminate.
  - discriminate.
  - discriminate.
Defined.

(** The witness of X5: an mp4 file read with two different settings. *)
Lemma get_frames_unused_parameters_witness :
  get_frames three_frame_reader "clip.mp4" "yuv420p" "rgb" 0 0 true
  = get_frames three_frame_reader "clip.mp4" "yuv444p" "gray" 432 768 true.
Proof.
  apply (proj2 (get_frames_unused_parameters three_frame_reader
                  "clip.mp4" "rgb" 0 0 true)).
  reflexivity.
Defined.

(** The witness of X6. *)
Lemma get_frames_differences_restore_frames_witness :
  exists items,
    get_frames three_frame_reader "clip.yuv" "yuv420p" "rgb" 432 768 true
      = Ok (Array items) /\
    forall i, S i < length three_frames ->
      wrap_add (nth i items []) (nth i three_frames []) = nth (S i) three_frames [].
Proof.
  apply (@get_frames_differences_restore_frames three_frame_reader
           "clip.yuv" "yuv420p" "rgb" 432 768 2 three_frames).
  - reflexivity.
  - repeat constructor.
  - repeat constructor; lia.
Defined.

(** The witness of X7. *)
Lemma get_frames_differences_shape_witness :
  exists items,
    get_frames three_frame_reader "clip.yuv" "yuv420p" "rgb" 432 768 true
      = Ok (Array items) /\
    length items = length three_frames - 1 /\
    (three_frames = [] -> items = []) /\
    Forall (fun d => uint8_frame d /\ length d = 2) items.
Proof.
  apply (@get_frames_differences_shape three_frame_reader
           "clip.yuv" "yuv420p" "rgb" 432 768 2 three_frames).
  - reflexivity.
  - repeat constructor.
Defined.

(** The witness of X9: the two videos of [csiq_text]. *)
Lemma get_csiq_info_rows_in_order_witness :
  exists videos dmos,
    get_csiq_info digits_value csiq_text = Ok (videos, dmos) /\
    length videos = length (file_lines csiq_text) - 1 /\
    length dmos = length videos /\
    forall i name, nth_error videos i = Some name ->
      exists line score,
        nth_error (file_lines csiq_text) (S i) = Some line /\
        csiq_row digits_value line = Ok (name, score) /\
        nth_error dmos i = Some score.
Proof.
  destruct (get_csiq_info digits_value csiq_text) as [[videos dmos]|e] eqn:Hrun.
  - exists videos, dmos. split; [reflexivity|].
    exact (@get_csiq_info_rows_in_order nat digits_value csiq_text videos dmos Hrun).
  - vm_compute in Hrun. discriminate Hrun.
Defined.

(** The witness of X10: a blank line after the first video. *)
Lemma get_csiq_info_short_line_witness :
  returns (get_csiq_info digits_value "name dmos
a.yuv 12

") = false.
Proof.
  apply (@get_csiq_info_short_line nat digits_value "name dmos
a.yuv 12

" 2 (String "010" EmptyString)).
  - lia.
  - reflexivity.
  - simpl. lia.
Defined.

(** The witness of X11: two names and a trailing newline, two scores. *)
Lemma get_live_info_counts_witness :
  exists videos dmos,
    get_live_info digits_value "a.yuv
b.yuv
" "12	3
345	6" = Ok (videos, dmos) /\
    length videos = S (count_char "010" "a.yuv
b.yuv
") /\
    length dmos = S (count_char "010" "12	3
345	6") /\
    (forall stem, "a.yuv
b.yuv
"%string = (stem ++ String "010" EmptyString)%string ->
                  last videos "?"%string = EmptyString).
Proof.
  destruct (get_live_info digits_value "a.yuv
b.yuv
" "12	3
345	6") as [[videos dmos]|e] eqn:Hrun.
  - exists videos, dmos. split; [reflexivity|].
    exact (@get_live_info_counts nat digits_value _ _ videos dmos Hrun).
  - vm_compute in Hrun. discriminate Hrun.
Defined.

(** The witness of X12. *)
Lemma get_live_info_trailing_newline_witness :
  get_live_info digits_value "a.yuv" ("12	3" ++ String "010" EmptyString)
  = Raise ValueError.
Proof.
  apply (@get_live_info_trailing_newline nat digits_value "a.yuv" "12	3").
  reflexivity.
Defined.

(** The witness of X13: conv2_1 on a network with a module after '5'. *)
Lemma get_frame_features_records_forward_pass_witness :
  exists features x,
    get_frame_features (Torch.mkTensor [1; 2; 1; 2] [1; 2; 3; 4]%Z)
      (first_modules ++ ("5"%string, doubling) :: last_modules)
      (Some default_layers) = Returns features /\
    forward (first_modules ++ [("5"%string, doubling)])
      (Torch.mkTensor [1; 2; 1; 2] [1; 2; 3; 4]%Z) = Ok x /\
    dict_get features "conv2_1" = Some x.
Proof.
  destruct (get_frame_features (Torch.mkTensor [1; 2; 1; 2] [1; 2; 3; 4]%Z)
              (first_modules ++ ("5"%string, doubling) :: last_modules)
              (Some default_layers)) as [features|ex] eqn:Hrun.
  - destruct (@get_frame_features_records_forward_pass Z
                (Torch.mkTensor [1; 2; 1; 2] [1; 2; 3; 4]%Z)
                first_modules last_modules
                "5" doubling default_layers "conv2_1" features)
      as [x [Hforward Hget]].
    + reflexivity.
    + intros m [<- | []]. discriminate.
    + exact Hrun.
    + exists features, x. split; [reflexivity|]. split; assumption.
  - vm_compute in Hrun. discriminate Hrun.
Defined.

(** The witness of X14: a module that refuses, after the last style layer. *)
Lemma get_frame_features_runs_whole_network_witness :
  get_frame_features (Torch.mkTensor [1; 2; 1; 2] [1; 2; 3; 4]%Z)
    (small_model ++ [("30"%string, refusing)]) None
  = Throws (Builtin RuntimeError).
Proof.
  apply (proj1 (@get_frame_features_runs_whole_network Z
                  (Torch.mkTensor [1; 2; 1; 2] [1; 2; 3; 4]%Z)
                  (small_model ++ [("30"%string, refusing)]) None)).
  reflexivity.
Defined.

(** The witness of X15: two frames through [small_model]. *)
Lemma get_video_style_features_descriptors_witness :
  exists video_features,
    get_video_style_features 0%Z Z.add Z.mul to_tensor
      [[1; 2; 3; 4]; [0; 1; 0; 1]]%Z small_model = Returns video_features /\
    length video_features = length [[1; 2; 3; 4]; [0; 1; 0; 1]]%Z /\
    Forall2 (style_descriptor 0%Z Z.add Z.mul to_tensor small_model)
            [[1; 2; 3; 4]; [0; 1; 0; 1]]%Z video_features.
Proof.
  destruct (get_video_style_features 0%Z Z.add Z.mul to_tensor
              [[1; 2; 3; 4]; [0; 1; 0; 1]]%Z small_model)
    as [video_features|ex] eqn:Hrun.
  - exists video_features. split; [reflexivity|].
    exact (@get_video_style_features_descriptors Z 0%Z Z.add Z.mul (list Z)
             to_tensor small_model _ video_features Hrun).
  - vm_compute in Hrun. discriminate Hrun.
Defined.

(** The witness of X16: a network whose modules are named '1' and '5'. *)
Lemma get_video_style_features_missing_layer_witness :
  get_video_style_features 0%Z Z.add Z.mul to_tensor
    ([1; 2; 3; 4]%Z :: [[0; 1; 0; 1]%Z])
    [("1", keeping); ("5", doubling)]%string
  = Throws (KeyError "conv1_1").
Proof.
  eapply (@get_video_style_features_missing_layer Z 0%Z Z.add Z.mul (list Z)
            to_tensor [("1", keeping); ("5", doubling)]%string).
  - intros m [<- | [<- | []]]; discriminate.
  - reflexivity.
  - vm_compute. reflexivity.
Defined.

(** The witness of X17: two LIVE videos, with and without [frame_diff]. *)
Lemma videoset_frame_feats_live_ignores_frame_diff_witness :
  videoset_frame_feats 0%Z Z.add Z.mul three_frame_reader to_tensor slash_join
    small_model ["a.yuv"; "b.yuv"]%string "videos" "LIVE" true
  = videoset_frame_feats 0%Z Z.add Z.mul three_frame_reader to_tensor slash_join
      small_model ["a.yuv"; "b.yuv"]%string "videos" "LIVE" false.
Proof.
  apply (@videoset_frame_feats_live_ignores_frame_diff Z 0%Z Z.add Z.mul
           three_frame_reader to_tensor slash_join small_model).
  reflexivity.
Defined.

(** The witness of X18: a decoder that yields nothing. *)
Lemma video_without_frames_gives_no_features_witness :
  video_features 0%Z Z.add Z.mul (fun _ _ _ _ _ => []) to_tensor slash_join
    small_model "videos" "konvid1k" true "a.mp4"
  = Returns [].
Proof.
  apply (@video_without_frames_gives_no_features Z 0%Z Z.add Z.mul
           (fun _ _ _ _ _ => []) to_tensor slash_join small_model).
  intros height width as_grey pix_fmt. reflexivity.
Defined.

(** The witness of X19. *)
Lemma live_split_sizes_witness :
  exists splits st',
    live_splits rotating 0 names150 (fun _ => 7) 150 150 = Ok (splits, st') /\
    Forall four_to_one splits.
Proof.
  apply (@live_split_sizes rotating rotating_lawful 0 names150 (fun _ => 7)).
  unfold names150. rewrite repeat_length. lia.
Defined.

(** The witness of X20: seven videos given to the LIVE evaluation. *)
Lemma live_needs_150_videos_witness :
  live_dataset_regression integers rotating 0 names150 (fun _ => 7) X7 y7 "svr"
  = Raise ValueError.
Proof.
  apply (@live_needs_150_videos integers rotating 0 names150 (fun _ => 7) X7 y7 "svr").
  - unfold names150. rewrite repeat_length. lia.
  - left. vm_compute. discriminate.
Defined.

(** The witness of X21: a video list of one name. *)
Lemma live_short_video_list_witness :
  live_dataset_regression integers rotating 0 ["a.yuv"%string] (fun _ => 7)
    X150 y150 "svr"
  = Raise IndexError.
Proof.
  apply (@live_short_video_list integers rotating 0 ["a.yuv"%string] (fun _ => 7)
           X150 y150 "svr").
  simpl. lia.
Defined.

(** The witness of X22: a method nobody implements. *)
Lemma unknown_method_never_returns_witness :
  returns (konvid1k_dataset_regression integers rotating 0 X10 y10 "ridge") = false.
Proof.
  apply (proj2 (unknown_method_never_returns integers rotating) 0 X10 y10 "ridge"%string);
    discriminate.
Defined.

(** The witness of X23: 'SVR' on LIVE. *)
Lemma method_name_capitalisation_witness :
  returns (live_dataset_regression integers rotating 0 names150 (fun _ => 7)
             X150 y150 "SVR") = false.
Proof.
  apply (proj2 (method_name_capitalisation integers rotating)
           0 names150 (fun _ => 7) X150 y150 "SVR"%string).
  discriminate.
Defined.

(** The witness of X24. *)
Lemma konvid1k_folds_balanced_witness :
  exists reps st',
    konvid1k_splits rotating 0 7 = Ok (reps, st') /\
    Forall (balanced_folds 7) reps.
Proof.
  apply (@konvid1k_folds_balanced rotating rotating_lawful 0 7). lia.
Defined.

(** The witness of X25: three videos. *)
Lemma konvid1k_too_few_videos_witness :
  konvid1k_dataset_regression integers rotating 0 (firstn 3 X150) (firstn 3 y150) "svr"
  = Raise ValueError.
Proof.
  apply (@konvid1k_too_few_videos integers rotating 0 (firstn 3 X150)
           (firstn 3 y150) "svr").
  vm_compute. lia.
Defined.

(** The witness of X27: a k-fold run on ten videos and a LIVE run on 150,
    both of which return. *)
Lemma evaluation_returns_fifty_results_witness :
  (exists coefs ps plcc st',
      konvid1k_dataset_regression integers rotating 0 X10 y10 "svr"
        = Ok (coefs, ps, plcc, st') /\
      length coefs = 50 /\ length ps = 50 /\ length plcc = 50) /\
  (exists coefs ps plcc st',
      live_dataset_regression integers rotating 0 names150 (fun _ => 7) X150 y150 "svr"
        = Ok (coefs, ps, plcc, st') /\
      length coefs = 50 /\ length ps = 50 /\ length plcc = 50).
Proof.
  split.
  - destruct (konvid1k_dataset_regression integers rotating 0 X10 y10 "svr")
      as [[[[coefs ps] plcc] st']|e] eqn:Hrun.
    + exists coefs, ps, plcc, st'. split; [reflexivity|].
      exact (proj2 (evaluation_returns_fifty_results integers rotating)
               0 X10 y10 "svr"%string coefs ps plcc st' Hrun).
    + vm_compute in Hrun. discriminate Hrun.
  - destruct (live_dataset_regression integers rotating 0 names150 (fun _ => 7)
                X150 y150 "svr")
      as [[[[coefs ps] plcc] st']|e] eqn:Hrun.
    + exists coefs, ps, plcc, st'. split; [reflexivity|].
      exact (proj1 (evaluation_returns_fifty_results integers rotating)
               0 names150 (fun _ => 7) X150 y150 "svr"%string coefs ps plcc st' Hrun).
    + vm_compute in Hrun. discriminate Hrun.
Defined.


(** The witness of X29: the LIVE run on 150 videos. *)
Lemma live_folds_on_whole_groups_witness :
  exists folds st' groups video_groups,
    live_folds integers rotating 0 names150 (fun _ => 7) X150 y150 "svr"
      = Ok (folds, st') /\
    build_groups names150 (fun _ => 7) = Ok (groups, video_groups) /\
    length folds = 50 /\
    Forall (fun f => whole_groups (sides f) /\
                     groups_apart groups (sides f) /\
                     four_to_one (sides f)) folds.
Proof.
  destruct (live_folds integers rotating 0 names150 (fun _ => 7) X150 y150 "svr")
    as [[folds st']|e] eqn:Hrun.
  - destruct (@live_folds_on_whole_groups integers rotating rotating_lawful
                0 names150 (fun _ => 7) X150 y150 "svr" folds st' Hrun)
      as [groups [video_groups H]].
    exists folds, st', groups, video_groups. split; [reflexivity | exact H].
  - apply (f_equal (@returns _)) in Hrun. vm_compute in Hrun. discriminate Hrun.
Defined.

(** The witness of X30: the k-fold run on ten videos. *)
Lemma konvid1k_folds_are_partitions_witness :
  exists folds st' reps,
    konvid1k_folds integers rotating 0 X10 y10 "svr" = Ok (folds, st') /\
    map (@sides integers) folds = concat reps /\
    length reps = 10 /\
    Forall (kfold_partition (length X10)) reps /\
    Forall (balanced_folds (length X10)) reps.
Proof.
  destruct (konvid1k_folds integers rotating 0 X10 y10 "svr")
    as [[folds st']|e] eqn:Hrun.
  - destruct (@konvid1k_folds_are_partitions integers rotating rotating_lawful
                0 X10 y10 "svr" folds st' Hrun) as [reps H].
    exists folds, st', reps. split; [reflexivity | exact H].
  - apply (f_equal (@returns _)) in Hrun. vm_compute in Hrun. discriminate Hrun.
Defined.

End MoreRuns.
